(** * ARM Serial Wire Debug probe (testjig/production/arm_debug.cpp)

    A shallow embedding of the bit-banged SWD engine of the Fadecandy
    production test jig, and the properties of it that the design
    document states.

    Conventions.  A C [unsigned] / [uint32_t] is a [Z] in [0, 2^32) and
    every operation that can leave that range is followed by [u32].  A
    C [bool] is a [bool]; where C promotes it to an integer the model
    writes [Z.b2z]. *)

From Stdlib Require Import ZArith List Bool String Lia.
Import ListNotations.

Local Open Scope string_scope.
Local Open Scope list_scope.
Local Open Scope Z_scope.

(** ** Machine integers *)

Definition u32 (x : Z) : Z := x mod 2 ^ 32.
Definition u8 (x : Z) : Z := x mod 2 ^ 8.

(** Conversion of an integer to a C [bool]: zero is false. *)
Definition nonzero (x : Z) : bool := negb (x =? 0).

(** ** Packet assembly tools *)

(** [bool ARMDebug::evenParity(uint32_t word)] *)
Definition evenParity (word : Z) : bool :=
  let word := Z.lxor (Z.land word 0xFFFF) (Z.shiftr word 16) in
  let word := Z.lxor (Z.land word 0xFF) (Z.shiftr word 8) in
  let word := Z.lxor (Z.land word 0xF) (Z.shiftr word 4) in
  let word := Z.lxor (Z.land word 0x3) (Z.shiftr word 2) in
  let word := Z.lxor (Z.land word 0x1) (Z.shiftr word 1) in
  nonzero word.

(** [uint8_t ARMDebug::packHeader(unsigned addr, bool APnDP, bool RnW)] *)
Definition packHeader (addr : Z) (APnDP RnW : bool) : Z :=
  let a2 := nonzero (Z.land (Z.shiftr addr 2) 1) in
  let a3 := nonzero (Z.land (Z.shiftr addr 3) 1) in
  let parity := xorb (xorb (xorb APnDP RnW) a2) a3 in
  u8 (Z.lor (Z.lor (Z.lor (Z.lor (Z.lor
        (Z.shiftl 1 0)
        (Z.shiftl (Z.b2z APnDP) 1))
        (Z.shiftl (Z.b2z RnW) 2))
        (Z.shiftl (Z.land addr 0xC) 1))
        (Z.shiftl (Z.b2z parity) 5))
        (Z.shiftl 1 7)).

(** ** Reference notions for the parity claims *)

(** Number of set bits among the low [n] bits of [w]. *)
Fixpoint popcount (n : nat) (w : Z) : nat :=
  match n with
  | O => O
  | S k => ((if Z.testbit w (Z.of_nat k) then 1 else 0) + popcount k w)%nat
  end.

(** Exclusive or of the low [n] bits of [w]. *)
Fixpoint xorBits (n : nat) (w : Z) : bool :=
  match n with
  | O => false
  | S k => xorb (Z.testbit w (Z.of_nat k)) (xorBits k w)
  end.

(** One folding step of [evenParity]: the low [k] bits xor the rest. *)
Definition foldHalf (k : nat) (w : Z) : Z :=
  Z.lxor (Z.land w (Z.ones (Z.of_nat k))) (Z.shiftr w (Z.of_nat k)).

(** ** Registers and constants *)

(** [enum DebugPortReg] *)
Definition ABORT : Z := 0x0.
Definition IDCODE : Z := 0x0.
Definition CTRLSTAT : Z := 0x4.
Definition SELECT : Z := 0x8.
Definition RDBUFF : Z := 0xC.

(** [enum CtrlStatBit].  [1 << 31] taken as the 32-bit pattern. *)
Definition CSYSPWRUPACK : Z := Z.shiftl 1 31.
Definition CSYSPWRUPREQ : Z := Z.shiftl 1 30.
Definition CDBGPWRUPACK : Z := Z.shiftl 1 29.
Definition CDBGPWRUPREQ : Z := Z.shiftl 1 28.

(** [enum MemPortReg] *)
Definition MEM_CSW : Z := 0x00.
Definition MEM_TAR : Z := 0x04.
Definition MEM_DRW : Z := 0x0C.
Definition MEM_IDR : Z := 0xFC.

(** ** The probe, the board and the history *)

(** Arduino pin modes and levels ([LOW] is [false], [HIGH] is [true]). *)
Inductive PinMode : Type := OUTPUT | INPUT_PULLUP.
Definition LOW : bool := false.
Definition HIGH : bool := true.

(** What the probe did to the pins, oldest first. *)
Inductive GpioOp : Type :=
| PinModeOp (pin : Z) (mode : PinMode)
| DigitalWriteOp (pin : Z) (level : bool).

(** A line handed to [Serial.println]: the format and its arguments
    (the text [vsnprintf] makes of them is not modelled). *)
Definition LogLine : Type := (string * list Z)%type.

(** History of completed debug-port transactions: register address,
    APnDP, the 32-bit payload (for a read: the value left in the
    out-parameter) and the boolean returned.  [DpInit] marks the point
    where [begin] invalidates the SELECT cache. *)
Inductive DpTxn : Type :=
| DpInit
| DpW (addr : Z) (APnDP : bool) (data : Z) (ok : bool)
| DpR (addr : Z) (APnDP : bool) (data : Z) (ok : bool).

(** History of completed access-port register accesses. *)
Inductive ApTxn : Type :=
| ApW (accessPort addr data : Z) (ok : bool)
| ApR (accessPort addr data : Z) (ok : bool).

(** The state threaded through every member function.

    - [clockPin], [dataPin], [logLevel], [cache_select]: the data
      members of [class ARMDebug] ([cache.select] for the last).
    - [serialReady], [serial]: the Arduino [Serial] object, as the
      boolean it converts to and the lines printed so far.
    - [gpio], [pulses]: the pin operations performed so far and the
      number of clock pulses (LOW then HIGH on the clock pin) among them.
    - [dpLog], [apLog]: history variables; the C++ object has no such
      members, they only record which transactions were performed. *)
Record ARMDebug : Type := mkARMDebug {
  clockPin : Z;
  dataPin : Z;
  logLevel : Z;
  cache_select : Z;
  serialReady : bool;
  serial : list LogLine;
  gpio : list GpioOp;
  pulses : nat;
  dpLog : list DpTxn;
  apLog : list ApTxn
}.

Definition set_config (c d l : Z) (s : ARMDebug) : ARMDebug :=
  mkARMDebug c d l (cache_select s) (serialReady s) (serial s)
             (gpio s) (pulses s) (dpLog s) (apLog s).

Definition set_cache_select (v : Z) (s : ARMDebug) : ARMDebug :=
  mkARMDebug (clockPin s) (dataPin s) (logLevel s) v (serialReady s) (serial s)
             (gpio s) (pulses s) (dpLog s) (apLog s).

Definition println (l : LogLine) (s : ARMDebug) : ARMDebug :=
  mkARMDebug (clockPin s) (dataPin s) (logLevel s) (cache_select s)
             (serialReady s) (serial s ++ [l])
             (gpio s) (pulses s) (dpLog s) (apLog s).

Definition gpioOp (o : GpioOp) (s : ARMDebug) : ARMDebug :=
  mkARMDebug (clockPin s) (dataPin s) (logLevel s) (cache_select s)
             (serialReady s) (serial s)
             (gpio s ++ [o]) (pulses s) (dpLog s) (apLog s).

Definition tick (s : ARMDebug) : ARMDebug :=
  mkARMDebug (clockPin s) (dataPin s) (logLevel s) (cache_select s)
             (serialReady s) (serial s)
             (gpio s) (S (pulses s)) (dpLog s) (apLog s).

Definition recordDp (t : DpTxn) (s : ARMDebug) : ARMDebug :=
  mkARMDebug (clockPin s) (dataPin s) (logLevel s) (cache_select s)
             (serialReady s) (serial s)
             (gpio s) (pulses s) (dpLog s ++ [t]) (apLog s).

Definition recordAp (t : ApTxn) (s : ARMDebug) : ARMDebug :=
  mkARMDebug (clockPin s) (dataPin s) (logLevel s) (cache_select s)
             (serialReady s) (serial s)
             (gpio s) (pulses s) (dpLog s) (apLog s ++ [t]).

(** Arduino [pinMode] and [digitalWrite]: recorded, no other effect. *)
Definition pinMode (pin : Z) (mode : PinMode) (s : ARMDebug) : ARMDebug :=
  gpioOp (PinModeOp pin mode) s.

Definition digitalWrite (pin : Z) (level : bool) (s : ARMDebug) : ARMDebug :=
  gpioOp (DigitalWriteOp pin level) s.

(** [digitalWrite(clockPin, LOW); digitalWrite(clockPin, HIGH);]
    one clock pulse, which is what the target counts. *)
Definition clockPulse (s : ARMDebug) : ARMDebug :=
  let s := digitalWrite (clockPin s) LOW s in
  let s := digitalWrite (clockPin s) HIGH s in
  tick s.

(** Computations that may fail to return: [None] is "still running when
    the fuel ran out". *)
Definition M (A : Type) : Type := option (A * ARMDebug).

Notation "'let*' p := m 'in' k" :=
  (match m with Some p => k | None => None end)
  (at level 10, p pattern, m at level 100, k at level 200, only parsing).

(** A [uint32_t *] argument: the words found at [data[0]], [data[1]], ... *)
Definition Buffer : Type := nat -> Z.

Definition store (buf : Buffer) (i : nat) (v : Z) : Buffer :=
  fun j => if Nat.eqb j i then v else buf j.

(** How the power-up polling loop of [begin] is left: by the [return
    false] inside it, or past its end with these values of the locals. *)
Inductive PollOutcome : Type :=
| PollFailed
| PollLeft (retries ctrlstat : Z).

(** ** The collaborators

    What the probe is given from outside: the wire, and the log levels
    of [arm_debug.h].

    - [line pin n] is the level [digitalRead] finds on [pin] once the
      probe has issued [n] clock pulses: the target (or the pull-up) at
      the other end of the wire.
    - [LOG_ERROR], [LOG_NORMAL], [LOG_TRACE]: the header orders them
      error < normal < trace; only their names are used by the code. *)
Class Env : Type := {
  line : Z -> nat -> bool;
  LOG_ERROR : Z;
  LOG_NORMAL : Z;
  LOG_TRACE : Z
}.

(** ** Scripted targets

    What a target shows on the data line, clock pulse by clock pulse,
    for the transactions of a scenario.  In the cells where the probe
    drives the line it is never sampled; they are filled with [true],
    the level of the pull-up. *)

Fixpoint bitsOf (n : nat) (w : Z) : list bool :=
  match n with
  | O => []
  | S k => Z.odd w :: bitsOf k (Z.shiftr w 1)
  end.

Definition cells (n : nat) : list bool := repeat true n.

(** The three acknowledges, least significant bit first. *)
Definition ACK_OK : list bool := [true; false; false].
Definition ACK_WAIT : list bool := [false; true; false].
Definition ACK_FAULT : list bool := [false; false; true].

(** A read answered OK with the word [w] and its parity bit: 8 header
    bits and the turnaround, the acknowledge, 32 data bits, the parity
    bit, then the turnaround and the 8 idle bits. *)
Definition readOK (w : Z) : list bool :=
  cells 9 ++ ACK_OK ++ bitsOf 32 w ++ [evenParity w] ++ cells 9.

(** The same with the parity bit flipped. *)
Definition readBadParity (w : Z) : list bool :=
  cells 9 ++ ACK_OK ++ bitsOf 32 w ++ [negb (evenParity w)] ++ cells 9.

(** A write answered OK: the probe sends turnaround, data, parity, idle. *)
Definition writeOK : list bool := cells 9 ++ ACK_OK ++ cells 42.

(** An attempt (read or write) answered WAIT, or FAULT. *)
Definition answerWAIT : list bool := cells 9 ++ ACK_WAIT ++ cells 9.
Definition answerFAULT : list bool := cells 9 ++ ACK_FAULT ++ cells 9.

(** Modelled from the spec: the values of the log levels, which
    [arm_debug.h] (not among the sources) declares; the design document
    names them error, normal and trace, in increasing verbosity. *)
Definition ERROR_LEVEL : Z := 1.
Definition NORMAL_LEVEL : Z := 2.
Definition TRACE_LEVEL : Z := 3.

(** A target that plays a script, and one that answers WAIT to every
    attempt of a transaction begun at clock pulse 0. *)
Definition target (l : list bool) : Env :=
  {| line := fun _ n => nth n l true;
     LOG_ERROR := ERROR_LEVEL;
     LOG_NORMAL := NORMAL_LEVEL;
     LOG_TRACE := TRACE_LEVEL |}.

Definition waitingTarget : Env :=
  {| line := fun _ p => Nat.eqb (p mod 21) 10;
     LOG_ERROR := ERROR_LEVEL;
     LOG_NORMAL := NORMAL_LEVEL;
     LOG_TRACE := TRACE_LEVEL |}.

(** A probe object on which [begin] has not run yet, and a link as a
    successful [begin] leaves it (port 0, bank 0 selected), both with
    [Serial] ready, no history and the clock pulses counted from 0. *)
Definition fresh : ARMDebug :=
  mkARMDebug 0 0 0 0 true [] [] 0 [] [].

Definition ready (level : Z) : ARMDebug :=
  mkARMDebug 13 14 level 0 true [] [] 0 [] [].

(** A link whose cache [begin] has just invalidated. *)
Definition invalidated (level : Z) : ARMDebug :=
  mkARMDebug 13 14 level 0xFFFFFFFF true [] [] 0 [] [].

(** The boolean returned and the lines printed. *)
Definition outcome {A : Type} (r : M A) : option (A * list LogLine) :=
  match r with
  | None => None
  | Some (a, s) => Some (a, serial s)
  end.

(** The state in which a computation ends ([d] if it does not). *)
Definition final {A : Type} (r : M A) (d : ARMDebug) : ARMDebug :=
  match r with
  | None => d
  | Some (_, s) => s
  end.

Section Model.

Context {env : Env}.

Definition digitalRead (pin : Z) (s : ARMDebug) : bool :=
  line pin (pulses s).

(** [void ARMDebug::log(int level, const char *fmt, ...)] *)
Definition log (level : Z) (fmt : string) (args : list Z) (s : ARMDebug)
  : ARMDebug :=
  if (level <=? logLevel s) && serialReady s
  then println (fmt, args) s
  else s.

(** *** Wire layer *)

Fixpoint wireWrite_loop (nBits : nat) (data : Z) (s : ARMDebug) : ARMDebug :=
  match nBits with
  | O => s
  | S n =>
      let s := digitalWrite (dataPin s) (nonzero (Z.land data 1)) s in
      let data := Z.shiftr data 1 in
      let s := clockPulse s in
      wireWrite_loop n data s
  end.

(** [void ARMDebug::wireWrite(uint32_t data, unsigned nBits)] *)
Definition wireWrite (data : Z) (nBits : nat) (s : ARMDebug) : ARMDebug :=
  let s := log LOG_TRACE "SWD Write %08x (%d)" [data; Z.of_nat nBits] s in
  wireWrite_loop nBits data s.

Fixpoint wireRead_loop (count : nat) (result mask : Z) (s : ARMDebug)
  : Z * ARMDebug :=
  match count with
  | O => (result, s)
  | S c =>
      let result :=
        if digitalRead (dataPin s) s then Z.lor result mask else result in
      let mask := u32 (Z.shiftl mask 1) in
      let s := clockPulse s in
      wireRead_loop c result mask s
  end.

(** [uint32_t ARMDebug::wireRead(unsigned nBits)] *)
Definition wireRead (nBits : nat) (s : ARMDebug) : Z * ARMDebug :=
  let '(result, s) := wireRead_loop nBits 0 1 s in
  let s := log LOG_TRACE "SWD Read  %08x (%d)" [result; Z.of_nat nBits] s in
  (result, s).

(** [void ARMDebug::wireWriteTurnaround()] *)
Definition wireWriteTurnaround (s : ARMDebug) : ARMDebug :=
  let s := log LOG_TRACE "SWD Write trn" [] s in
  let s := digitalWrite (dataPin s) HIGH s in
  let s := pinMode (dataPin s) INPUT_PULLUP s in
  let s := clockPulse s in
  pinMode (dataPin s) OUTPUT s.

(** [void ARMDebug::wireReadTurnaround()] *)
Definition wireReadTurnaround (s : ARMDebug) : ARMDebug :=
  let s := log LOG_TRACE "SWD Read  trn" [] s in
  let s := digitalWrite (dataPin s) HIGH s in
  let s := pinMode (dataPin s) INPUT_PULLUP s in
  clockPulse s.

(** *** Debug port layer *)

Fixpoint dpWrite_loop (fuel : nat) (retries : Z)
         (addr : Z) (APnDP : bool) (data : Z) (s : ARMDebug) : M bool :=
  match fuel with
  | O => None
  | S fuel =>
      let s := wireWrite (packHeader addr APnDP false) 8 s in
      let s := wireReadTurnaround s in
      let '(ack, s) := wireRead 3 s in
      let s := wireWriteTurnaround s in
      match ack with
      | 1 =>
          let s := wireWrite data 32 s in
          let s := wireWrite (Z.b2z (evenParity data)) 1 s in
          let s := wireWrite 0 8 s in
          Some (true, s)
      | 2 =>
          let s := wireWrite 0 8 s in
          let retries := u32 (retries - 1) in
          (* } while (retries--); *)
          if nonzero retries
          then dpWrite_loop fuel (u32 (retries - 1)) addr APnDP data s
          else
            let s := log LOG_ERROR
                       "WAIT timeout during write (addr=%x APnDP=%d data=%08x)"
                       [addr; Z.b2z APnDP; data] s in
            Some (false, s)
      | 4 =>
          let s := wireWrite 0 8 s in
          let s := log LOG_ERROR
                     "FAULT response during write (addr=%x APnDP=%d data=%08x)"
                     [addr; Z.b2z APnDP; data] s in
          Some (false, s)
      | _ =>
          let s := wireWrite 0 8 s in
          let s := log LOG_ERROR
                     "PROTOCOL ERROR response during write (ack=%x addr=%x APnDP=%d data=%08x)"
                     [ack; addr; Z.b2z APnDP; data] s in
          Some (false, s)
      end
  end.

(** [bool ARMDebug::dpWrite(unsigned addr, bool APnDP, uint32_t data)] *)
Definition dpWrite (fuel : nat) (addr : Z) (APnDP : bool) (data : Z)
           (s : ARMDebug) : M bool :=
  let s := log LOG_TRACE "DP  Write [%x:%x] %08x"
             [addr; Z.b2z APnDP; data] s in
  let* (ok, s) := dpWrite_loop fuel 10 addr APnDP data s in
  Some (ok, recordDp (DpW addr APnDP data ok) s).

Fixpoint dpRead_loop (fuel : nat) (retries : Z)
         (addr : Z) (APnDP : bool) (data : Z) (s : ARMDebug) : M (bool * Z) :=
  match fuel with
  | O => None
  | S fuel =>
      let s := wireWrite (packHeader addr APnDP true) 8 s in
      let s := wireReadTurnaround s in
      let '(ack, s) := wireRead 3 s in
      match ack with
      | 1 =>
          let '(data, s) := wireRead 32 s in
          let '(parity, s) := wireRead 1 s in
          if negb (parity =? Z.b2z (evenParity data)) then
            let s := wireWriteTurnaround s in
            let s := wireWrite 0 8 s in
            let s := log LOG_ERROR
                       "PARITY ERROR during read (addr=%x APnDP=%d data=%08x)"
                       [addr; Z.b2z APnDP; data] s in
            Some ((false, data), s)
          else
            let s := wireWriteTurnaround s in
            let s := wireWrite 0 8 s in
            let s := log LOG_TRACE "DP  Read  [%x:%x] %08x"
                       [addr; Z.b2z APnDP; data] s in
            Some ((true, data), s)
      | 2 =>
          let s := wireWriteTurnaround s in
          let s := wireWrite 0 8 s in
          let retries := u32 (retries - 1) in
          (* } while (retries--); *)
          if nonzero retries
          then dpRead_loop fuel (u32 (retries - 1)) addr APnDP data s
          else
            let s := log LOG_ERROR
                       "WAIT timeout during read (addr=%x APnDP=%d)"
                       [addr; Z.b2z APnDP] s in
            Some ((false, data), s)
      | 4 =>
          let s := wireWriteTurnaround s in
          let s := wireWrite 0 8 s in
          let s := log LOG_ERROR
                     "FAULT response during read (addr=%x APnDP=%d)"
                     [addr; Z.b2z APnDP] s in
          Some ((false, data), s)
      | _ =>
          let s := wireWriteTurnaround s in
          let s := wireWrite 0 8 s in
          let s := log LOG_ERROR
                     "PROTOCOL ERROR response during read (ack=%x addr=%x APnDP=%d)"
                     [ack; addr; Z.b2z APnDP] s in
          Some ((false, data), s)
      end
  end.

(** [bool ARMDebug::dpRead(unsigned addr, bool APnDP, uint32_t &data)]
    The argument [data] is what the caller's variable holds at the
    call, the [Z] of the result what it holds at the return. *)
Definition dpRead (fuel : nat) (addr : Z) (APnDP : bool) (data : Z)
           (s : ARMDebug) : M (bool * Z) :=
  let* ((ok, data), s) := dpRead_loop fuel 10 addr APnDP data s in
  Some ((ok, data), recordDp (DpR addr APnDP data ok) s).

(** [uint32_t select = (accessPort << 24) | (addr & 0xF0);] *)
Definition selectValue (accessPort addr : Z) : Z :=
  Z.lor (u32 (Z.shiftl accessPort 24)) (Z.land addr 0xF0).

(** [bool ARMDebug::dpSelect(unsigned accessPort, unsigned addr)] *)
Definition dpSelect (fuel : nat) (accessPort addr : Z) (s : ARMDebug)
  : M bool :=
  let select := selectValue accessPort addr in
  if negb (select =? cache_select s) then
    let* (ok, s) := dpWrite fuel SELECT false select s in
    if negb ok then Some (false, s)
    else Some (true, set_cache_select select s)
  else Some (true, s).

(** *** Access port layer *)

(** [bool ARMDebug::apWrite(unsigned accessPort, unsigned addr, uint32_t data)] *)
Definition apWrite (fuel : nat) (accessPort addr data : Z) (s : ARMDebug)
  : M bool :=
  let* (ok, s) :=
    (let* (sel, s) := dpSelect fuel accessPort addr s in
     if sel then dpWrite fuel addr true data s else Some (false, s)) in
  Some (ok, recordAp (ApW accessPort addr data ok) s).

(** [bool ARMDebug::apRead(unsigned accessPort, unsigned addr, uint32_t &data)] *)
Definition apRead (fuel : nat) (accessPort addr data : Z) (s : ARMDebug)
  : M (bool * Z) :=
  let* ((ok, data), s) :=
    (let* (sel, s) := dpSelect fuel accessPort addr s in
     if sel then dpRead fuel addr true data s else Some ((false, data), s)) in
  Some ((ok, data), recordAp (ApR accessPort addr data ok) s).

(** *** Memory access *)

Fixpoint memStore_loop (fuel : nat) (count : nat) (addr : Z)
         (data : Buffer) (i : nat) (s : ARMDebug) : M bool :=
  match count with
  | O => Some (true, s)
  | S count =>
      let s := log LOG_TRACE "MEM Store [%08x] %08x" [addr; data i] s in
      let* (ok, s) := apWrite fuel 0 MEM_DRW (data i) s in
      if negb ok then Some (false, s)
      else memStore_loop fuel count (u32 (addr + 1)) data (S i) s
  end.

(** [bool ARMDebug::memStore(uint32_t addr, uint32_t *data, unsigned count)] *)
Definition memStoreN (fuel : nat) (addr : Z) (data : Buffer) (count : nat)
           (s : ARMDebug) : M bool :=
  let* (ok, s) := apWrite fuel 0 MEM_TAR addr s in
  if negb ok then Some (false, s)
  else memStore_loop fuel count addr data 0%nat s.

Fixpoint memLoad_loop (fuel : nat) (count : nat) (addr : Z)
         (data : Buffer) (i : nat) (s : ARMDebug) : M (bool * Buffer) :=
  match count with
  | O => Some ((true, data), s)
  | S count =>
      let* ((ok, w), s) := apRead fuel 0 MEM_DRW (data i) s in
      let data := store data i w in
      if negb ok then Some ((false, data), s)
      else
        let s := log LOG_TRACE "MEM Load  [%08x] %08x" [addr; data i] s in
        memLoad_loop fuel count (u32 (addr + 1)) data (S i) s
  end.

(** [bool ARMDebug::memLoad(uint32_t addr, uint32_t *data, unsigned count)] *)
Definition memLoadN (fuel : nat) (addr : Z) (data : Buffer) (count : nat)
           (s : ARMDebug) : M (bool * Buffer) :=
  let* (ok, s) := apWrite fuel 0 MEM_TAR addr s in
  if negb ok then Some ((false, data), s)
  else memLoad_loop fuel count addr data 0%nat s.

(** [bool ARMDebug::memStore(uint32_t addr, uint32_t data)]: the
    one-word buffer is the parameter [data] itself. *)
Definition memStore (fuel : nat) (addr data : Z) (s : ARMDebug) : M bool :=
  memStoreN fuel addr (fun _ => data) 1 s.

(** [bool ARMDebug::memLoad(uint32_t addr, uint32_t &data)]: the
    one-word buffer is the caller's variable behind the reference. *)
Definition memLoad (fuel : nat) (addr data : Z) (s : ARMDebug)
  : M (bool * Z) :=
  let* ((ok, buf), s) := memLoadN fuel addr (fun _ => data) 1 s in
  Some ((ok, buf 0%nat), s).

(** *** Link initialisation *)

(** [while (retries--) { ... }] of [begin], [retries] counting down
    from its initial value; leaving by the loop test wraps it. *)
Fixpoint pollPowerUp (fuel : nat) (retries : nat) (ctrlstat : Z)
         (s : ARMDebug) : M PollOutcome :=
  match retries with
  | O => Some (PollLeft (u32 (0 - 1)) ctrlstat, s)
  | S retries =>
      let* ((ok, ctrlstat), s) := dpRead fuel CTRLSTAT false ctrlstat s in
      if negb ok then Some (PollFailed, s)
      else if Z.land ctrlstat (Z.lor CDBGPWRUPACK CSYSPWRUPACK)
              =? Z.lor CDBGPWRUPACK CSYSPWRUPACK
           then Some (PollLeft (Z.of_nat retries) ctrlstat, s)
           else pollPowerUp fuel retries ctrlstat s
  end.

(** [bool ARMDebug::begin(unsigned clockPin, unsigned dataPin, LogLevel logLevel)]
    [junk] is whatever the uninitialised locals [idcode], [ctrlstat]
    and [idr] hold before their first assignment. *)
Definition begin (fuel : nat) (clockPin dataPin logLevel : Z) (junk : Z)
           (s : ARMDebug) : M bool :=
  let s := set_config clockPin dataPin logLevel s in
  let s := pinMode clockPin OUTPUT s in
  let s := pinMode dataPin INPUT_PULLUP s in
  (* Invalidate cache *)
  let s := recordDp DpInit (set_cache_select 0xFFFFFFFF s) in
  (* Put the bus in a known state, and trigger a JTAG-to-SWD transition. *)
  let s := wireWriteTurnaround s in
  let s := wireWrite 0xFFFFFFFF 32 s in
  let s := wireWrite 0xFFFFFFFF 32 s in
  let s := wireWrite 0xE79E 16 s in
  let s := wireWrite 0xFFFFFFFF 32 s in
  let s := wireWrite 0xFFFFFFFF 32 s in
  let s := wireWrite 0 32 s in
  let s := wireWrite 0 32 s in
  (* Retrieve IDCODE *)
  let* ((ok, idcode), s) := dpRead fuel IDCODE false junk s in
  if negb ok then
    Some (false,
          log LOG_ERROR "No ARM processor detected. Check power and cables?"
              [] s)
  else if negb (Z.land idcode 0x0FF00001 =? 0x0ba00001) then
    Some (false,
          log LOG_ERROR
              "ARM Debug Port has an incorrect part number (IDCODE: %08x)"
              [idcode] s)
  else
  let s := log LOG_NORMAL "Found ARM processor debug port (IDCODE: %08x)"
             [idcode] s in
  (* Initialize CTRL/STAT, request system and debugger power-up *)
  let* (ok, s) :=
    dpWrite fuel CTRLSTAT false (Z.lor CSYSPWRUPREQ CDBGPWRUPREQ) s in
  if negb ok then Some (false, s) else
  (* Wait for power-up acknowledgment *)
  let* (polled, s) := pollPowerUp fuel 4 junk s in
  match polled with
  | PollFailed => Some (false, s)
  | PollLeft retries ctrlstat =>
      if negb (nonzero retries) then
        Some (false,
              log LOG_ERROR
                  "ARMDebug: Debug port failed to power on (CTRLSTAT: %08x)"
                  [ctrlstat] s)
      else
      (* Make sure the default debug access port is an AHB port *)
      let* ((ok, idr), s) := apRead fuel 0 MEM_IDR junk s in
      if negb ok then Some (false, s)
      else if negb (Z.land idr 0xF =? 1) then
        Some (false,
              log LOG_ERROR
                  "ARMDebug: Default access port is not an AHB-AP as expected! (IDR: %08x)"
                  [idr] s)
      else
      (* Set up default CSW values for the AHB-AP. *)
      let csw := Z.lor (Z.lor (Z.shiftl 1 6) (Z.shiftl 1 4)) (Z.shiftl 2 0) in
      let* (ok, s) := apWrite fuel 0 MEM_CSW csw s in
      if negb ok then Some (false, s)
      else Some (true, s)
  end.

(** ** Notions used to state the properties *)

(** The value the target presents in [n] successive bit cells of [pin],
    least significant bit first, from clock pulse [p] on. *)
Fixpoint lineBits (pin : Z) (p : nat) (n : nat) : Z :=
  match n with
  | O => 0
  | S k => Z.lor (Z.b2z (line pin p)) (Z.shiftl (lineBits pin (S p) k) 1)
  end.

(** [s'] is [s] after [n] more clock pulses: the members of the object,
    the state of [Serial] and the transaction histories are the same. *)
Definition advance (n : nat) (s s' : ARMDebug) : Prop :=
  clockPin s' = clockPin s /\
  dataPin s' = dataPin s /\
  logLevel s' = logLevel s /\
  cache_select s' = cache_select s /\
  serialReady s' = serialReady s /\
  dpLog s' = dpLog s /\
  apLog s' = apLog s /\
  pulses s' = (pulses s + n)%nat.

(** The pin operations of one write turnaround and of one written bit. *)
Definition turnaroundOps (d c : Z) : list GpioOp :=
  [DigitalWriteOp d HIGH; PinModeOp d INPUT_PULLUP;
   DigitalWriteOp c LOW; DigitalWriteOp c HIGH; PinModeOp d OUTPUT].

Definition bitOps (d c : Z) (b : bool) : list GpioOp :=
  [DigitalWriteOp d b; DigitalWriteOp c LOW; DigitalWriteOp c HIGH].

Definition idleOps (d c : Z) : list GpioOp :=
  List.concat (repeat (bitOps d c false) 8).

(** The acknowledge the target gives to the [k]-th attempt (from 0) of
    a transaction started in [s]: an attempt answered by WAIT takes 21
    clock pulses, and the acknowledge follows the 8 header bits and the
    turnaround. *)
Definition ackAt (s : ARMDebug) (k : nat) : Z :=
  lineBits (dataPin s) (pulses s + 21 * k + 9) 3.

(** [s'] is [s] after a debug-port transaction recorded as [t] that
    took [n] clock pulses: as [advance], with [t] added to [dpLog]. *)
Definition transacted (t : DpTxn) (n : nat) (s s' : ARMDebug) : Prop :=
  clockPin s' = clockPin s /\
  dataPin s' = dataPin s /\
  logLevel s' = logLevel s /\
  cache_select s' = cache_select s /\
  serialReady s' = serialReady s /\
  dpLog s' = dpLog s ++ [t] /\
  apLog s' = apLog s /\
  pulses s' = (pulses s + n)%nat.

(** In the [k]-th attempt of a read started in [s] the target answers
    OK and sends the word [w] with a parity bit that does not match. *)
Definition parityErrorAt (s : ARMDebug) (k : nat) (w : Z) : Prop :=
  ackAt s k = 1 /\
  w = lineBits (dataPin s) (pulses s + 21 * k + 12) 32 /\
  lineBits (dataPin s) (pulses s + 21 * k + 44) 1 <> Z.b2z (evenParity w).

(** A write to the debug port's SELECT register, as the header names
    it: a debug-port access whose address bits 2..3 are those of
    [SELECT]. *)
Definition isSelectWrite (t : DpTxn) : bool :=
  match t with
  | DpW addr false _ _ => Z.land addr 0xC =? SELECT
  | _ => false
  end.

Definition selectWrites (l : list DpTxn) : list DpTxn :=
  filter isSelectWrite l.

(** The SELECT value most recently transmitted, in a history: that of
    the last SELECT write that succeeded since the cache was last
    invalidated; none yet is the invalid value [begin] stores. *)
Definition selectStep (acc : Z) (t : DpTxn) : Z :=
  match t with
  | DpInit => 0xFFFFFFFF
  | DpW addr APnDP data ok =>
      if isSelectWrite t && ok then data else acc
  | DpR _ _ _ _ => acc
  end.

Definition lastSelect (l : list DpTxn) : Z :=
  fold_left selectStep l 0xFFFFFFFF.

(** An access-port register access of either direction. *)
Inductive ApCall : Type :=
| ApCallW (data : Z)
| ApCallR (data : Z).

Definition apCall (fuel : nat) (accessPort addr : Z) (c : ApCall)
           (s : ARMDebug) : M bool :=
  match c with
  | ApCallW data => apWrite fuel accessPort addr data s
  | ApCallR data =>
      let* ((ok, _), s) := apRead fuel accessPort addr data s in
      Some (ok, s)
  end.

(** The states a link goes through: [begin] from any state, then any
    sequence of memory and access-port operations that return. *)
Inductive Reachable : ARMDebug -> Prop :=
| reach_begin fuel c d l junk s0 ok s :
    begin fuel c d l junk s0 = Some (ok, s) -> Reachable s
| reach_memStoreN fuel addr data count s ok s' :
    Reachable s -> memStoreN fuel addr data count s = Some (ok, s') ->
    Reachable s'
| reach_memLoadN fuel addr data count s r s' :
    Reachable s -> memLoadN fuel addr data count s = Some (r, s') ->
    Reachable s'
| reach_memStore fuel addr data s ok s' :
    Reachable s -> memStore fuel addr data s = Some (ok, s') ->
    Reachable s'
| reach_memLoad fuel addr data s r s' :
    Reachable s -> memLoad fuel addr data s = Some (r, s') ->
    Reachable s'
| reach_apCall fuel accessPort addr c s ok s' :
    Reachable s -> apCall fuel accessPort addr c s = Some (ok, s') ->
    Reachable s'
| reach_dpSelect fuel accessPort addr s ok s' :
    Reachable s -> dpSelect fuel accessPort addr s = Some (ok, s') ->
    Reachable s'.

(** The DRW writes of words [i], [i+1], ... [i+n-1] of a buffer, all
    successful, and the debug-port transaction of an access-port one. *)
Definition drwWrites (data : Buffer) (i n : nat) : list ApTxn :=
  map (fun j => ApW 0 MEM_DRW (data j) true) (seq i n).

Definition apToDp (t : ApTxn) : DpTxn :=
  match t with
  | ApW _ addr data ok => DpW addr true data ok
  | ApR _ addr data ok => DpR addr true data ok
  end.

(** Some debug-port write (read) does not return within [fuel]
    attempts: the only way an operation built on them can fail to
    return. *)
Definition writeStuck (fuel : nat) : Prop :=
  exists addr APnDP data s, dpWrite fuel addr APnDP data s = None.

Definition readStuck (fuel : nat) : Prop :=
  exists addr APnDP data s, dpRead fuel addr APnDP data s = None.

(** What an access-port access recorded as [e] does to the histories
    and to the cache, [select] being the SELECT value it needs:
    nothing to select, a SELECT write that fails (and nothing else), or
    a SELECT write followed by the access itself. *)
Definition apEffect (select : Z) (e : ApTxn) (ok : bool)
           (s s' : ARMDebug) : Prop :=
  apLog s' = apLog s ++ [e] /\
  ((select = cache_select s /\
    dpLog s' = dpLog s ++ [apToDp e] /\
    cache_select s' = cache_select s) \/
   (select <> cache_select s /\ ok = false /\
    dpLog s' = dpLog s ++ [DpW SELECT false select false] /\
    cache_select s' = cache_select s) \/
   (select <> cache_select s /\
    dpLog s' = dpLog s ++ [DpW SELECT false select true; apToDp e] /\
    cache_select s' = select)).

(** Since the [begin] called in [s0], no SELECT write has been made up
    to [s] and the cache holds the invalid value; or the first SELECT
    write made since then wrote [v]. *)
Definition unselected (s0 s : ARMDebug) : Prop :=
  exists pre,
    selectWrites pre = [] /\
    dpLog s = dpLog s0 ++ DpInit :: pre /\
    apLog s = apLog s0 /\
    cache_select s = 0xFFFFFFFF.

Definition selectedFirst (v : Z) (s0 s : ARMDebug) : Prop :=
  exists pre ok post,
    selectWrites pre = [] /\
    dpLog s = dpLog s0 ++ DpInit :: pre ++ DpW SELECT false v ok :: post.

(** The cache holds the SELECT value most recently transmitted. *)
Definition coherent (s : ARMDebug) : Prop :=
  cache_select s = lastSelect (dpLog s).

(** ** Notions for the wire-level properties *)

(** The pin operations of [wireWrite data nBits]: bit [i] of [data] on
    the data pin, then one clock pulse, for [i] from 0. *)
Definition writeOps (d c : Z) (data : Z) (nBits : nat) : list GpioOp :=
  List.concat
    (map (fun i => bitOps d c (Z.testbit data (Z.of_nat i))) (seq 0 nBits)).

(** The pin operations of [wireRead nBits]: clock pulses only. *)
Definition clockOps (c : Z) (nBits : nat) : list GpioOp :=
  List.concat (repeat [DigitalWriteOp c LOW; DigitalWriteOp c HIGH] nBits).

(** The pin operations of a read turnaround. *)
Definition readTurnaroundOps (d c : Z) : list GpioOp :=
  [DigitalWriteOp d HIGH; PinModeOp d INPUT_PULLUP;
   DigitalWriteOp c LOW; DigitalWriteOp c HIGH].

(** [s'] is [s] after [n] more clock pulses and some more pin
    operations. *)
Definition wired (n : nat) (s s' : ARMDebug) : Prop :=
  advance n s s' /\ exists more, gpio s' = gpio s ++ more.

(** The diagnostic of a write, or of a read, refused with the
    acknowledge [ack] (neither OK nor WAIT): FAULT has its own. *)
Definition writeRefusal (ack addr : Z) (APnDP : bool) (data : Z) : LogLine :=
  if ack =? 4
  then ("FAULT response during write (addr=%x APnDP=%d data=%08x)",
        [addr; Z.b2z APnDP; data])
  else ("PROTOCOL ERROR response during write (ack=%x addr=%x APnDP=%d data=%08x)",
        [ack; addr; Z.b2z APnDP; data]).

Definition readRefusal (ack addr : Z) (APnDP : bool) : LogLine :=
  if ack =? 4
  then ("FAULT response during read (addr=%x APnDP=%d)", [addr; Z.b2z APnDP])
  else ("PROTOCOL ERROR response during read (ack=%x addr=%x APnDP=%d)",
        [ack; addr; Z.b2z APnDP]).

(** The first attempt of a transaction started in [s] that is not
    answered by WAIT is attempt [k]. *)
Definition answeredAt (s : ARMDebug) (k : nat) : Prop :=
  (forall j, (j < k)%nat -> ackAt s j = 2) /\ ackAt s k <> 2.

(** The DRW reads that filled words [i], [i+1], ... [i+n-1] of a
    buffer, all successful. *)
Definition drwReads (data : Buffer) (i n : nat) : list ApTxn :=
  map (fun j => ApR 0 MEM_DRW (data j) true) (seq i n).

(** The members [begin] sets, and the state of [Serial]. *)
Definition config (s : ARMDebug) : Z * Z * Z * bool :=
  (clockPin s, dataPin s, logLevel s, serialReady s).

(** A successful read of CTRLSTAT, as the power-up polling makes them. *)
Definition isPoll (t : DpTxn) : bool :=
  match t with
  | DpR addr false _ true => addr =? CTRLSTAT
  | _ => false
  end.

(** The part-number test [begin] applies to IDCODE. *)
Definition partNumberOk (idcode : Z) : bool :=
  Z.land idcode 0x0FF00001 =? 0x0ba00001.

(** The value read by a transaction has both power-up acknowledge bits
    set: what ends the polling of [begin]. *)
Definition powered (t : DpTxn) : bool :=
  match t with
  | DpR _ _ data _ =>
      Z.land data (Z.lor CDBGPWRUPACK CSYSPWRUPACK)
      =? Z.lor CDBGPWRUPACK CSYSPWRUPACK
  | _ => false
  end.

Definition unpowered (t : DpTxn) : bool := negb (powered t).

(** ** Notions for the independence from the verbosity *)

(** Two probe states that differ at most in the log level and in the
    state of [Serial]. *)
Definition sameWire (s t : ARMDebug) : Prop :=
  clockPin s = clockPin t /\
  dataPin s = dataPin t /\
  cache_select s = cache_select t /\
  gpio s = gpio t /\
  pulses s = pulses t /\
  dpLog s = dpLog t /\
  apLog s = apLog t.

(** Two runs that both fail to return, or return the same value in
    states that differ at most so. *)
Definition sameRun {A : Type} (r r' : M A) : Prop :=
  match r, r' with
  | Some (a, s), Some (a', s') => a = a' /\ sameWire s s'
  | None, None => True
  | _, _ => False
  end.

(** ** Notions for the start of the link *)

(** [s'] has the pin operations of [s], and possibly more after them. *)
Definition grows (s s' : ARMDebug) : Prop :=
  exists more, gpio s' = gpio s ++ more.

(** The state in which [begin] makes its first transaction. *)
Definition afterPreamble (c d l : Z) (s0 : ARMDebug) : ARMDebug :=
  wireWrite 0 32
    (wireWrite 0 32
       (wireWrite 0xFFFFFFFF 32
          (wireWrite 0xFFFFFFFF 32
             (wireWrite 0xE79E 16
                (wireWrite 0xFFFFFFFF 32
                   (wireWrite 0xFFFFFFFF 32
                      (wireWriteTurnaround
                         (recordDp DpInit
                            (set_cache_select 0xFFFFFFFF
                               (pinMode d INPUT_PULLUP
                                  (pinMode c OUTPUT
                                     (set_config c d l s0)))))))))))).

(** The pin operations [begin] starts with, on data pin [d] and clock
    pin [c]: the pins configured, a turnaround, at least fifty clock
    pulses with the line high, the 16-bit JTAG-to-SWD sequence, the line
    high again, and two idle words. *)
Definition preambleOps (d c : Z) : list GpioOp :=
  [PinModeOp c OUTPUT; PinModeOp d INPUT_PULLUP]
  ++ turnaroundOps d c
  ++ writeOps d c 0xFFFFFFFF 32
  ++ writeOps d c 0xFFFFFFFF 32
  ++ writeOps d c 0xE79E 16
  ++ writeOps d c 0xFFFFFFFF 32
  ++ writeOps d c 0xFFFFFFFF 32
  ++ writeOps d c 0 32
  ++ writeOps d c 0 32.

(** ** Notions for the trace of a transaction *)

(** The pin operations of an attempt up to its acknowledge: the header
    [hdr], least significant bit first, a read turnaround and the three
    clock pulses of the acknowledge. *)
Definition attemptOps (d c hdr : Z) : list GpioOp :=
  writeOps d c hdr 8 ++ readTurnaroundOps d c ++ clockOps c 3.

(** The pin operations of an attempt answered by WAIT. *)
Definition waitOps (d c hdr : Z) : list GpioOp :=
  attemptOps d c hdr ++ turnaroundOps d c ++ idleOps d c.

(** ** Notions for what is printed *)

(** [s'] has the log level and the [Serial] of [s], nothing printed in
    between. *)
Definition hushed (s s' : ARMDebug) : Prop :=
  logLevel s' = logLevel s /\
  serialReady s' = serialReady s /\
  serial s' = serial s.

(** The diagnostic of a read whose parity check failed on [w]. *)
Definition parityDiagnostic (addr : Z) (APnDP : bool) (w : Z) : LogLine :=
  ("PARITY ERROR during read (addr=%x APnDP=%d data=%08x)",
   [addr; Z.b2z APnDP; w]).

(** ** Notions for the transactions on the wire *)

(** The acknowledge the target gives to the [k]-th attempt of a
    transaction started after [p] clock pulses, read on pin [d]; and
    the first attempt not answered by WAIT being attempt [k]. *)
Definition ackOn (d : Z) (p k : nat) : Z :=
  lineBits d (p + 21 * k + 9) 3.

Definition answeredOn (d : Z) (p k : nat) : Prop :=
  (forall j, (j < k)%nat -> ackOn d p j = 2) /\ ackOn d p k <> 2.

(** The pin operations of a complete write, and of a complete read,
    whose first [k] attempts are answered by WAIT: the last attempt
    sends the data and its parity, or clocks in 33 bits, only if it is
    acknowledged OK. *)
Definition writeTrace (d c hdr data : Z) (k : nat) (ok : bool)
  : list GpioOp :=
  List.concat (repeat (waitOps d c hdr) k)
  ++ attemptOps d c hdr
  ++ turnaroundOps d c
  ++ (if ok then writeOps d c data 32 ++ bitOps d c (evenParity data)
      else [])
  ++ idleOps d c.

Definition readTrace (d c hdr : Z) (k : nat) (acked : bool)
  : list GpioOp :=
  List.concat (repeat (waitOps d c hdr) k)
  ++ attemptOps d c hdr
  ++ (if acked then clockOps c 33 else [])
  ++ turnaroundOps d c
  ++ idleOps d c.

(** The transaction recorded as [t] is what happens on the pins [d]
    and [c] between clock pulse [p], with the pin operations [ops] made
    so far, and clock pulse [p'] with [ops']:
    - the pin operations added are those of the transaction, header
      included, and no others;
    - the boolean recorded is what the target's acknowledge (and, for a
      read, the parity bit it sends) decides;
    - the word recorded for a read acknowledged OK is the one the
      target sends;
    - [DpInit] stands for what [begin] does before its first
      transaction. *)
Definition txnOnWire (d c : Z) (t : DpTxn)
           (p : nat) (ops : list GpioOp) (p' : nat) (ops' : list GpioOp)
  : Prop :=
  match t with
  | DpInit =>
      p' = (p + 209)%nat /\ ops' = ops ++ preambleOps d c
  | DpW addr APnDP data ok =>
      exists k,
        answeredOn d p k /\
        ok = (ackOn d p k =? 1) /\
        p' = (p + 21 * k + if ok then 54 else 21)%nat /\
        ops' = ops ++ writeTrace d c (packHeader addr APnDP false) data k ok
  | DpR addr APnDP data ok =>
      exists k,
        answeredOn d p k /\
        ok = (ackOn d p k =? 1)
             && (lineBits d (p + 21 * k + 44) 1
                 =? Z.b2z (evenParity (lineBits d (p + 21 * k + 12) 32))) /\
        (ackOn d p k = 1 -> data = lineBits d (p + 21 * k + 12) 32) /\
        p' = (p + 21 * k + if (ackOn d p k =? 1)%Z then 54 else 21)%nat /\
        ops' = ops ++ readTrace d c (packHeader addr APnDP true) k
                                (ackOn d p k =? 1)
  end.

(** The transactions [txns], one after the other. *)
Fixpoint onWire (d c : Z) (txns : list DpTxn)
         (p : nat) (ops : list GpioOp) (p' : nat) (ops' : list GpioOp)
  : Prop :=
  match txns with
  | [] => p' = p /\ ops' = ops
  | t :: rest =>
      exists p1 ops1,
        txnOnWire d c t p ops p1 ops1 /\ onWire d c rest p1 ops1 p' ops'
  end.

(** Between [s] and [s'] the transactions [txns], and nothing else,
    were recorded and took place on the wire. *)
Definition realised (d c : Z) (txns : list DpTxn) (s s' : ARMDebug)
  : Prop :=
  dpLog s' = dpLog s ++ txns /\
  onWire d c txns (pulses s) (gpio s) (pulses s') (gpio s').

(** From [s] the transactions [done] take place on the wire, and then
    the target answers WAIT to [fuel] attempts in a row. *)
Definition stalled (fuel : nat) (d c : Z) (done : list DpTxn)
           (s : ARMDebug) : Prop :=
  exists p1 ops1,
    onWire d c done (pulses s) (gpio s) p1 ops1 /\
    forall j, (j < fuel)%nat -> ackOn d p1 j = 2.

(** The same, [s] and [s'] having the same pins, which are those the
    transactions went over. *)
Definition performed (txns : list DpTxn) (s s' : ARMDebug) : Prop :=
  realised (dataPin s) (clockPin s) txns s s' /\
  dataPin s' = dataPin s /\ clockPin s' = clockPin s.

(** The DRW writes of words [i], [i+1], ... [i+n-1] of a buffer, and
    the DRW reads that filled them, each acknowledged OK. *)
Definition wordsWritten (data : Buffer) (i n : nat) : list DpTxn :=
  map (fun j => DpW MEM_DRW true (data j) true) (seq i n).

Definition wordsRead (data : Buffer) (i n : nat) : list DpTxn :=
  map (fun j => DpR MEM_DRW true (data j) true) (seq i n).

(** The SELECT write a memory operation started in [s] needs first:
    none if port 0, bank 0 is the cached selection. *)
Definition selectMemory (s : ARMDebug) : list DpTxn :=
  if cache_select s =? 0 then [] else [DpW SELECT false 0 true].

(** A run started in [s] went over the wire as recorded: it returned
    after transactions that took place as they are recorded, or it is
    still running because the target stalled after such transactions. *)
Definition carried (fuel : nat) {A : Type} (m : M A) (s : ARMDebug)
  : Prop :=
  match m with
  | Some (_, s') => exists txns, performed txns s s'
  | None => exists done, stalled fuel (dataPin s) (clockPin s) done s
  end.

End Model.

(** ** Scenarios *)

(** The preamble of [begin]: a turnaround, the line reset, the
    JTAG-to-SWD switch, another line reset and the idle words. *)
Definition preamble : list bool := cells 209.

(** A target that identifies itself and answers every transaction of
    [begin], but never sets a power-up acknowledge bit in CTRLSTAT. *)
Definition neverPowered : list bool :=
  preamble ++ readOK 0x2BA01477 ++ writeOK
  ++ readOK 0 ++ readOK 0 ++ readOK 0 ++ readOK 0
  ++ writeOK ++ readOK 0x24770011 ++ writeOK ++ writeOK.

(** The same target, with both acknowledge bits set from the fourth
    read of CTRLSTAT on. *)
Definition poweredAtFourthRead : list bool :=
  preamble ++ readOK 0x2BA01477 ++ writeOK
  ++ readOK 0 ++ readOK 0 ++ readOK 0 ++ readOK 0xF0000000
  ++ writeOK ++ readOK 0x24770011 ++ writeOK ++ writeOK.

(** A healthy target. *)
Definition healthy : list bool :=
  preamble ++ readOK 0x2BA01477 ++ writeOK ++ readOK 0xF0000000
  ++ writeOK ++ readOK 0x24770011 ++ writeOK ++ writeOK.

Definition tenWaits : list bool := List.concat (repeat answerWAIT 10).
Definition nineWaits : list bool := List.concat (repeat answerWAIT 9).

Definition threeWords : Buffer :=
  fun i => nth i [0x11; 0x22; 0x33] 0.

(** Runs used below. *)

Definition badParityRead : M (bool * Z) :=
  dpRead (env := target (readBadParity 0x1234))
         1 RDBUFF false 77 (ready ERROR_LEVEL).

Definition storeThree : M bool :=
  memStoreN (env := target (writeOK ++ writeOK ++ writeOK ++ writeOK))
            1 0x20000000 threeWords 3 (ready TRACE_LEVEL).

Definition storeThreeFaulted : M bool :=
  memStoreN (env := target (writeOK ++ writeOK ++ answerFAULT))
            1 0x20000000 threeWords 3 (ready ERROR_LEVEL).

Definition twoAccesses : list bool :=
  writeOK ++ readOK 0x24770011 ++ writeOK.

Definition firstAccess : M bool :=
  apCall (env := target twoAccesses)
         1 0 MEM_IDR (ApCallR 0) (invalidated ERROR_LEVEL).

Definition secondAccess : M bool :=
  apCall (env := target twoAccesses)
         1 0 0xF4 (ApCallW 5) (final firstAccess fresh).

Definition neverPoweredBegin : M bool :=
  begin (env := target neverPowered) 1 13 14 NORMAL_LEVEL 0 fresh.

Definition poweredLateBegin : M bool :=
  begin (env := target poweredAtFourthRead) 1 13 14 NORMAL_LEVEL 0 fresh.

Definition healthyBegin : M bool :=
  begin (env := target healthy)
        1 13 14 NORMAL_LEVEL 0 fresh.

(** A load of two words from a target that answers every transaction,
    and the buffer it leaves. *)
Definition twoWords : list bool :=
  writeOK ++ readOK 0xAA ++ readOK 0xBB.

Definition loadTwo : M (bool * Buffer) :=
  memLoadN (env := target twoWords) 1 0x20000000 (fun _ => 0) 2
           (ready ERROR_LEVEL).

Definition loadedWords : Buffer :=
  match loadTwo with
  | Some ((_, buf), _) => buf
  | None => fun _ => 0
  end.

(** A target whose IDCODE does not pass the part-number test. *)
Definition wrongPart : list bool := preamble ++ readOK 0xFFFFFFFF.

Definition wrongPartBegin : M bool :=
  begin (env := target wrongPart) 1 13 14 NORMAL_LEVEL 0 fresh.

(** Two accesses to port 0, bank 0 after a [begin] that left that
    selection in the cache. *)
Definition cachedTarget : list bool := healthy ++ writeOK ++ writeOK.

Definition cachedBegin : M bool :=
  begin (env := target cachedTarget) 1 13 14 NORMAL_LEVEL 0 fresh.

Definition cachedFirst : M bool :=
  apCall (env := target cachedTarget)
         1 0 MEM_TAR (ApCallW 5) (final cachedBegin fresh).

Definition cachedSecond : M bool :=
  apCall (env := target cachedTarget)
         1 0 MEM_DRW (ApCallW 7) (final cachedFirst fresh).

(** Two accesses to port 0, bank 0 with the cache invalid, the first
    SELECT write answered by FAULT. *)
Definition refusingTarget : list bool := answerFAULT ++ writeOK ++ writeOK.

Definition refusedFirst : M bool :=
  apCall (env := target refusingTarget)
         1 0 MEM_TAR (ApCallW 5) (invalidated ERROR_LEVEL).

Definition refusedSecond : M bool :=
  apCall (env := target refusingTarget)
         1 0 MEM_DRW (ApCallW 7) (final refusedFirst fresh).


(** * Properties *)

Section Proofs.

Context {env : Env}.

(** ** Packet assembly *)

Lemma xorBits_odd_popcount n w : xorBits n w = Nat.odd (popcount n w).
Proof.
  induction n as [|k IH]; cbn [xorBits popcount]; [reflexivity|].
  rewrite Nat.odd_add, IH. destruct (Z.testbit w (Z.of_nat k)); reflexivity.
Qed.

Lemma xorBits_lxor n a b : xorBits n (Z.lxor a b) = xorb (xorBits n a) (xorBits n b).
Proof.
  induction n as [|k IH]; cbn [xorBits]; [reflexivity|].
  rewrite Z.lxor_spec, IH.
  destruct (Z.testbit a (Z.of_nat k)), (Z.testbit b (Z.of_nat k)),
    (xorBits k a), (xorBits k b); reflexivity.
Qed.

Lemma xorBits_ext n a b :
  (forall i, 0 <= i < Z.of_nat n -> Z.testbit a i = Z.testbit b i) ->
  xorBits n a = xorBits n b.
Proof.
  induction n as [|k IH]; intros H; cbn [xorBits]; [reflexivity|].
  rewrite H by lia. rewrite IH; [reflexivity|]. intros i Hi. apply H. lia.
Qed.

Lemma xorBits_low n k w : (n <= k)%nat ->
  xorBits n (Z.land w (Z.ones (Z.of_nat k))) = xorBits n w.
Proof.
  intros Hnk. apply xorBits_ext. intros i Hi.
  rewrite Z.land_spec, Z.ones_spec_low by lia. apply andb_true_r.
Qed.

Lemma xorBits_split n k w :
  xorBits (n + k) w = xorb (xorBits k w) (xorBits n (Z.shiftr w (Z.of_nat k))).
Proof.
  induction n as [|m IH]; cbn [xorBits Nat.add].
  - now rewrite xorb_false_r.
  - rewrite IH, Z.shiftr_spec by lia.
    replace (Z.of_nat m + Z.of_nat k) with (Z.of_nat (m + k)) by lia.
    destruct (Z.testbit w (Z.of_nat (m + k))), (xorBits k w),
      (xorBits m (Z.shiftr w (Z.of_nat k))); reflexivity.
Qed.

Lemma xorBits_foldHalf k w : xorBits k (foldHalf k w) = xorBits (k + k) w.
Proof.
  unfold foldHalf. rewrite xorBits_lxor, xorBits_low by lia.
  now rewrite xorBits_split.
Qed.

Lemma lxor_range a b n :
  0 <= n -> 0 <= a < 2 ^ n -> 0 <= b < 2 ^ n -> 0 <= Z.lxor a b < 2 ^ n.
Proof.
  intros Hn Ha Hb.
  assert (H0 : 0 <= Z.lxor a b) by (apply Z.lxor_nonneg; lia).
  split; [exact H0|].
  destruct (Z.eq_dec n 0) as [->|Hn0].
  { assert (a = 0) by (change (2 ^ 0) with 1 in Ha; lia).
    assert (b = 0) by (change (2 ^ 0) with 1 in Hb; lia).
    subst. reflexivity. }
  destruct (Z.eq_dec (Z.lxor a b) 0) as [E|E]; [rewrite E; lia|].
  apply Z.log2_lt_pow2; [lia|].
  eapply Z.le_lt_trans; [apply Z.log2_lxor; lia|].
  apply Z.max_lub_lt.
  - destruct (Z.eq_dec a 0) as [->|]; [cbn; lia|]. apply Z.log2_lt_pow2; lia.
  - destruct (Z.eq_dec b 0) as [->|]; [cbn; lia|]. apply Z.log2_lt_pow2; lia.
Qed.

Lemma foldHalf_range k w :
  0 <= w < 2 ^ Z.of_nat (k + k) -> 0 <= foldHalf k w < 2 ^ Z.of_nat k.
Proof.
  intros Hw. unfold foldHalf. apply lxor_range; [lia| |].
  - rewrite Z.land_ones by lia. apply Z.mod_pos_bound. lia.
  - rewrite Z.shiftr_div_pow2 by lia. split.
    + apply Z.div_pos; lia.
    + apply Z.div_lt_upper_bound; [lia|].
      rewrite <- Z.pow_add_r by lia.
      replace (Z.of_nat k + Z.of_nat k) with (Z.of_nat (k + k)) by lia. lia.
Qed.

Lemma evenParity_foldHalf w :
  evenParity w = nonzero (foldHalf 1 (foldHalf 2 (foldHalf 4 (foldHalf 8 (foldHalf 16 w))))).
Proof. reflexivity. Qed.

(** C4.  For every 32-bit word, [evenParity] is 1 exactly when the word
    has an odd number of set bits: the xor-folding by halves (16, 8, 4,
    2, 1) computes the population count modulo 2. *)
Theorem evenParity_popcount (w : Z) :
  0 <= w < 2 ^ 32 ->
  evenParity w = Nat.odd (popcount 32 w) /\
  Z.b2z (evenParity w) = Z.of_nat (popcount 32 w mod 2).
Proof.
  intros Hw.
  assert (E : evenParity w = Nat.odd (popcount 32 w)); cycle 1.
  { split; [exact E|]. rewrite E.
    rewrite <- Nat.bit0_mod, Nat.bit0_odd.
    destruct (Nat.odd (popcount 32 w)); reflexivity. }
  rewrite evenParity_foldHalf, <- xorBits_odd_popcount.
  pose proof (foldHalf_range 16 w Hw) as H16.
  pose proof (foldHalf_range 8 _ H16) as H8.
  pose proof (foldHalf_range 4 _ H8) as H4.
  pose proof (foldHalf_range 2 _ H4) as H2.
  pose proof (foldHalf_range 1 _ H2) as H1.
  rewrite <- (xorBits_foldHalf 16 w : xorBits 16 _ = xorBits 32 w).
  rewrite <- (xorBits_foldHalf 8 _ : xorBits 8 _ = xorBits 16 _).
  rewrite <- (xorBits_foldHalf 4 _ : xorBits 4 _ = xorBits 8 _).
  rewrite <- (xorBits_foldHalf 2 _ : xorBits 2 _ = xorBits 4 _).
  rewrite <- (xorBits_foldHalf 1 _ : xorBits 1 _ = xorBits 2 _).
  set (x := foldHalf 1 _) in *.
  change (2 ^ Z.of_nat 1) with 2 in H1.
  assert (Hx : x = 0 \/ x = 1) by lia.
  destruct Hx as [-> | ->]; reflexivity.
Qed.

Lemma nonzero_b2z b : nonzero (Z.b2z b) = b.
Proof. destruct b; reflexivity. Qed.

Lemma land_1_testbit x : Z.land x 1 = Z.b2z (Z.testbit x 0).
Proof.
  change 1 with (Z.ones 1). rewrite Z.land_ones by lia.
  symmetry. apply Z.bit0_mod.
Qed.

Lemma addr_bit_test addr k :
  0 <= k -> nonzero (Z.land (Z.shiftr addr k) 1) = Z.testbit addr k.
Proof.
  intros Hk. rewrite land_1_testbit, nonzero_b2z, Z.shiftr_spec by lia.
  reflexivity.
Qed.

Lemma land_0xC addr :
  Z.land addr 0xC
  = Z.b2z (Z.testbit addr 2) * 4 + Z.b2z (Z.testbit addr 3) * 8.
Proof.
  apply Z.bits_inj'. intros n Hn. rewrite Z.land_spec.
  destruct (Z.eq_dec n 2) as [->|N2].
  { destruct (Z.testbit addr 2), (Z.testbit addr 3); reflexivity. }
  destruct (Z.eq_dec n 3) as [->|N3].
  { destruct (Z.testbit addr 2), (Z.testbit addr 3); reflexivity. }
  assert (H12 : Z.testbit 0xC n = false).
  { destruct (Z.eq_dec n 0) as [->|]; [reflexivity|].
    destruct (Z.eq_dec n 1) as [->|]; [reflexivity|].
    apply Z.bits_above_log2; [lia|]. change (Z.log2 0xC) with 3. lia. }
  rewrite H12, andb_false_r. symmetry.
  destruct (Z.testbit addr 2), (Z.testbit addr 3); cbn [Z.b2z Z.mul Z.add];
    try apply Z.bits_0;
    (destruct (Z.eq_dec n 0) as [->|]; [reflexivity|];
     destruct (Z.eq_dec n 1) as [->|]; [reflexivity|];
     apply Z.bits_above_log2; [lia|]; cbn; lia).
Qed.

(** C5.  Whatever the address and the two flags, the header has bit 0
    (start) set, APnDP in bit 1, RnW in bit 2, address bits 2 and 3 in
    bits 3 and 4, the xor of those four in bit 5, bit 6 (stop) clear and
    bit 7 (park) set, and nothing above bit 7. *)
Theorem packHeader_bits (addr : Z) (APnDP RnW : bool) :
  let h := packHeader addr APnDP RnW in
  Z.testbit h 0 = true /\
  Z.testbit h 1 = APnDP /\
  Z.testbit h 2 = RnW /\
  Z.testbit h 3 = Z.testbit addr 2 /\
  Z.testbit h 4 = Z.testbit addr 3 /\
  Z.testbit h 5
  = xorb (xorb (xorb APnDP RnW) (Z.testbit addr 2)) (Z.testbit addr 3) /\
  Z.testbit h 6 = false /\
  Z.testbit h 7 = true /\
  0 <= h < 2 ^ 8.
Proof.
  unfold packHeader. rewrite !addr_bit_test by lia. rewrite land_0xC.
  destruct APnDP, RnW, (Z.testbit addr 2), (Z.testbit addr 3);
    cbv; intuition congruence.
Qed.

(** ** The wire layer *)

Lemma advance_refl s : advance 0 s s.
Proof. unfold advance. rewrite Nat.add_0_r. tauto. Qed.

Lemma advance_trans n m s1 s2 s3 :
  advance n s1 s2 -> advance m s2 s3 -> advance (n + m) s1 s3.
Proof.
  unfold advance. intros (A1 & A2 & A3 & A4 & A5 & A6 & A7 & A8)
                         (B1 & B2 & B3 & B4 & B5 & B6 & B7 & B8).
  repeat split; try congruence. rewrite B8, A8. lia.
Qed.

Lemma advance_eq n m s s' : advance n s s' -> n = m -> advance m s s'.
Proof. intros H <-. exact H. Qed.

Lemma log_advance level fmt args s : advance 0 s (log level fmt args s).
Proof.
  unfold log. destruct ((level <=? logLevel s) && serialReady s).
  - unfold advance. cbn. rewrite Nat.add_0_r. tauto.
  - apply advance_refl.
Qed.

Lemma log_gpio level fmt args s : gpio (log level fmt args s) = gpio s.
Proof.
  unfold log. destruct ((level <=? logLevel s) && serialReady s); reflexivity.
Qed.

Lemma clockPulse_advance s : advance 1 s (clockPulse s).
Proof. unfold advance. cbn. rewrite Nat.add_1_r. tauto. Qed.

Lemma digitalWrite_advance pin level s : advance 0 s (digitalWrite pin level s).
Proof. unfold advance. cbn. rewrite Nat.add_0_r. tauto. Qed.

Lemma pinMode_advance pin mode s : advance 0 s (pinMode pin mode s).
Proof. unfold advance. cbn. rewrite Nat.add_0_r. tauto. Qed.

Lemma wireWrite_loop_advance nBits :
  forall data s, advance nBits s (wireWrite_loop nBits data s).
Proof.
  induction nBits as [|n IH]; intros data s; cbn [wireWrite_loop].
  - apply advance_refl.
  - eapply advance_eq.
    + eapply advance_trans; [|apply IH].
      eapply advance_trans; [apply digitalWrite_advance|apply clockPulse_advance].
    + reflexivity.
Qed.

Lemma wireWrite_advance data nBits s : advance nBits s (wireWrite data nBits s).
Proof.
  unfold wireWrite. eapply advance_eq.
  - eapply advance_trans; [apply log_advance|apply wireWrite_loop_advance].
  - reflexivity.
Qed.

Lemma wireWriteTurnaround_advance s : advance 1 s (wireWriteTurnaround s).
Proof.
  unfold wireWriteTurnaround. eapply advance_eq.
  - eapply advance_trans; [apply log_advance|].
    eapply advance_trans; [apply digitalWrite_advance|].
    eapply advance_trans; [apply pinMode_advance|].
    eapply advance_trans; [apply clockPulse_advance|apply pinMode_advance].
  - reflexivity.
Qed.

Lemma wireReadTurnaround_advance s : advance 1 s (wireReadTurnaround s).
Proof.
  unfold wireReadTurnaround. eapply advance_eq.
  - eapply advance_trans; [apply log_advance|].
    eapply advance_trans; [apply digitalWrite_advance|].
    eapply advance_trans; [apply pinMode_advance|apply clockPulse_advance].
  - reflexivity.
Qed.

(** [wireRead_loop] assembles the bits the line shows, least
    significant first, as long as the mask stays inside 32 bits. *)
Lemma wireRead_loop_spec count :
  forall i result mask s,
    (i + count <= 32)%nat ->
    (count <> O -> mask = 2 ^ Z.of_nat i) ->
    fst (wireRead_loop count result mask s)
    = Z.lor result
            (Z.shiftl (lineBits (dataPin s) (pulses s) count) (Z.of_nat i))
    /\ advance count s (snd (wireRead_loop count result mask s)).
Proof.
  induction count as [|c IH]; intros i result mask s Hi Hmask;
    cbn [wireRead_loop lineBits].
  - cbn [fst snd]. rewrite Z.shiftl_0_l, Z.lor_0_r.
    split; [reflexivity|apply advance_refl].
  - rewrite (Hmask ltac:(discriminate)).
    pose proof (clockPulse_advance s) as Hp.
    destruct (IH (S i)
                (if digitalRead (dataPin s) s
                 then Z.lor result (2 ^ Z.of_nat i) else result)
                (u32 (Z.shiftl (2 ^ Z.of_nat i) 1)) (clockPulse s))
      as [Hv Ha].
    + lia.
    + intros Hc. unfold u32. rewrite Z.shiftl_mul_pow2 by lia.
      rewrite <- Z.pow_add_r by lia.
      replace (Z.of_nat i + 1) with (Z.of_nat (S i)) by lia.
      apply Z.mod_small. split; [lia|].
      apply Z.pow_lt_mono_r; lia.
    + split.
      * rewrite Hv.
        destruct Hp as (_ & Hd & _ & _ & _ & _ & _ & Hq).
        rewrite Hd, Hq, Nat.add_1_r.
        unfold digitalRead.
        set (L := lineBits (dataPin s) (S (pulses s)) c).
        rewrite Z.shiftl_lor, Z.shiftl_shiftl by lia.
        replace (1 + Z.of_nat i) with (Z.of_nat (S i)) by lia.
        destruct (line (dataPin s) (pulses s)); cbn [Z.b2z].
        -- rewrite Z.shiftl_1_l, Z.lor_assoc. reflexivity.
        -- rewrite Z.shiftl_0_l, Z.lor_0_l. reflexivity.
      * eapply advance_eq; [eapply advance_trans; [exact Hp|exact Ha]|].
        reflexivity.
Qed.

Lemma wireRead_spec nBits s :
  (nBits <= 32)%nat ->
  fst (wireRead nBits s) = lineBits (dataPin s) (pulses s) nBits
  /\ advance nBits s (snd (wireRead nBits s)).
Proof.
  intros Hn. unfold wireRead.
  destruct (wireRead_loop_spec nBits 0 0 1 s) as [Hv Ha]; [lia|reflexivity|].
  destruct (wireRead_loop nBits 0 1 s) as [result s1]. cbn [fst snd] in *.
  split.
  - rewrite Hv, Z.lor_0_l, Z.shiftl_0_r. reflexivity.
  - eapply advance_eq; [eapply advance_trans; [exact Ha|apply log_advance]|].
    lia.
Qed.

Lemma wireRead_advance nBits s :
  (nBits <= 32)%nat -> advance nBits s (snd (wireRead nBits s)).
Proof. intros H. apply wireRead_spec, H. Qed.

(** Chains the wire primitives of a straight-line piece of code. *)
Ltac adv :=
  lazymatch goal with
  | |- advance _ ?s ?s => apply advance_refl
  | H : advance _ _ ?x |- advance _ _ ?x =>
      eapply advance_trans; [|exact H]; adv
  | |- advance _ _ (wireWrite _ _ _) =>
      eapply advance_trans; [|apply wireWrite_advance]; adv
  | |- advance _ _ (wireWriteTurnaround _) =>
      eapply advance_trans; [|apply wireWriteTurnaround_advance]; adv
  | |- advance _ _ (wireReadTurnaround _) =>
      eapply advance_trans; [|apply wireReadTurnaround_advance]; adv
  | |- advance _ _ (log _ _ _ _) =>
      eapply advance_trans; [|apply log_advance]; adv
  end.

Ltac advance_by := eapply advance_eq; [adv|reflexivity].

(** ** One attempt of a debug-port transaction *)

(** The acknowledge read in the first attempt is the one the line
    shows 9 clock pulses after the start. *)
Lemma attempt_ack hdr s :
  fst (wireRead 3 (wireReadTurnaround (wireWrite hdr 8 s))) = ackAt s 0
  /\ advance 12 s (snd (wireRead 3 (wireReadTurnaround (wireWrite hdr 8 s)))).
Proof.
  set (s2 := wireReadTurnaround (wireWrite hdr 8 s)).
  assert (H2 : advance 9 s s2) by (subst s2; advance_by).
  destruct (wireRead_spec 3 s2 ltac:(lia)) as [Hv Ha].
  split.
  - rewrite Hv. unfold ackAt.
    destruct H2 as (_ & Hd & _ & _ & _ & _ & _ & Hp).
    rewrite Hd, Hp. f_equal. lia.
  - advance_by.
Qed.

Lemma dpWrite_loop_OK fuel retries addr APnDP data s :
  ackAt s 0 = 1 ->
  exists s', advance 54 s s' /\
    dpWrite_loop (S fuel) retries addr APnDP data s = Some (true, s').
Proof.
  intros Hack. cbn [dpWrite_loop].
  destruct (attempt_ack (packHeader addr APnDP false) s) as [Hv Ha].
  destruct (wireRead 3 _) as [ack s3]. cbn [fst snd] in Hv, Ha.
  rewrite Hv, Hack. cbv beta iota.
  eexists. split; [|reflexivity]. advance_by.
Qed.

Lemma dpWrite_loop_WAIT fuel retries addr APnDP data s :
  ackAt s 0 = 2 ->
  exists s', advance 21 s s' /\
    dpWrite_loop (S fuel) retries addr APnDP data s
    = if nonzero (u32 (retries - 1))
      then dpWrite_loop fuel (u32 (u32 (retries - 1) - 1)) addr APnDP data s'
      else Some (false,
                 log LOG_ERROR
                     "WAIT timeout during write (addr=%x APnDP=%d data=%08x)"
                     [addr; Z.b2z APnDP; data] s').
Proof.
  intros Hack. cbn [dpWrite_loop].
  destruct (attempt_ack (packHeader addr APnDP false) s) as [Hv Ha].
  destruct (wireRead 3 _) as [ack s3]. cbn [fst snd] in Hv, Ha.
  rewrite Hv, Hack. cbv beta iota.
  eexists. split; [|reflexivity]. advance_by.
Qed.

Lemma dpWrite_loop_refused fuel retries addr APnDP data s :
  ackAt s 0 <> 1 -> ackAt s 0 <> 2 ->
  exists s', advance 21 s s' /\
    dpWrite_loop (S fuel) retries addr APnDP data s = Some (false, s').
Proof.
  intros H1 H2. cbn [dpWrite_loop].
  destruct (attempt_ack (packHeader addr APnDP false) s) as [Hv Ha].
  destruct (wireRead 3 _) as [ack s3]. cbn [fst snd] in Hv, Ha.
  rewrite <- Hv in H1, H2.
  destruct ack as [|[[q|q|]|[q|[q|q|]|]|]|q]; try congruence;
    (eexists; split; [|reflexivity]; advance_by).
Qed.

Lemma dpRead_loop_OK fuel retries addr APnDP data s :
  ackAt s 0 = 1 ->
  let w := lineBits (dataPin s) (pulses s + 12) 32 in
  let parity := lineBits (dataPin s) (pulses s + 44) 1 in
  exists s5, advance 45 s s5 /\
    dpRead_loop (S fuel) retries addr APnDP data s
    = if negb (parity =? Z.b2z (evenParity w))
      then Some ((false, w),
                 log LOG_ERROR
                     "PARITY ERROR during read (addr=%x APnDP=%d data=%08x)"
                     [addr; Z.b2z APnDP; w]
                     (wireWrite 0 8 (wireWriteTurnaround s5)))
      else Some ((true, w),
                 log LOG_TRACE "DP  Read  [%x:%x] %08x"
                     [addr; Z.b2z APnDP; w]
                     (wireWrite 0 8 (wireWriteTurnaround s5))).
Proof.
  intros Hack w parity. cbn [dpRead_loop].
  destruct (attempt_ack (packHeader addr APnDP true) s) as [Hv Ha].
  destruct (wireRead 3 _) as [ack s3]. cbn [fst snd] in Hv, Ha.
  rewrite Hv, Hack. cbv beta iota.
  destruct (wireRead_spec 32 s3 ltac:(lia)) as [Hw Ha4].
  destruct (wireRead 32 s3) as [w' s4]. cbn [fst snd] in Hw, Ha4.
  destruct (wireRead_spec 1 s4 ltac:(lia)) as [Hp Ha5].
  destruct (wireRead 1 s4) as [p' s5]. cbn [fst snd] in Hp, Ha5.
  assert (H4 : advance 44 s s4) by advance_by.
  assert (Ew : w' = w).
  { rewrite Hw. subst w.
    destruct Ha as (_ & Hd & _ & _ & _ & _ & _ & Hq). now rewrite Hd, Hq. }
  assert (Ep : p' = parity).
  { rewrite Hp. subst parity.
    destruct H4 as (_ & Hd & _ & _ & _ & _ & _ & Hq). now rewrite Hd, Hq. }
  rewrite Ew, Ep. exists s5. split; [advance_by|reflexivity].
Qed.

Lemma dpRead_loop_WAIT fuel retries addr APnDP data s :
  ackAt s 0 = 2 ->
  exists s', advance 21 s s' /\
    dpRead_loop (S fuel) retries addr APnDP data s
    = if nonzero (u32 (retries - 1))
      then dpRead_loop fuel (u32 (u32 (retries - 1) - 1)) addr APnDP data s'
      else Some ((false, data),
                 log LOG_ERROR "WAIT timeout during read (addr=%x APnDP=%d)"
                     [addr; Z.b2z APnDP] s').
Proof.
  intros Hack. cbn [dpRead_loop].
  destruct (attempt_ack (packHeader addr APnDP true) s) as [Hv Ha].
  destruct (wireRead 3 _) as [ack s3]. cbn [fst snd] in Hv, Ha.
  rewrite Hv, Hack. cbv beta iota.
  eexists. split; [|reflexivity]. advance_by.
Qed.

Lemma dpRead_loop_refused fuel retries addr APnDP data s :
  ackAt s 0 <> 1 -> ackAt s 0 <> 2 ->
  exists s', advance 21 s s' /\
    dpRead_loop (S fuel) retries addr APnDP data s
    = Some ((false, data), s').
Proof.
  intros H1 H2. cbn [dpRead_loop].
  destruct (attempt_ack (packHeader addr APnDP true) s) as [Hv Ha].
  destruct (wireRead 3 _) as [ack s3]. cbn [fst snd] in Hv, Ha.
  rewrite <- Hv in H1, H2.
  destruct ack as [|[[q|q|]|[q|[q|q|]|]|]|q]; try congruence;
    (eexists; split; [|reflexivity]; advance_by).
Qed.

(** ** The retry counter *)

(** [retries] is even at the start of every attempt, so the value the
    loop test [while (retries--)] sees after a WAIT is odd. *)
Lemma odd_u32 x : Z.odd (u32 x) = Z.odd x.
Proof.
  unfold u32. rewrite <- !Z.bit0_odd. apply Z.mod_pow2_bits_low. lia.
Qed.

Lemma retries_after_wait retries :
  Z.even retries = true ->
  nonzero (u32 (retries - 1)) = true
  /\ Z.even (u32 (u32 (retries - 1) - 1)) = true.
Proof.
  intros He.
  assert (Ho : Z.odd (u32 (retries - 1)) = true).
  { rewrite odd_u32, Z.odd_sub, <- Z.negb_even, He. reflexivity. }
  split.
  - unfold nonzero.
    destruct (Z.eqb_spec (u32 (retries - 1)) 0) as [E|]; [|reflexivity].
    rewrite E in Ho. discriminate.
  - rewrite <- Z.negb_odd, odd_u32, Z.odd_sub, Ho. reflexivity.
Qed.

(** ** Attempts answered by WAIT *)

Lemma ackAt_advance j k s s' :
  advance (21 * j) s s' -> ackAt s' k = ackAt s (j + k).
Proof.
  intros (_ & Hd & _ & _ & _ & _ & _ & Hp). unfold ackAt.
  rewrite Hd, Hp. f_equal. lia.
Qed.

Lemma ackAt_same k s s' : advance 0 s s' -> ackAt s' k = ackAt s k.
Proof. intros H. apply (ackAt_advance 0 k s s' H). Qed.

Lemma dpWrite_loop_waits addr APnDP data n :
  forall fuel retries s,
    Z.even retries = true ->
    (forall k, (k < n)%nat -> ackAt s k = 2) ->
    exists retries' s',
      Z.even retries' = true /\ advance (21 * n) s s' /\
      dpWrite_loop (n + fuel) retries addr APnDP data s
      = dpWrite_loop fuel retries' addr APnDP data s'.
Proof.
  induction n as [|n IH]; intros fuel retries s He Hw.
  - exists retries, s. repeat split; [exact He|apply advance_refl].
  - destruct (dpWrite_loop_WAIT (n + fuel) retries addr APnDP data s)
      as (s1 & H1 & E1); [apply Hw; lia|].
    destruct (retries_after_wait retries He) as [Hnz He'].
    rewrite Hnz in E1.
    destruct (IH fuel _ s1 He') as (r' & s' & Hr' & Ha & E).
    + intros k Hk. rewrite (ackAt_advance 1 k s s1 H1). apply Hw. lia.
    + exists r', s'. split; [exact Hr'|]. split.
      * eapply advance_eq; [eapply advance_trans; [exact H1|exact Ha]|]. lia.
      * change (S n + fuel)%nat with (S (n + fuel)). now rewrite E1.
Qed.

Lemma dpRead_loop_waits addr APnDP data n :
  forall fuel retries s,
    Z.even retries = true ->
    (forall k, (k < n)%nat -> ackAt s k = 2) ->
    exists retries' s',
      Z.even retries' = true /\ advance (21 * n) s s' /\
      dpRead_loop (n + fuel) retries addr APnDP data s
      = dpRead_loop fuel retries' addr APnDP data s'.
Proof.
  induction n as [|n IH]; intros fuel retries s He Hw.
  - exists retries, s. repeat split; [exact He|apply advance_refl].
  - destruct (dpRead_loop_WAIT (n + fuel) retries addr APnDP data s)
      as (s1 & H1 & E1); [apply Hw; lia|].
    destruct (retries_after_wait retries He) as [Hnz He'].
    rewrite Hnz in E1.
    destruct (IH fuel _ s1 He') as (r' & s' & Hr' & Ha & E).
    + intros k Hk. rewrite (ackAt_advance 1 k s s1 H1). apply Hw. lia.
    + exists r', s'. split; [exact Hr'|]. split.
      * eapply advance_eq; [eapply advance_trans; [exact H1|exact Ha]|]. lia.
      * change (S n + fuel)%nat with (S (n + fuel)). now rewrite E1.
Qed.

(** A target that answers WAIT for ever keeps both loops running
    whatever the fuel: the retry counter never reaches the value the
    loop test looks for. *)
Lemma dpWrite_loop_all_WAIT addr APnDP data fuel :
  forall retries s,
    Z.even retries = true ->
    (forall k, ackAt s k = 2) ->
    dpWrite_loop fuel retries addr APnDP data s = None.
Proof.
  induction fuel as [|fuel IH]; intros retries s He Hw; [reflexivity|].
  destruct (dpWrite_loop_WAIT fuel retries addr APnDP data s (Hw O))
    as (s1 & H1 & E1).
  destruct (retries_after_wait retries He) as [Hnz He'].
  rewrite E1, Hnz. apply IH; [exact He'|].
  intros k. rewrite (ackAt_advance 1 k s s1 H1). apply Hw.
Qed.

Lemma dpRead_loop_all_WAIT addr APnDP data fuel :
  forall retries s,
    Z.even retries = true ->
    (forall k, ackAt s k = 2) ->
    dpRead_loop fuel retries addr APnDP data s = None.
Proof.
  induction fuel as [|fuel IH]; intros retries s He Hw; [reflexivity|].
  destruct (dpRead_loop_WAIT fuel retries addr APnDP data s (Hw O))
    as (s1 & H1 & E1).
  destruct (retries_after_wait retries He) as [Hnz He'].
  rewrite E1, Hnz. apply IH; [exact He'|].
  intros k. rewrite (ackAt_advance 1 k s s1 H1). apply Hw.
Qed.

(** ** What a returning transaction leaves behind *)

Lemma advance_transacted t n s s' :
  advance n s s' -> transacted t n s (recordDp t s').
Proof.
  intros (A1 & A2 & A3 & A4 & A5 & A6 & A7 & A8).
  unfold transacted. cbn. rewrite A6. tauto.
Qed.

Lemma dpWrite_loop_frame addr APnDP data fuel :
  forall retries s ok s',
    dpWrite_loop fuel retries addr APnDP data s = Some (ok, s') ->
    exists n, advance n s s'.
Proof.
  induction fuel as [|fuel IH]; intros retries s ok s' E; [discriminate|].
  destruct (Z.eq_dec (ackAt s 0) 1) as [A1|A1].
  { destruct (dpWrite_loop_OK fuel retries addr APnDP data s A1)
      as (s1 & H1 & E1).
    rewrite E1 in E. injection E as <- <-. eauto. }
  destruct (Z.eq_dec (ackAt s 0) 2) as [A2|A2].
  { destruct (dpWrite_loop_WAIT fuel retries addr APnDP data s A2)
      as (s1 & H1 & E1).
    rewrite E1 in E. destruct (nonzero (u32 (retries - 1))).
    - destruct (IH _ _ _ _ E) as [n Hn].
      eexists. eapply advance_trans; eassumption.
    - injection E as <- <-. eexists. advance_by. }
  destruct (dpWrite_loop_refused fuel retries addr APnDP data s A1 A2)
    as (s1 & H1 & E1).
  rewrite E1 in E. injection E as <- <-. eauto.
Qed.

Lemma dpWrite_transacted fuel addr APnDP data s ok s' :
  dpWrite fuel addr APnDP data s = Some (ok, s') ->
  exists n, transacted (DpW addr APnDP data ok) n s s'.
Proof.
  unfold dpWrite. intros E.
  destruct (dpWrite_loop fuel 10 addr APnDP data _) as [[ok1 s1]|] eqn:E1;
    [|discriminate].
  injection E as <- <-.
  destruct (dpWrite_loop_frame _ _ _ _ _ _ _ _ E1) as [n Hn].
  exists n. apply advance_transacted. advance_by.
Qed.

Lemma parityErrorAt_advance s s1 k w :
  advance 21 s s1 -> parityErrorAt s1 k w -> parityErrorAt s (S k) w.
Proof.
  intros H1 (Ha & Hw & Hp). unfold parityErrorAt.
  rewrite (ackAt_advance 1 k s s1 H1) in Ha.
  destruct H1 as (_ & Hd & _ & _ & _ & _ & _ & Hq).
  rewrite Hd, Hq in Hw, Hp.
  replace (pulses s + 21 * S k + 12)%nat with (pulses s + 21 + 21 * k + 12)%nat
    by lia.
  replace (pulses s + 21 * S k + 44)%nat with (pulses s + 21 + 21 * k + 44)%nat
    by lia.
  auto.
Qed.

Lemma dpRead_loop_frame addr APnDP data fuel :
  forall retries s ok data' s',
    dpRead_loop fuel retries addr APnDP data s = Some ((ok, data'), s') ->
    (exists n, advance n s s') /\
    (ok = false -> data' = data \/ exists k, parityErrorAt s k data').
Proof.
  induction fuel as [|fuel IH]; intros retries s ok data' s' E; [discriminate|].
  destruct (Z.eq_dec (ackAt s 0) 1) as [A1|A1].
  { pose proof (dpRead_loop_OK fuel retries addr APnDP data s A1) as H.
    cbv zeta in H.
    remember (lineBits (dataPin s) (pulses s + 12) 32) as w eqn:Hw.
    remember (lineBits (dataPin s) (pulses s + 44) 1) as pb eqn:Hpb.
    destruct H as (s5 & H5 & E5). rewrite E5 in E.
    destruct (Z.eqb_spec pb (Z.b2z (evenParity w))) as [P|P];
      cbn [negb] in E; injection E as <- <- <-.
    - split; [eexists; advance_by|discriminate].
    - split; [eexists; advance_by|]. intros _. right. exists O.
      subst pb.
      unfold parityErrorAt. rewrite Nat.mul_0_r, Nat.add_0_r. auto. }
  destruct (Z.eq_dec (ackAt s 0) 2) as [A2|A2].
  { destruct (dpRead_loop_WAIT fuel retries addr APnDP data s A2)
      as (s1 & H1 & E1).
    rewrite E1 in E. destruct (nonzero (u32 (retries - 1))).
    - destruct (IH _ _ _ _ _ E) as [[n Hn] Hd]. split.
      + eexists. eapply advance_trans; eassumption.
      + intros Hok. destruct (Hd Hok) as [->|[k Hk]]; [now left|].
        right. exists (S k). eapply parityErrorAt_advance; eassumption.
    - injection E as <- <- <-. split; [eexists; advance_by|now left]. }
  destruct (dpRead_loop_refused fuel retries addr APnDP data s A1 A2)
    as (s1 & H1 & E1).
  rewrite E1 in E. injection E as <- <- <-. split; [eauto|now left].
Qed.

Lemma dpRead_transacted fuel addr APnDP data s ok data' s' :
  dpRead fuel addr APnDP data s = Some ((ok, data'), s') ->
  exists n, transacted (DpR addr APnDP data' ok) n s s'.
Proof.
  unfold dpRead. intros E.
  destruct (dpRead_loop fuel 10 addr APnDP data s) as [[[ok1 d1] s1]|] eqn:E1;
    [|discriminate].
  injection E as <- <- <-.
  destruct (dpRead_loop_frame _ _ _ _ _ _ _ _ _ E1) as [[n Hn] _].
  exists n. apply advance_transacted, Hn.
Qed.

(** ** Parity errors *)

Lemma wireWriteTurnaround_gpio s :
  gpio (wireWriteTurnaround s)
  = gpio s ++ turnaroundOps (dataPin s) (clockPin s).
Proof.
  unfold wireWriteTurnaround.
  pose proof (log_advance LOG_TRACE "SWD Write trn" [] s) as (Hc & Hd & _).
  pose proof (log_gpio LOG_TRACE "SWD Write trn" [] s) as Hg.
  destruct (log LOG_TRACE "SWD Write trn" [] s). cbn in *.
  rewrite Hc, Hd, Hg. repeat rewrite <- app_assoc. reflexivity.
Qed.

Lemma wireWrite_idle_gpio s :
  gpio (wireWrite 0 8 s) = gpio s ++ idleOps (dataPin s) (clockPin s).
Proof.
  unfold wireWrite.
  pose proof (log_advance LOG_TRACE "SWD Write %08x (%d)" [0; 8] s)
    as (Hc & Hd & _).
  pose proof (log_gpio LOG_TRACE "SWD Write %08x (%d)" [0; 8] s) as Hg.
  change (Z.of_nat 8) with 8.
  destruct (log LOG_TRACE "SWD Write %08x (%d)" [0; 8] s). cbn in *.
  rewrite Hc, Hd, Hg. repeat rewrite <- app_assoc. reflexivity.
Qed.

Lemma drain_gpio s :
  gpio (wireWrite 0 8 (wireWriteTurnaround s))
  = gpio s ++ turnaroundOps (dataPin s) (clockPin s)
           ++ idleOps (dataPin s) (clockPin s).
Proof.
  rewrite wireWrite_idle_gpio, wireWriteTurnaround_gpio.
  destruct (wireWriteTurnaround_advance s) as (-> & -> & _).
  now rewrite <- app_assoc.
Qed.

(** C7.  A read in which the target answers OK (after any number of
    attempts answered by WAIT) and sends a word whose parity bit does
    not match returns false, having logged the parity error; before
    that it performs the write turnaround and sends the 8 idle bits,
    which are the last pin operations of the call, 54 clock pulses
    after the start of the attempt. *)
Theorem dpRead_parity_error fuel addr APnDP data s k w :
  (k < fuel)%nat ->
  (forall j, (j < k)%nat -> ackAt s j = 2) ->
  parityErrorAt s k w ->
  exists s5 s',
    dpRead fuel addr APnDP data s = Some ((false, w), s') /\
    advance (21 * k + 45) s s5 /\
    s' = recordDp (DpR addr APnDP w false)
           (log LOG_ERROR
                "PARITY ERROR during read (addr=%x APnDP=%d data=%08x)"
                [addr; Z.b2z APnDP; w]
                (wireWrite 0 8 (wireWriteTurnaround s5))) /\
    gpio s' = gpio s5 ++ turnaroundOps (dataPin s) (clockPin s)
                      ++ idleOps (dataPin s) (clockPin s) /\
    pulses s' = (pulses s + 21 * k + 54)%nat.
Proof.
  intros Hk Hwait (Hack & Hw & Hp).
  replace fuel with (k + S (fuel - S k))%nat by lia.
  destruct (dpRead_loop_waits addr APnDP data k (S (fuel - S k)) 10 s
              eq_refl Hwait) as (r' & s1 & _ & H1 & E1).
  assert (A1 : ackAt s1 0 = 1).
  { rewrite (ackAt_advance k 0 s s1 H1), Nat.add_0_r. exact Hack. }
  pose proof (dpRead_loop_OK (fuel - S k) r' addr APnDP data s1 A1) as H.
  cbv zeta in H.
  assert (Ed : dataPin s1 = dataPin s) by apply H1.
  assert (Ec : clockPin s1 = clockPin s) by apply H1.
  assert (Eq : pulses s1 = (pulses s + 21 * k)%nat) by apply H1.
  rewrite Ed, Eq, <- Hw in H.
  remember (lineBits (dataPin s) (pulses s + 21 * k + 44) 1) as pb eqn:Hpb.
  destruct H as (s5 & H5 & E5).
  destruct (Z.eqb_spec pb (Z.b2z (evenParity w))) as [P|_]; [contradiction|].
  cbn [negb] in E5.
  assert (A5 : advance (21 * k + 45) s s5) by advance_by.
  eexists s5, _. split; [|split; [exact A5|split; [reflexivity|split]]].
  - unfold dpRead. rewrite E1, E5. reflexivity.
  - cbn [gpio recordDp]. rewrite log_gpio, drain_gpio.
    destruct A5 as (-> & -> & _). reflexivity.
  - assert (A : advance (21 * k + 54) s
                  (log LOG_ERROR
                     "PARITY ERROR during read (addr=%x APnDP=%d data=%08x)"
                     [addr; Z.b2z APnDP; w]
                     (wireWrite 0 8 (wireWriteTurnaround s5))))
      by (eapply advance_eq; [adv|lia]).
    cbn [pulses recordDp].
    destruct A as (_ & _ & _ & _ & _ & _ & _ & Hq). rewrite Hq. lia.
Qed.

(** ** The WAIT retry loop *)

Lemma dpWrite_waits_then_OK fuel addr APnDP data s n :
  (n < fuel)%nat ->
  (forall k, (k < n)%nat -> ackAt s k = 2) ->
  ackAt s n = 1 ->
  exists s',
    dpWrite fuel addr APnDP data s = Some (true, s') /\
    transacted (DpW addr APnDP data true) (21 * n + 54) s s'.
Proof.
  intros Hn Hwait Hack. unfold dpWrite.
  set (s0 := log LOG_TRACE "DP  Write [%x:%x] %08x"
                 [addr; Z.b2z APnDP; data] s).
  assert (H0 : advance 0 s s0) by apply log_advance.
  replace fuel with (n + S (fuel - S n))%nat by lia.
  destruct (dpWrite_loop_waits addr APnDP data n (S (fuel - S n)) 10 s0 eq_refl)
    as (r' & s1 & _ & H1 & E1).
  { intros k Hk. rewrite (ackAt_same k s s0 H0). auto. }
  destruct (dpWrite_loop_OK (fuel - S n) r' addr APnDP data s1)
    as (s2 & H2 & E2).
  { rewrite (ackAt_advance n 0 s0 s1 H1), Nat.add_0_r, (ackAt_same n s s0 H0).
    exact Hack. }
  rewrite E1, E2. eexists. split; [reflexivity|].
  apply advance_transacted. eapply advance_eq; [adv|lia].
Qed.

Lemma dpRead_waits_then_OK fuel addr APnDP data s n :
  (n < fuel)%nat ->
  (forall k, (k < n)%nat -> ackAt s k = 2) ->
  ackAt s n = 1 ->
  let w := lineBits (dataPin s) (pulses s + 21 * n + 12) 32 in
  lineBits (dataPin s) (pulses s + 21 * n + 44) 1 = Z.b2z (evenParity w) ->
  exists s',
    dpRead fuel addr APnDP data s = Some ((true, w), s') /\
    transacted (DpR addr APnDP w true) (21 * n + 54) s s'.
Proof.
  intros Hn Hwait Hack w Hpar. unfold dpRead.
  replace fuel with (n + S (fuel - S n))%nat by lia.
  destruct (dpRead_loop_waits addr APnDP data n (S (fuel - S n)) 10 s
              eq_refl Hwait) as (r' & s1 & _ & H1 & E1).
  assert (A1 : ackAt s1 0 = 1).
  { rewrite (ackAt_advance n 0 s s1 H1), Nat.add_0_r. exact Hack. }
  pose proof (dpRead_loop_OK (fuel - S n) r' addr APnDP data s1 A1) as H.
  cbv zeta in H.
  assert (Ed : dataPin s1 = dataPin s) by apply H1.
  assert (Eq : pulses s1 = (pulses s + 21 * n)%nat) by apply H1.
  rewrite Ed, Eq in H. fold w in H. clearbody w. rewrite Hpar in H.
  rewrite Z.eqb_refl in H. cbn [negb] in H.
  destruct H as (s5 & H5 & E5). rewrite E1, E5.
  eexists. split; [reflexivity|].
  apply advance_transacted. eapply advance_eq; [adv|lia].
Qed.

Lemma dpWrite_all_WAIT fuel addr APnDP data s :
  (forall k, ackAt s k = 2) -> dpWrite fuel addr APnDP data s = None.
Proof.
  intros Hw. unfold dpWrite.
  rewrite dpWrite_loop_all_WAIT; [reflexivity|reflexivity|].
  intros k. rewrite (ackAt_same k s _ (log_advance _ _ _ s)). apply Hw.
Qed.

Lemma dpRead_all_WAIT fuel addr APnDP data s :
  (forall k, ackAt s k = 2) -> dpRead fuel addr APnDP data s = None.
Proof.
  intros Hw. unfold dpRead.
  rewrite dpRead_loop_all_WAIT; [reflexivity|reflexivity|exact Hw].
Qed.

(** A transaction returns as soon as one attempt is not answered by
    WAIT: fuel for that many attempts is enough. *)
Lemma dpWrite_loop_returns addr APnDP data fuel :
  forall retries s,
    Z.even retries = true ->
    (exists k, (k < fuel)%nat /\ ackAt s k <> 2) ->
    exists r, dpWrite_loop fuel retries addr APnDP data s = Some r.
Proof.
  induction fuel as [|fuel IH]; intros retries s He (k & Hk & Hack); [lia|].
  destruct (Z.eq_dec (ackAt s 0) 1) as [A1|A1].
  { destruct (dpWrite_loop_OK fuel retries addr APnDP data s A1)
      as (s1 & _ & E1). eauto. }
  destruct (Z.eq_dec (ackAt s 0) 2) as [A2|A2].
  { destruct (dpWrite_loop_WAIT fuel retries addr APnDP data s A2)
      as (s1 & H1 & E1).
    destruct (retries_after_wait retries He) as [Hnz He'].
    rewrite E1, Hnz. apply IH; [exact He'|].
    destruct k as [|k]; [contradiction|].
    exists k. split; [lia|]. now rewrite (ackAt_advance 1 k s s1 H1). }
  destruct (dpWrite_loop_refused fuel retries addr APnDP data s A1 A2)
    as (s1 & _ & E1). eauto.
Qed.

Lemma dpWrite_returns fuel addr APnDP data s :
  (exists k, (k < fuel)%nat /\ ackAt s k <> 2) ->
  exists ok s', dpWrite fuel addr APnDP data s = Some (ok, s').
Proof.
  intros (k & Hk & Hack). unfold dpWrite.
  destruct (dpWrite_loop_returns addr APnDP data fuel 10
              (log LOG_TRACE "DP  Write [%x:%x] %08x"
                   [addr; Z.b2z APnDP; data] s) eq_refl) as [[ok s1] E].
  { exists k. split; [exact Hk|].
    now rewrite (ackAt_same k s _ (log_advance _ _ _ s)). }
  rewrite E. eauto.
Qed.

Lemma dpRead_loop_returns addr APnDP data fuel :
  forall retries s,
    Z.even retries = true ->
    (exists k, (k < fuel)%nat /\ ackAt s k <> 2) ->
    exists r, dpRead_loop fuel retries addr APnDP data s = Some r.
Proof.
  induction fuel as [|fuel IH]; intros retries s He (k & Hk & Hack); [lia|].
  destruct (Z.eq_dec (ackAt s 0) 1) as [A1|A1].
  { pose proof (dpRead_loop_OK fuel retries addr APnDP data s A1) as H.
    cbv zeta in H. destruct H as (s5 & _ & E5). rewrite E5.
    destruct (negb _); eauto. }
  destruct (Z.eq_dec (ackAt s 0) 2) as [A2|A2].
  { destruct (dpRead_loop_WAIT fuel retries addr APnDP data s A2)
      as (s1 & H1 & E1).
    destruct (retries_after_wait retries He) as [Hnz He'].
    rewrite E1, Hnz. apply IH; [exact He'|].
    destruct k as [|k]; [contradiction|].
    exists k. split; [lia|]. now rewrite (ackAt_advance 1 k s s1 H1). }
  destruct (dpRead_loop_refused fuel retries addr APnDP data s A1 A2)
    as (s1 & _ & E1). eauto.
Qed.

Lemma dpRead_returns fuel addr APnDP data s :
  (exists k, (k < fuel)%nat /\ ackAt s k <> 2) ->
  exists r s', dpRead fuel addr APnDP data s = Some (r, s').
Proof.
  intros H. unfold dpRead.
  destruct (dpRead_loop_returns addr APnDP data fuel 10 s eq_refl H)
    as [[[ok d1] s1] E].
  rewrite E. eauto.
Qed.

(** ** The SELECT value *)

Lemma selectValue_low accessPort addr :
  Z.land (selectValue accessPort addr) 0xF = 0.
Proof.
  unfold selectValue, u32. rewrite Z.land_lor_distr_l.
  rewrite <- Z.land_assoc. change (Z.land 0xF0 0xF) with 0.
  rewrite Z.land_0_r, Z.lor_0_r.
  apply Z.bits_inj'. intros n Hn.
  rewrite Z.land_spec, Z.bits_0.
  destruct (Z.ltb_spec n 4) as [L|L].
  - rewrite Z.mod_pow2_bits_low, Z.shiftl_spec_low by lia. reflexivity.
  - replace (Z.testbit 0xF n) with false; [apply andb_false_r|].
    symmetry. apply Z.bits_above_log2; [lia|]. change (Z.log2 0xF) with 3. lia.
Qed.

Lemma selectValue_not_sentinel accessPort addr :
  selectValue accessPort addr <> 0xFFFFFFFF.
Proof.
  intros E. pose proof (selectValue_low accessPort addr) as H.
  rewrite E in H. discriminate.
Qed.

Lemma selectValue_bank accessPort addr addr' :
  Z.land addr 0xF0 = Z.land addr' 0xF0 ->
  selectValue accessPort addr = selectValue accessPort addr'.
Proof. unfold selectValue. now intros ->. Qed.

(** ** [dpSelect] *)

Lemma dpSelect_cached fuel accessPort addr s :
  selectValue accessPort addr = cache_select s ->
  dpSelect fuel accessPort addr s = Some (true, s).
Proof. intros E. unfold dpSelect. now rewrite E, Z.eqb_refl. Qed.

Lemma dpSelect_uncached fuel accessPort addr s :
  selectValue accessPort addr <> cache_select s ->
  dpSelect fuel accessPort addr s
  = match dpWrite fuel SELECT false (selectValue accessPort addr) s with
    | None => None
    | Some (true, s1) =>
        Some (true, set_cache_select (selectValue accessPort addr) s1)
    | Some (false, s1) => Some (false, s1)
    end.
Proof.
  intros N. unfold dpSelect.
  destruct (Z.eqb_spec (selectValue accessPort addr) (cache_select s));
    [contradiction|]. cbn [negb].
  destruct (dpWrite fuel SELECT false _ s) as [[[|] s1]|]; reflexivity.
Qed.

(** What a returning [dpSelect] has done. *)
Lemma dpSelect_result fuel accessPort addr s ok s' :
  dpSelect fuel accessPort addr s = Some (ok, s') ->
  let select := selectValue accessPort addr in
  apLog s' = apLog s /\
  ((select = cache_select s /\ ok = true /\ s' = s) \/
   (select <> cache_select s /\
    dpLog s' = dpLog s ++ [DpW SELECT false select ok] /\
    cache_select s' = if ok then select else cache_select s)).
Proof.
  intros E select.
  destruct (Z.eq_dec select (cache_select s)) as [C|C].
  - rewrite (dpSelect_cached fuel accessPort addr s C) in E.
    injection E as <- <-. auto.
  - rewrite (dpSelect_uncached fuel accessPort addr s C) in E.
    fold select in E.
    destruct (dpWrite fuel SELECT false select s) as [[ok1 s1]|] eqn:E1;
      [|discriminate].
    destruct (dpWrite_transacted _ _ _ _ _ _ _ E1)
      as (n & _ & _ & _ & Hc & _ & Hl & Ha & _).
    destruct ok1; injection E as <- <-; cbn; auto.
Qed.

Lemma dpSelect_stuck fuel accessPort addr s :
  dpSelect fuel accessPort addr s = None ->
  selectValue accessPort addr <> cache_select s /\
  dpWrite fuel SELECT false (selectValue accessPort addr) s = None.
Proof.
  intros E.
  destruct (Z.eq_dec (selectValue accessPort addr) (cache_select s)) as [C|C].
  - rewrite (dpSelect_cached fuel accessPort addr s C) in E. discriminate.
  - split; [exact C|].
    rewrite (dpSelect_uncached fuel accessPort addr s C) in E.
    destruct (dpWrite fuel SELECT false _ s) as [[[|] s1]|];
      [discriminate|discriminate|reflexivity].
Qed.

(** ** Access-port accesses *)

Lemma apWrite_result fuel accessPort addr data s ok s' :
  apWrite fuel accessPort addr data s = Some (ok, s') ->
  apEffect (selectValue accessPort addr) (ApW accessPort addr data ok) ok s s'.
Proof.
  unfold apWrite. intros E.
  destruct (dpSelect fuel accessPort addr s) as [[sel s1]|] eqn:E1;
    [|discriminate].
  destruct (dpSelect_result _ _ _ _ _ _ E1) as [Ha1 H1].
  destruct sel.
  - destruct (dpWrite fuel addr true data s1) as [[ok2 s2]|] eqn:E2;
      [|discriminate].
    injection E as <- <-.
    destruct (dpWrite_transacted _ _ _ _ _ _ _ E2)
      as (n & _ & _ & _ & Hc & _ & Hl & Ha & _).
    split; [cbn; congruence|]. cbn [apToDp dpLog cache_select recordAp].
    destruct H1 as [(C & _ & ->)|(C & Hl1 & Hc1)].
    + left. auto.
    + right. right. rewrite Hl, Hl1, Hc, Hc1, <- app_assoc. auto.
  - injection E as <- <-. split; [cbn; congruence|].
    cbn [apToDp dpLog cache_select recordAp].
    destruct H1 as [(_ & [=] & _)|(C & Hl1 & Hc1)]. right. left. auto.
Qed.

Lemma apRead_result fuel accessPort addr data s ok data' s' :
  apRead fuel accessPort addr data s = Some ((ok, data'), s') ->
  apEffect (selectValue accessPort addr) (ApR accessPort addr data' ok) ok s s'.
Proof.
  unfold apRead. intros E.
  destruct (dpSelect fuel accessPort addr s) as [[sel s1]|] eqn:E1;
    [|discriminate].
  destruct (dpSelect_result _ _ _ _ _ _ E1) as [Ha1 H1].
  destruct sel.
  - destruct (dpRead fuel addr true data s1) as [[[ok2 d2] s2]|] eqn:E2;
      [|discriminate].
    injection E as <- <- <-.
    destruct (dpRead_transacted _ _ _ _ _ _ _ _ E2)
      as (n & _ & _ & _ & Hc & _ & Hl & Ha & _).
    split; [cbn; congruence|]. cbn [apToDp dpLog cache_select recordAp].
    destruct H1 as [(C & _ & ->)|(C & Hl1 & Hc1)].
    + left. auto.
    + right. right. rewrite Hl, Hl1, Hc, Hc1, <- app_assoc. auto.
  - injection E as <- <- <-. split; [cbn; congruence|].
    cbn [apToDp dpLog cache_select recordAp].
    destruct H1 as [(_ & [=] & _)|(C & Hl1 & Hc1)]. right. left. auto.
Qed.

Lemma apWrite_stuck fuel accessPort addr data s :
  apWrite fuel accessPort addr data s = None -> writeStuck fuel.
Proof.
  unfold apWrite. intros E.
  destruct (dpSelect fuel accessPort addr s) as [[sel s1]|] eqn:E1.
  - destruct sel; [|discriminate].
    destruct (dpWrite fuel addr true data s1) as [[ok2 s2]|] eqn:E2;
      [discriminate|]. now exists addr, true, data, s1.
  - apply dpSelect_stuck in E1. destruct E1 as [_ E1].
    now exists SELECT, false, (selectValue accessPort addr), s.
Qed.

Lemma apRead_stuck fuel accessPort addr data s :
  apRead fuel accessPort addr data s = None ->
  writeStuck fuel \/ readStuck fuel.
Proof.
  unfold apRead. intros E.
  destruct (dpSelect fuel accessPort addr s) as [[sel s1]|] eqn:E1.
  - destruct sel; [|discriminate].
    destruct (dpRead fuel addr true data s1) as [[[ok2 d2] s2]|] eqn:E2;
      [discriminate|]. right. now exists addr, true, data, s1.
  - apply dpSelect_stuck in E1. destruct E1 as [_ E1].
    left. now exists SELECT, false, (selectValue accessPort addr), s.
Qed.

(** ** Vectorised store *)

Lemma drwWrites_snoc data i k :
  drwWrites data i (S k)
  = ApW 0 MEM_DRW (data i) true :: drwWrites data (S i) k.
Proof. reflexivity. Qed.

Lemma memStore_loop_result fuel data count :
  forall addr i s,
    match memStore_loop fuel count addr data i s with
    | None => writeStuck fuel
    | Some (ok, s') =>
        exists new,
          apLog s' = apLog s ++ new /\
          (cache_select s = 0 ->
           dpLog s' = dpLog s ++ map apToDp new /\ cache_select s' = 0) /\
          ((ok = true /\ new = drwWrites data i count) \/
           (ok = false /\
            exists k, (k < count)%nat /\
              new = drwWrites data i k
                    ++ [ApW 0 MEM_DRW (data (i + k)%nat) false]))
    end.
Proof.
  induction count as [|count IH]; intros addr i s; cbn [memStore_loop].
  - exists []. rewrite !app_nil_r. repeat split; auto.
  - set (s0 := log LOG_TRACE "MEM Store [%08x] %08x" [addr; data i] s).
    destruct (log_advance LOG_TRACE "MEM Store [%08x] %08x" [addr; data i] s)
      as (_ & _ & _ & Hc0 & _ & Hl0 & Ha0 & _). fold s0 in Hc0, Hl0, Ha0.
    destruct (apWrite fuel 0 MEM_DRW (data i) s0) as [[ok1 s1]|] eqn:E1;
      [|eapply apWrite_stuck; eassumption].
    destruct (apWrite_result _ _ _ _ _ _ _ E1) as [Ha1 H1].
    change (selectValue 0 MEM_DRW) with 0 in H1. cbn [apToDp] in H1.
    rewrite Hc0, Hl0 in H1. rewrite Ha0 in Ha1.
    assert (Hdp : cache_select s = 0 ->
                  dpLog s1 = dpLog s ++ [DpW MEM_DRW true (data i) ok1]
                  /\ cache_select s1 = 0).
    { intros C. destruct H1 as [(_ & Hl & Hc)|[(N & _)|(N & _)]];
        [split; congruence|congruence|congruence]. }
    destruct ok1; cbn [negb].
    + specialize (IH (u32 (addr + 1)) (S i) s1).
      destruct (memStore_loop fuel count (u32 (addr + 1)) data (S i) s1)
        as [[ok s']|]; [|exact IH].
      destruct IH as (new & Hnew & Hdpn & Hshape).
      exists (ApW 0 MEM_DRW (data i) true :: new). split; [|split].
      * rewrite Hnew, Ha1, <- app_assoc. reflexivity.
      * intros C. destruct (Hdp C) as [Hl1 Hc1].
        destruct (Hdpn Hc1) as [Hl2 Hc2]. split; [|exact Hc2].
        rewrite Hl2, Hl1, <- app_assoc. reflexivity.
      * destruct Hshape as [(-> & ->)|(-> & k & Hk & ->)].
        -- left. split; [reflexivity|]. now rewrite drwWrites_snoc.
        -- right. split; [reflexivity|]. exists (S k). split; [lia|].
           rewrite drwWrites_snoc. cbn [app].
           replace (i + S k)%nat with (S i + k)%nat by lia. reflexivity.
    + exists [ApW 0 MEM_DRW (data i) false]. split; [exact Ha1|split].
      * intros C. destruct (Hdp C) as [Hl1 Hc1]. split; [exact Hl1|exact Hc1].
      * right. split; [reflexivity|]. exists O. split; [lia|].
        rewrite Nat.add_0_r. reflexivity.
Qed.

(** ** Single-word forms *)

(** C9.  The single-word store and load do what the vectorised forms
    do on a buffer whose first word is the caller's word, with count 1:
    same result, same final state (hence the same pin operations and
    the same transactions), the loaded word being the first word of
    the buffer afterwards, whose other words are untouched. *)
Theorem single_word_delegates fuel addr data (buf : Buffer) s :
  buf 0%nat = data ->
  memStore fuel addr data s = memStoreN fuel addr buf 1 s /\
  match memLoadN fuel addr buf 1 s with
  | None => memLoad fuel addr data s = None
  | Some ((ok, buf'), s') =>
      memLoad fuel addr data s = Some ((ok, buf' 0%nat), s') /\
      forall i, i <> 0%nat -> buf' i = buf i
  end.
Proof.
  intros Hb. split.
  - unfold memStore, memStoreN. cbn [memStore_loop]. rewrite Hb. reflexivity.
  - unfold memLoad, memLoadN.
    destruct (apWrite fuel 0 MEM_TAR addr s) as [[ok1 s1]|]; [|reflexivity].
    destruct ok1; cbn [negb]; [|split; [now rewrite Hb|reflexivity]].
    cbn [memLoad_loop]. rewrite Hb.
    destruct (apRead fuel 0 MEM_DRW data s1) as [[[ok2 w] s2]|];
      [|reflexivity].
    destruct ok2; cbn [negb]; (split; [reflexivity|]);
      intros [|i] Hi; [contradiction|reflexivity|contradiction|reflexivity].
Qed.

(** ** The SELECT cache *)

Lemma lastSelect_snoc l t :
  lastSelect (l ++ [t]) = selectStep (lastSelect l) t.
Proof. unfold lastSelect. now rewrite fold_left_app. Qed.

Lemma selectStep_apToDp acc e : selectStep acc (apToDp e) = acc.
Proof. destruct e; reflexivity. Qed.

Lemma isSelectWrite_apToDp e : isSelectWrite (apToDp e) = false.
Proof. destruct e; reflexivity. Qed.

Lemma coherent_advance n s s' : advance n s s' -> coherent s -> coherent s'.
Proof.
  intros (_ & _ & _ & Hc & _ & Hl & _) H. unfold coherent in *. congruence.
Qed.

Lemma coherent_transacted t n s s' :
  transacted t n s s' ->
  (forall acc, selectStep acc t = acc) ->
  coherent s -> coherent s'.
Proof.
  intros (_ & _ & _ & Hc & _ & Hl & _) Ht H. unfold coherent in *.
  rewrite Hc, Hl, lastSelect_snoc, Ht. exact H.
Qed.

Lemma coherent_recordAp e s : coherent s -> coherent (recordAp e s).
Proof. exact (fun H => H). Qed.

Lemma coherent_dpSelect fuel accessPort addr s ok s' :
  dpSelect fuel accessPort addr s = Some (ok, s') ->
  coherent s -> coherent s'.
Proof.
  intros E H. destruct (dpSelect_result _ _ _ _ _ _ E) as [_ H1].
  destruct H1 as [(_ & _ & ->)|(_ & Hl & Hc)]; [exact H|].
  unfold coherent in *. rewrite Hc, Hl, lastSelect_snoc.
  destruct ok; [reflexivity|exact H].
Qed.

Lemma coherent_apEffect select e ok s s' :
  apEffect select e ok s s' -> coherent s -> coherent s'.
Proof.
  intros [_ [(_ & Hl & Hc)|[(_ & _ & Hl & Hc)|(_ & Hl & Hc)]]] H;
    unfold coherent in *; rewrite Hc, Hl.
  - now rewrite lastSelect_snoc, selectStep_apToDp.
  - now rewrite lastSelect_snoc.
  - change [DpW SELECT false select true; apToDp e]
      with ([DpW SELECT false select true] ++ [apToDp e]).
    rewrite app_assoc, !lastSelect_snoc, selectStep_apToDp. reflexivity.
Qed.

Lemma coherent_apWrite fuel accessPort addr data s ok s' :
  apWrite fuel accessPort addr data s = Some (ok, s') ->
  coherent s -> coherent s'.
Proof.
  intros E. eapply coherent_apEffect, apWrite_result, E.
Qed.

Lemma coherent_apRead fuel accessPort addr data s r s' :
  apRead fuel accessPort addr data s = Some (r, s') ->
  coherent s -> coherent s'.
Proof.
  destruct r as [ok data']. intros E.
  eapply coherent_apEffect, apRead_result, E.
Qed.

Lemma coherent_apCall fuel accessPort addr c s ok s' :
  apCall fuel accessPort addr c s = Some (ok, s') ->
  coherent s -> coherent s'.
Proof.
  destruct c as [data|data]; cbn [apCall]; intros E.
  - eapply coherent_apWrite, E.
  - destruct (apRead fuel accessPort addr data s) as [[r s1]|] eqn:E1;
      [|discriminate].
    destruct r as [ok1 d1]. injection E as <- <-.
    eapply coherent_apRead, E1.
Qed.

Lemma coherent_log level fmt args s : coherent s -> coherent (log level fmt args s).
Proof. apply (coherent_advance 0), log_advance. Qed.

Lemma coherent_memStore_loop fuel data count :
  forall addr i s ok s',
    memStore_loop fuel count addr data i s = Some (ok, s') ->
    coherent s -> coherent s'.
Proof.
  induction count as [|count IH]; intros addr i s ok s' E H;
    cbn [memStore_loop] in E.
  - now injection E as <- <-.
  - destruct (apWrite fuel 0 MEM_DRW (data i) _) as [[ok1 s1]|] eqn:E1;
      [|discriminate].
    apply coherent_apWrite in E1; [|apply coherent_log, H].
    destruct ok1; cbn [negb] in E.
    + eapply IH; eassumption.
    + now injection E as <- <-.
Qed.

Lemma coherent_memStoreN fuel addr data count s ok s' :
  memStoreN fuel addr data count s = Some (ok, s') ->
  coherent s -> coherent s'.
Proof.
  unfold memStoreN. intros E H.
  destruct (apWrite fuel 0 MEM_TAR addr s) as [[ok1 s1]|] eqn:E1;
    [|discriminate].
  apply coherent_apWrite in E1; [|exact H].
  destruct ok1; cbn [negb] in E.
  - eapply coherent_memStore_loop; eassumption.
  - now injection E as <- <-.
Qed.

Lemma coherent_memLoad_loop fuel count :
  forall addr data i s r s',
    memLoad_loop fuel count addr data i s = Some (r, s') ->
    coherent s -> coherent s'.
Proof.
  induction count as [|count IH]; intros addr data i s r s' E H;
    cbn [memLoad_loop] in E.
  - now injection E as <- <-.
  - destruct (apRead fuel 0 MEM_DRW (data i) s) as [[[ok1 w] s1]|] eqn:E1;
      [|discriminate].
    apply coherent_apRead in E1; [|exact H].
    destruct ok1; cbn [negb] in E.
    + eapply IH; [exact E|]. apply coherent_log, E1.
    + now injection E as <- <-.
Qed.

Lemma coherent_memLoadN fuel addr data count s r s' :
  memLoadN fuel addr data count s = Some (r, s') ->
  coherent s -> coherent s'.
Proof.
  unfold memLoadN. intros E H.
  destruct (apWrite fuel 0 MEM_TAR addr s) as [[ok1 s1]|] eqn:E1;
    [|discriminate].
  apply coherent_apWrite in E1; [|exact H].
  destruct ok1; cbn [negb] in E.
  - eapply coherent_memLoad_loop; eassumption.
  - now injection E as <- <-.
Qed.

Lemma coherent_memLoad fuel addr data s r s' :
  memLoad fuel addr data s = Some (r, s') -> coherent s -> coherent s'.
Proof.
  unfold memLoad. intros E.
  destruct (memLoadN fuel addr (fun _ => data) 1 s) as [[[ok1 b1] s1]|] eqn:E1;
    [|discriminate].
  injection E as <- <-. eapply coherent_memLoadN, E1.
Qed.

Lemma coherent_dpRead fuel addr APnDP data s r s' :
  dpRead fuel addr APnDP data s = Some (r, s') -> coherent s -> coherent s'.
Proof.
  destruct r as [ok data']. intros E.
  destruct (dpRead_transacted _ _ _ _ _ _ _ _ E) as [n Hn].
  eapply coherent_transacted; [exact Hn|reflexivity].
Qed.

Lemma coherent_pollPowerUp fuel retries :
  forall ctrlstat s r s',
    pollPowerUp fuel retries ctrlstat s = Some (r, s') ->
    coherent s -> coherent s'.
Proof.
  induction retries as [|retries IH]; intros ctrlstat s r s' E H;
    cbn [pollPowerUp] in E.
  - now injection E as <- <-.
  - destruct (dpRead fuel CTRLSTAT false ctrlstat s) as [[[ok1 c1] s1]|] eqn:E1;
      [|discriminate].
    apply coherent_dpRead in E1; [|exact H].
    destruct ok1; cbn [negb] in E; [|now injection E as <- <-].
    destruct (Z.land c1 _ =? _).
    + now injection E as <- <-.
    + eapply IH; eassumption.
Qed.

Lemma coherent_begin fuel c d l junk s0 ok s :
  begin fuel c d l junk s0 = Some (ok, s) -> coherent s.
Proof.
  unfold begin.
  set (x := pinMode d INPUT_PULLUP (pinMode c OUTPUT (set_config c d l s0))).
  set (s1 := recordDp DpInit (set_cache_select 0xFFFFFFFF x)).
  assert (H1 : coherent s1).
  { unfold coherent, s1. cbn [cache_select dpLog recordDp set_cache_select].
    now rewrite lastSelect_snoc. }
  set (s2 := wireWrite 0 32 _).
  assert (H2 : coherent s2).
  { eapply coherent_advance; [|exact H1]. subst s2. adv. }
  clearbody s2. clear H1 s1 x. intros E.
  destruct (dpRead fuel IDCODE false junk s2) as [[[ok1 idcode] s3]|] eqn:E3;
    [|discriminate].
  apply coherent_dpRead in E3; [|exact H2].
  destruct ok1; cbn [negb] in E;
    [|injection E as <- <-; apply coherent_log, E3].
  destruct (Z.land idcode 0x0FF00001 =? 0x0ba00001); cbn [negb] in E;
    [|injection E as <- <-; apply coherent_log, E3].
  destruct (dpWrite fuel CTRLSTAT false _ _) as [[ok2 s4]|] eqn:E4;
    [|discriminate].
  destruct (dpWrite_transacted _ _ _ _ _ _ _ E4) as [n Hn].
  eapply coherent_transacted in Hn;
    [|intros acc; destruct ok2; reflexivity|apply coherent_log, E3].
  destruct ok2; cbn [negb] in E; [|now injection E as <- <-].
  destruct (pollPowerUp fuel 4 junk s4) as [[polled s5]|] eqn:E5;
    [|discriminate].
  apply coherent_pollPowerUp in E5; [|exact Hn].
  destruct polled as [|retries ctrlstat]; [now injection E as <- <-|].
  destruct (nonzero retries); cbn [negb] in E;
    [|injection E as <- <-; apply coherent_log, E5].
  destruct (apRead fuel 0 MEM_IDR junk s5) as [[[ok3 idr] s6]|] eqn:E6;
    [|discriminate].
  apply coherent_apRead in E6; [|exact E5].
  destruct ok3; cbn [negb] in E; [|now injection E as <- <-].
  destruct (Z.land idr 0xF =? 1); cbn [negb] in E;
    [|injection E as <- <-; apply coherent_log, E6].
  destruct (apWrite fuel 0 MEM_CSW _ s6) as [[ok4 s7]|] eqn:E7;
    [|discriminate].
  apply coherent_apWrite in E7; [|exact E6].
  destruct ok4; cbn [negb] in E; now injection E as <- <-.
Qed.

Lemma reachable_coherent s : Reachable s -> coherent s.
Proof.
  induction 1 as [fuel c d l junk s0 ok s E
                 |fuel addr data count s ok s' _ IH E
                 |fuel addr data count s r s' _ IH E
                 |fuel addr data s ok s' _ IH E
                 |fuel addr data s r s' _ IH E
                 |fuel accessPort addr c s ok s' _ IH E
                 |fuel accessPort addr s ok s' _ IH E].
  - eapply coherent_begin, E.
  - eapply coherent_memStoreN; eassumption.
  - eapply coherent_memLoadN; eassumption.
  - eapply coherent_memStoreN; eassumption.
  - eapply coherent_memLoad; eassumption.
  - eapply coherent_apCall; eassumption.
  - eapply coherent_dpSelect; eassumption.
Qed.

Lemma apCall_result fuel accessPort addr c s ok s' :
  apCall fuel accessPort addr c s = Some (ok, s') ->
  exists e, apEffect (selectValue accessPort addr) e ok s s'.
Proof.
  destruct c as [data|data]; cbn [apCall]; intros E.
  - eexists. eapply apWrite_result, E.
  - destruct (apRead fuel accessPort addr data s) as [[[ok1 d1] s1]|] eqn:E1;
      [|discriminate].
    injection E as <- <-. eexists. eapply apRead_result, E1.
Qed.

Lemma selectWrites_app l l' :
  selectWrites (l ++ l') = selectWrites l ++ selectWrites l'.
Proof. apply filter_app. Qed.

(** Two accesses in a row to one port and bank, the first of them
    successful: one SELECT write when the cache held another selection
    before, and it comes first. *)
Lemma two_accesses_one_select fuel accessPort addr1 addr2 c1 c2 s s1 ok2 s2 :
  Z.land addr1 0xF0 = Z.land addr2 0xF0 ->
  selectValue accessPort addr1 <> cache_select s ->
  apCall fuel accessPort addr1 c1 s = Some (true, s1) ->
  apCall fuel accessPort addr2 c2 s1 = Some (ok2, s2) ->
  selectWrites (dpLog s2)
  = selectWrites (dpLog s)
    ++ [DpW SELECT false (selectValue accessPort addr1) true].
Proof.
  intros Hbank Hsel E1 E2.
  destruct (apCall_result _ _ _ _ _ _ _ E1) as (e1 & _ & H1).
  destruct (apCall_result _ _ _ _ _ _ _ E2) as (e2 & _ & H2).
  rewrite <- (selectValue_bank accessPort addr1 addr2 Hbank) in H2.
  destruct H1 as [(C & _)|[(_ & [=] & _)|(_ & Hl1 & Hc1)]]; [contradiction|].
  destruct H2 as [(_ & Hl2 & _)|[(N & _)|(N & _)]]; [|congruence|congruence].
  rewrite Hl2, Hl1, !selectWrites_app. cbn [selectWrites filter].
  rewrite !isSelectWrite_apToDp. cbn. now rewrite app_nil_r.
Qed.

(** ** The first selection after [begin] *)

Lemma unselected_advance n s0 s s' :
  advance n s s' -> unselected s0 s -> unselected s0 s'.
Proof.
  intros (_ & _ & _ & Hc & _ & Hl & Ha & _) (pre & Hp & Hd & Hap & Hcs).
  exists pre. repeat split; congruence.
Qed.

Lemma unselected_transacted t n s0 s s' :
  transacted t n s s' -> isSelectWrite t = false ->
  unselected s0 s -> unselected s0 s'.
Proof.
  intros (_ & _ & _ & Hc & _ & Hl & Ha & _) Ht (pre & Hp & Hd & Hap & Hcs).
  exists (pre ++ [t]). split; [|split; [|split]].
  - rewrite selectWrites_app, Hp. cbn. now rewrite Ht.
  - rewrite Hl, Hd, <- app_assoc. reflexivity.
  - congruence.
  - congruence.
Qed.

Lemma unselected_dpRead fuel addr APnDP data s0 s r s' :
  dpRead fuel addr APnDP data s = Some (r, s') ->
  unselected s0 s -> unselected s0 s'.
Proof.
  destruct r as [ok data']. intros E.
  destruct (dpRead_transacted _ _ _ _ _ _ _ _ E) as [n Hn].
  eapply unselected_transacted; [exact Hn|reflexivity].
Qed.

Lemma unselected_pollPowerUp fuel s0 retries :
  forall ctrlstat s r s',
    pollPowerUp fuel retries ctrlstat s = Some (r, s') ->
    unselected s0 s -> unselected s0 s'.
Proof.
  induction retries as [|retries IH]; intros ctrlstat s r s' E H;
    cbn [pollPowerUp] in E.
  - now injection E as <- <-.
  - destruct (dpRead fuel CTRLSTAT false ctrlstat s) as [[[ok1 c1] s1]|] eqn:E1;
      [|discriminate].
    eapply unselected_dpRead in E1; [|exact H].
    destruct ok1; cbn [negb] in E; [|now injection E as <- <-].
    destruct (Z.land c1 _ =? _).
    + now injection E as <- <-.
    + eapply IH; eassumption.
Qed.

Lemma selectedFirst_extends v s0 s s' more :
  dpLog s' = dpLog s ++ more -> selectedFirst v s0 s -> selectedFirst v s0 s'.
Proof.
  intros Hl (pre & ok & post & Hp & Hd).
  exists pre, ok, (post ++ more). split; [exact Hp|].
  rewrite Hl, Hd. rewrite <- !app_assoc. cbn [app].
  rewrite <- app_assoc. reflexivity.
Qed.

Lemma apEffect_extends select e ok s s' :
  apEffect select e ok s s' -> exists more, dpLog s' = dpLog s ++ more.
Proof.
  intros [_ [(_ & Hl & _)|[(_ & _ & Hl & _)|(_ & Hl & _)]]]; eauto.
Qed.

Lemma unselected_apEffect e ok s0 s s' accessPort addr :
  apEffect (selectValue accessPort addr) e ok s s' ->
  unselected s0 s -> selectedFirst (selectValue accessPort addr) s0 s'.
Proof.
  intros [_ H] (pre & Hp & Hd & Hap & Hcs).
  destruct H as [(C & _)|[(_ & _ & Hl & _)|(_ & Hl & _)]].
  - rewrite Hcs in C. now apply selectValue_not_sentinel in C.
  - exists pre, false, []. split; [exact Hp|].
    rewrite Hl, Hd, <- app_assoc. reflexivity.
  - exists pre, true, [apToDp e]. split; [exact Hp|].
    rewrite Hl, Hd, <- app_assoc. reflexivity.
Qed.

Lemma begin_first_select fuel c d l junk s0 ok s :
  begin fuel c d l junk s0 = Some (ok, s) ->
  (ok = false /\ unselected s0 s)
  \/ selectedFirst (selectValue 0 MEM_IDR) s0 s.
Proof.
  unfold begin.
  set (x := pinMode d INPUT_PULLUP (pinMode c OUTPUT (set_config c d l s0))).
  set (s1 := recordDp DpInit (set_cache_select 0xFFFFFFFF x)).
  assert (H1 : unselected s0 s1).
  { exists []. repeat split; reflexivity. }
  set (s2 := wireWrite 0 32 _).
  assert (H2 : unselected s0 s2).
  { eapply unselected_advance; [|exact H1]. subst s2. adv. }
  clearbody s2. clear H1 s1 x. intros E.
  destruct (dpRead fuel IDCODE false junk s2) as [[[ok1 idcode] s3]|] eqn:E3;
    [|discriminate].
  eapply unselected_dpRead in E3; [|exact H2].
  destruct ok1; cbn [negb] in E;
    [|injection E as <- <-; left; split; [reflexivity|];
      eapply unselected_advance; [apply log_advance|exact E3]].
  destruct (Z.land idcode 0x0FF00001 =? 0x0ba00001); cbn [negb] in E;
    [|injection E as <- <-; left; split; [reflexivity|];
      eapply unselected_advance; [apply log_advance|exact E3]].
  destruct (dpWrite fuel CTRLSTAT false _ _) as [[ok2 s4]|] eqn:E4;
    [|discriminate].
  destruct (dpWrite_transacted _ _ _ _ _ _ _ E4) as [n Hn].
  eapply unselected_transacted in Hn;
    [|reflexivity|eapply unselected_advance; [apply log_advance|exact E3]].
  destruct ok2; cbn [negb] in E; [|injection E as <- <-; auto].
  destruct (pollPowerUp fuel 4 junk s4) as [[polled s5]|] eqn:E5;
    [|discriminate].
  eapply unselected_pollPowerUp in E5; [|exact Hn].
  destruct polled as [|retries ctrlstat]; [injection E as <- <-; auto|].
  destruct (nonzero retries); cbn [negb] in E;
    [|injection E as <- <-; left; split; [reflexivity|];
      eapply unselected_advance; [apply log_advance|exact E5]].
  destruct (apRead fuel 0 MEM_IDR junk s5) as [[[ok3 idr] s6]|] eqn:E6;
    [|discriminate].
  apply apRead_result in E6.
  eapply unselected_apEffect in E6; [|exact E5].
  right.
  destruct ok3; cbn [negb] in E; [|now injection E as <- <-].
  destruct (Z.land idr 0xF =? 1); cbn [negb] in E.
  - destruct (apWrite fuel 0 MEM_CSW _ s6) as [[ok4 s7]|] eqn:E7;
      [|discriminate].
    apply apWrite_result, apEffect_extends in E7. destruct E7 as [more Hm].
    assert (s = s7) as -> by (destruct ok4; cbn [negb] in E; congruence).
    eapply selectedFirst_extends; eassumption.
  - injection E as <- <-.
    eapply (selectedFirst_extends _ _ s6 _ []); [|exact E6].
    rewrite app_nil_r.
    apply (log_advance LOG_ERROR
             "ARMDebug: Default access port is not an AHB-AP as expected! (IDR: %08x)"
             [idr] s6).
Qed.

(** * Further properties *)

(** ** Bits on the wire *)

Lemma writeOps_S d c data n :
  writeOps d c data (S n)
  = bitOps d c (Z.testbit data 0) ++ writeOps d c (Z.shiftr data 1) n.
Proof.
  unfold writeOps. cbn [seq map List.concat]. f_equal.
  rewrite <- seq_shift, map_map. f_equal. apply map_ext. intros i.
  rewrite Z.shiftr_spec by lia. do 2 f_equal. lia.
Qed.

Lemma wireWrite_loop_gpio nBits :
  forall data s,
    gpio (wireWrite_loop nBits data s)
    = gpio s ++ writeOps (dataPin s) (clockPin s) data nBits.
Proof.
  induction nBits as [|n IH]; intros data s; cbn [wireWrite_loop].
  - unfold writeOps. cbn. now rewrite app_nil_r.
  - rewrite IH, writeOps_S. cbn [dataPin clockPin gpio clockPulse digitalWrite
                                   gpioOp tick].
    rewrite land_1_testbit, nonzero_b2z.
    unfold bitOps. repeat rewrite <- app_assoc. reflexivity.
Qed.

(** X1.  [wireWrite] puts the low [nBits] bits of [data] on the data
    pin, least significant first, each followed by one clock pulse (LOW
    then HIGH); it does nothing else to the pins, issues [nBits] clock
    pulses, and leaves the object, the cache and the histories alone. *)
Theorem wireWrite_bits data nBits s :
  gpio (wireWrite data nBits s)
  = gpio s ++ writeOps (dataPin s) (clockPin s) data nBits
  /\ advance nBits s (wireWrite data nBits s).
Proof.
  split; [|apply wireWrite_advance].
  unfold wireWrite. rewrite wireWrite_loop_gpio.
  destruct (log_advance LOG_TRACE "SWD Write %08x (%d)"
              [data; Z.of_nat nBits] s) as (-> & -> & _).
  now rewrite log_gpio.
Qed.

Lemma lineBits_testbit pin n :
  forall p i,
    0 <= i ->
    Z.testbit (lineBits pin p n) i
    = (i <? Z.of_nat n) && line pin (p + Z.to_nat i).
Proof.
  induction n as [|n IH]; intros p i Hi; cbn [lineBits].
  - rewrite Z.bits_0. destruct (Z.ltb_spec i (Z.of_nat 0)); [lia|reflexivity].
  - rewrite Z.lor_spec.
    destruct (Z.eq_dec i 0) as [->|Hn0].
    + rewrite Z.b2z_bit0, Z.shiftl_spec_low by lia.
      rewrite orb_false_r. cbn [Z.to_nat]. now rewrite Nat.add_0_r.
    + rewrite Z.shiftl_spec by lia. rewrite IH by lia.
      replace (Z.testbit (Z.b2z (line pin p)) i) with false.
      * cbn [orb]. replace (S p + Z.to_nat (i - 1))%nat with (p + Z.to_nat i)%nat
          by lia.
        f_equal.
        destruct (Z.ltb_spec (i - 1) (Z.of_nat n)),
                 (Z.ltb_spec i (Z.of_nat (S n))); try reflexivity; lia.
      * symmetry. destruct (line pin p); cbn [Z.b2z];
          [apply Z.bits_above_log2; cbn; lia|apply Z.bits_0].
Qed.

Lemma lineBits_range pin n p : 0 <= lineBits pin p n < 2 ^ Z.of_nat n.
Proof.
  assert (E : lineBits pin p n = lineBits pin p n mod 2 ^ Z.of_nat n).
  { apply Z.bits_inj'. intros i Hi.
    destruct (Z.ltb_spec i (Z.of_nat n)) as [L|L].
    - now rewrite Z.mod_pow2_bits_low.
    - rewrite Z.mod_pow2_bits_high by lia.
      rewrite lineBits_testbit by lia.
      destruct (Z.ltb_spec i (Z.of_nat n)); [lia|reflexivity]. }
  rewrite E. apply Z.mod_pos_bound. lia.
Qed.

Lemma wireRead_loop_gpio count :
  forall result mask s,
    gpio (snd (wireRead_loop count result mask s))
    = gpio s ++ clockOps (clockPin s) count.
Proof.
  induction count as [|c IH]; intros result mask s; cbn [wireRead_loop].
  - cbn. now rewrite app_nil_r.
  - rewrite IH. cbn [gpio clockPin clockPulse digitalWrite gpioOp tick].
    unfold clockOps. cbn [repeat List.concat].
    repeat rewrite <- app_assoc. reflexivity.
Qed.

(** X2.  [wireRead] of at most 32 bits returns the levels the data line
    shows at the next [nBits] clock pulses, the first one in bit 0, and
    nothing in the bits above; it only pulses the clock ([nBits] times)
    and never drives the data pin. *)
Theorem wireRead_bits nBits s :
  (nBits <= 32)%nat ->
  let v := fst (wireRead nBits s) in
  let s' := snd (wireRead nBits s) in
  (forall i, (i < nBits)%nat ->
             Z.testbit v (Z.of_nat i) = line (dataPin s) (pulses s + i)) /\
  0 <= v < 2 ^ Z.of_nat nBits /\
  gpio s' = gpio s ++ clockOps (clockPin s) nBits /\
  advance nBits s s'.
Proof.
  intros Hn v s'. subst v s'.
  destruct (wireRead_spec nBits s Hn) as [Hv Ha].
  split; [|split; [|split]].
  - intros i Hi. rewrite Hv, lineBits_testbit by lia.
    rewrite Nat2Z.id. destruct (Z.ltb_spec (Z.of_nat i) (Z.of_nat nBits));
      [reflexivity|lia].
  - rewrite Hv. apply lineBits_range.
  - unfold wireRead.
    pose proof (wireRead_loop_gpio nBits 0 1 s) as Hg.
    destruct (wireRead_loop nBits 0 1 s) as [r s1]. cbn [snd] in *.
    now rewrite log_gpio.
  - exact Ha.
Qed.

(** ** Pin operations of the wire primitives *)

Lemma wireWrite_gpio data nBits s :
  gpio (wireWrite data nBits s)
  = gpio s ++ writeOps (dataPin s) (clockPin s) data nBits.
Proof.
  unfold wireWrite. rewrite wireWrite_loop_gpio.
  destruct (log_advance LOG_TRACE "SWD Write %08x (%d)"
              [data; Z.of_nat nBits] s) as (-> & -> & _).
  now rewrite log_gpio.
Qed.

Lemma wireRead_gpio nBits s :
  gpio (snd (wireRead nBits s)) = gpio s ++ clockOps (clockPin s) nBits.
Proof.
  unfold wireRead.
  pose proof (wireRead_loop_gpio nBits 0 1 s) as Hg.
  destruct (wireRead_loop nBits 0 1 s) as [r s1]. cbn [snd] in *.
  now rewrite log_gpio.
Qed.

Lemma wireReadTurnaround_gpio s :
  gpio (wireReadTurnaround s)
  = gpio s ++ readTurnaroundOps (dataPin s) (clockPin s).
Proof.
  unfold wireReadTurnaround.
  pose proof (log_advance LOG_TRACE "SWD Read  trn" [] s) as (Hc & Hd & _).
  pose proof (log_gpio LOG_TRACE "SWD Read  trn" [] s) as Hg.
  destruct (log LOG_TRACE "SWD Read  trn" [] s). cbn in *.
  rewrite Hc, Hd, Hg. repeat rewrite <- app_assoc. reflexivity.
Qed.

Lemma idleOps_writeOps d c : idleOps d c = writeOps d c 0 8.
Proof. reflexivity. Qed.

Lemma writeOps_bit d c b : writeOps d c (Z.b2z b) 1 = bitOps d c b.
Proof. destruct b; reflexivity. Qed.

Lemma wired_refl s : wired 0 s s.
Proof. split; [apply advance_refl|]. exists []. now rewrite app_nil_r. Qed.

Lemma wired_trans n m s1 s2 s3 :
  wired n s1 s2 -> wired m s2 s3 -> wired (n + m) s1 s3.
Proof.
  intros [A1 [m1 G1]] [A2 [m2 G2]]. split.
  - eapply advance_trans; eassumption.
  - exists (m1 ++ m2). now rewrite G2, G1, app_assoc.
Qed.

Lemma wired_eq n m s s' : wired n s s' -> n = m -> wired m s s'.
Proof. intros H <-. exact H. Qed.

Lemma wired_log level fmt args s : wired 0 s (log level fmt args s).
Proof.
  split; [apply log_advance|]. exists []. now rewrite log_gpio, app_nil_r.
Qed.

Lemma wired_wireWrite data nBits s : wired nBits s (wireWrite data nBits s).
Proof. split; [apply wireWrite_advance|]. eexists. apply wireWrite_gpio. Qed.

Lemma wired_wireRead nBits s :
  (nBits <= 32)%nat -> wired nBits s (snd (wireRead nBits s)).
Proof.
  intros H. split; [apply wireRead_advance, H|]. eexists. apply wireRead_gpio.
Qed.

Lemma wired_wireWriteTurnaround s : wired 1 s (wireWriteTurnaround s).
Proof.
  split; [apply wireWriteTurnaround_advance|].
  eexists. apply wireWriteTurnaround_gpio.
Qed.

Lemma wired_wireReadTurnaround s : wired 1 s (wireReadTurnaround s).
Proof.
  split; [apply wireReadTurnaround_advance|].
  eexists. apply wireReadTurnaround_gpio.
Qed.

Ltac wir :=
  lazymatch goal with
  | |- wired _ ?s ?s => apply wired_refl
  | H : wired _ _ ?x |- wired _ _ ?x =>
      eapply wired_trans; [|exact H]; wir
  | |- wired _ _ (wireWrite _ _ _) =>
      eapply wired_trans; [|apply wired_wireWrite]; wir
  | |- wired _ _ (wireWriteTurnaround _) =>
      eapply wired_trans; [|apply wired_wireWriteTurnaround]; wir
  | |- wired _ _ (wireReadTurnaround _) =>
      eapply wired_trans; [|apply wired_wireReadTurnaround]; wir
  | |- wired _ _ (log _ _ _ _) =>
      eapply wired_trans; [|apply wired_log]; wir
  end.

Ltac wired_by := eapply wired_eq; [wir|try reflexivity; lia].

(** The end of every attempt: after [s4], which a write turnaround
    produced, come [tail] and the 8 idle bits. *)
Lemma tail_gpio n s s3 tail s' :
  wired n s s3 ->
  gpio s' = gpio (wireWriteTurnaround s3) ++ tail
            ++ idleOps (dataPin s) (clockPin s) ->
  exists pre,
    gpio s' = gpio s ++ pre ++ turnaroundOps (dataPin s) (clockPin s)
              ++ tail ++ idleOps (dataPin s) (clockPin s).
Proof.
  intros [Ha [m Hm]] E. exists m.
  rewrite E, wireWriteTurnaround_gpio, Hm.
  destruct Ha as (-> & -> & _). now rewrite <- !app_assoc.
Qed.

(** ** One attempt, with its pin operations *)

Lemma attempt_wired hdr s :
  wired 12 s (snd (wireRead 3 (wireReadTurnaround (wireWrite hdr 8 s)))).
Proof.
  eapply wired_eq.
  - eapply wired_trans; [|apply wired_wireRead; lia]. wir.
  - reflexivity.
Qed.

Lemma ack_switch {A : Type} (a : Z) (X Y F P : A) :
  a <> 1 -> a <> 2 ->
  match a with 1 => X | 2 => Y | 4 => F | _ => P end
  = if a =? 4 then F else P.
Proof.
  intros H1 H2.
  destruct a as [|[[q|q|]|[q|[q|q|]|]|]|q]; try reflexivity; congruence.
Qed.

Lemma dpWrite_loop_eq fuel retries addr APnDP data s :
  exists s3,
    wired 12 s s3 /\
    dpWrite_loop (S fuel) retries addr APnDP data s
    = let s4 := wireWriteTurnaround s3 in
      match ackAt s 0 with
      | 1 =>
          Some (true,
                wireWrite 0 8
                  (wireWrite (Z.b2z (evenParity data)) 1 (wireWrite data 32 s4)))
      | 2 =>
          if nonzero (u32 (retries - 1))
          then dpWrite_loop fuel (u32 (u32 (retries - 1) - 1))
                            addr APnDP data (wireWrite 0 8 s4)
          else Some (false,
                     log LOG_ERROR
                         "WAIT timeout during write (addr=%x APnDP=%d data=%08x)"
                         [addr; Z.b2z APnDP; data] (wireWrite 0 8 s4))
      | 4 =>
          Some (false,
                log LOG_ERROR
                    "FAULT response during write (addr=%x APnDP=%d data=%08x)"
                    [addr; Z.b2z APnDP; data] (wireWrite 0 8 s4))
      | _ =>
          Some (false,
                log LOG_ERROR
                    "PROTOCOL ERROR response during write (ack=%x addr=%x APnDP=%d data=%08x)"
                    [ackAt s 0; addr; Z.b2z APnDP; data] (wireWrite 0 8 s4))
      end.
Proof.
  cbn [dpWrite_loop].
  destruct (attempt_ack (packHeader addr APnDP false) s) as [Hv _].
  pose proof (attempt_wired (packHeader addr APnDP false) s) as Hw.
  destruct (wireRead 3 _) as [ack s3]. cbn [fst snd] in Hv, Hw.
  exists s3. split; [exact Hw|]. rewrite Hv. reflexivity.
Qed.

Lemma dpRead_loop_eq fuel retries addr APnDP data s :
  exists s3 s5,
    wired 12 s s3 /\ wired 33 s3 s5 /\
    dpRead_loop (S fuel) retries addr APnDP data s
    = let w := lineBits (dataPin s) (pulses s + 12) 32 in
      let parity := lineBits (dataPin s) (pulses s + 44) 1 in
      match ackAt s 0 with
      | 1 =>
          if negb (parity =? Z.b2z (evenParity w))
          then Some ((false, w),
                     log LOG_ERROR
                         "PARITY ERROR during read (addr=%x APnDP=%d data=%08x)"
                         [addr; Z.b2z APnDP; w]
                         (wireWrite 0 8 (wireWriteTurnaround s5)))
          else Some ((true, w),
                     log LOG_TRACE "DP  Read  [%x:%x] %08x"
                         [addr; Z.b2z APnDP; w]
                         (wireWrite 0 8 (wireWriteTurnaround s5)))
      | 2 =>
          if nonzero (u32 (retries - 1))
          then dpRead_loop fuel (u32 (u32 (retries - 1) - 1)) addr APnDP data
                           (wireWrite 0 8 (wireWriteTurnaround s3))
          else Some ((false, data),
                     log LOG_ERROR "WAIT timeout during read (addr=%x APnDP=%d)"
                         [addr; Z.b2z APnDP]
                         (wireWrite 0 8 (wireWriteTurnaround s3)))
      | 4 =>
          Some ((false, data),
                log LOG_ERROR "FAULT response during read (addr=%x APnDP=%d)"
                    [addr; Z.b2z APnDP]
                    (wireWrite 0 8 (wireWriteTurnaround s3)))
      | _ =>
          Some ((false, data),
                log LOG_ERROR
                    "PROTOCOL ERROR response during read (ack=%x addr=%x APnDP=%d)"
                    [ackAt s 0; addr; Z.b2z APnDP]
                    (wireWrite 0 8 (wireWriteTurnaround s3)))
      end.
Proof.
  cbn [dpRead_loop].
  destruct (attempt_ack (packHeader addr APnDP true) s) as [Hv _].
  pose proof (attempt_wired (packHeader addr APnDP true) s) as Hw.
  destruct (wireRead 3 _) as [ack s3]. cbn [fst snd] in Hv, Hw.
  destruct (wireRead_spec 32 s3 ltac:(lia)) as [Hw32 _].
  pose proof (wired_wireRead 32 s3 ltac:(lia)) as W4.
  destruct (wireRead 32 s3) as [w' s4]. cbn [fst snd] in Hw32, W4.
  destruct (wireRead_spec 1 s4 ltac:(lia)) as [Hp _].
  pose proof (wired_wireRead 1 s4 ltac:(lia)) as W5.
  destruct (wireRead 1 s4) as [p' s5]. cbn [fst snd] in Hp, W5.
  exists s3, s5. split; [exact Hw|]. split; [wired_by|].
  assert (Ew : w' = lineBits (dataPin s) (pulses s + 12) 32).
  { rewrite Hw32. destruct Hw as [(_ & Hd & _ & _ & _ & _ & _ & Hq) _].
    now rewrite Hd, Hq. }
  assert (Ep : p' = lineBits (dataPin s) (pulses s + 44) 1).
  { rewrite Hp.
    assert (H4 : wired 44 s s4) by wired_by.
    destruct H4 as [(_ & Hd & _ & _ & _ & _ & _ & Hq) _]. now rewrite Hd, Hq. }
  rewrite Hv, Ew, Ep. reflexivity.
Qed.

(** ** The complete outcome of a transaction *)

Lemma dpWrite_loop_waits_wired addr APnDP data n :
  forall fuel retries s,
    Z.even retries = true ->
    (forall k, (k < n)%nat -> ackAt s k = 2) ->
    exists retries' s',
      Z.even retries' = true /\ wired (21 * n) s s' /\
      dpWrite_loop (n + fuel) retries addr APnDP data s
      = dpWrite_loop fuel retries' addr APnDP data s'.
Proof.
  induction n as [|n IH]; intros fuel retries s He Hw.
  - exists retries, s. split; [exact He|split; [apply wired_refl|reflexivity]].
  - destruct (dpWrite_loop_eq (n + fuel) retries addr APnDP data s)
      as (s3 & W3 & E1).
    cbv zeta in E1. rewrite (Hw O ltac:(lia)) in E1.
    destruct (retries_after_wait retries He) as [Hnz He'].
    rewrite Hnz in E1.
    assert (W1 : wired 21 s (wireWrite 0 8 (wireWriteTurnaround s3)))
      by wired_by.
    destruct (IH fuel _ (wireWrite 0 8 (wireWriteTurnaround s3)) He')
      as (r' & s' & Hr' & Ha & E).
    + intros k Hk. rewrite (ackAt_advance 1 k s _ (proj1 W1)). apply Hw. lia.
    + exists r', s'. split; [exact Hr'|]. split.
      * eapply wired_eq; [eapply wired_trans; [exact W1|exact Ha]|]. lia.
      * change (S n + fuel)%nat with (S (n + fuel)). now rewrite E1.
Qed.

Lemma dpRead_loop_waits_wired addr APnDP data n :
  forall fuel retries s,
    Z.even retries = true ->
    (forall k, (k < n)%nat -> ackAt s k = 2) ->
    exists retries' s',
      Z.even retries' = true /\ wired (21 * n) s s' /\
      dpRead_loop (n + fuel) retries addr APnDP data s
      = dpRead_loop fuel retries' addr APnDP data s'.
Proof.
  induction n as [|n IH]; intros fuel retries s He Hw.
  - exists retries, s. split; [exact He|split; [apply wired_refl|reflexivity]].
  - destruct (dpRead_loop_eq (n + fuel) retries addr APnDP data s)
      as (s3 & s5 & W3 & _ & E1).
    cbv zeta in E1. rewrite (Hw O ltac:(lia)) in E1.
    destruct (retries_after_wait retries He) as [Hnz He'].
    rewrite Hnz in E1.
    assert (W1 : wired 21 s (wireWrite 0 8 (wireWriteTurnaround s3)))
      by wired_by.
    destruct (IH fuel _ (wireWrite 0 8 (wireWriteTurnaround s3)) He')
      as (r' & s' & Hr' & Ha & E).
    + intros k Hk. rewrite (ackAt_advance 1 k s _ (proj1 W1)). apply Hw. lia.
    + exists r', s'. split; [exact Hr'|]. split.
      * eapply wired_eq; [eapply wired_trans; [exact W1|exact Ha]|]. lia.
      * change (S n + fuel)%nat with (S (n + fuel)). now rewrite E1.
Qed.

Lemma wired_pins n s s' :
  wired n s s' -> dataPin s' = dataPin s /\ clockPin s' = clockPin s.
Proof. intros [(Hc & Hd & _) _]. auto. Qed.

Lemma gpio_recordDp t x : gpio (recordDp t x) = gpio x.
Proof. reflexivity. Qed.

Lemma write_tail_gpio data x :
  gpio (wireWrite 0 8
          (wireWrite (Z.b2z (evenParity data)) 1
             (wireWrite data 32 (wireWriteTurnaround x))))
  = gpio x ++ turnaroundOps (dataPin x) (clockPin x)
    ++ (writeOps (dataPin x) (clockPin x) data 32
        ++ bitOps (dataPin x) (clockPin x) (evenParity data))
    ++ idleOps (dataPin x) (clockPin x).
Proof.
  set (x1 := wireWriteTurnaround x).
  set (x2 := wireWrite data 32 x1).
  set (x3 := wireWrite (Z.b2z (evenParity data)) 1 x2).
  assert (P1 : dataPin x1 = dataPin x /\ clockPin x1 = clockPin x).
  { destruct (wireWriteTurnaround_advance x) as (H1 & H2 & _). auto. }
  assert (P2 : dataPin x2 = dataPin x /\ clockPin x2 = clockPin x).
  { destruct (wireWrite_advance data 32 x1) as (H1 & H2 & _).
    fold x2 in H1, H2. destruct P1. split; congruence. }
  assert (P3 : dataPin x3 = dataPin x /\ clockPin x3 = clockPin x).
  { destruct (wireWrite_advance (Z.b2z (evenParity data)) 1 x2)
      as (H1 & H2 & _).
    fold x3 in H1, H2. destruct P2. split; congruence. }
  rewrite (wireWrite_gpio 0 8 x3).
  unfold x3 at 1. rewrite (wireWrite_gpio _ 1 x2).
  unfold x2 at 1. rewrite (wireWrite_gpio data 32 x1).
  unfold x1 at 1. rewrite wireWriteTurnaround_gpio.
  destruct P1 as [-> ->], P2 as [-> ->], P3 as [-> ->].
  rewrite writeOps_bit, <- idleOps_writeOps.
  rewrite <- !app_assoc. reflexivity.
Qed.

(** X3.  The outcome of [dpWrite] is decided by the first acknowledge
    that is not WAIT, say in attempt [k]: the call returns true exactly
    when it is OK.  Only then are the 32 data bits (least significant
    first) and the parity bit [evenParity data] sent, between the write
    turnaround and the 8 idle bits that end every call; a refused write
    sends only turnaround and idle bits and reports FAULT or a protocol
    error at the error level.  The call takes 21 clock pulses per
    refused or waiting attempt and 54 for the successful one, and is
    recorded once in the history. *)
Theorem dpWrite_outcome fuel addr APnDP data s k :
  (k < fuel)%nat ->
  answeredAt s k ->
  let ok := ackAt s k =? 1 in
  let d := dataPin s in
  let c := clockPin s in
  exists s',
    dpWrite fuel addr APnDP data s = Some (ok, s') /\
    transacted (DpW addr APnDP data ok)
               (21 * k + if ok then 54 else 21) s s' /\
    (exists pre,
        gpio s' = gpio s ++ pre ++ turnaroundOps d c
                  ++ (if ok
                      then writeOps d c data 32 ++ bitOps d c (evenParity data)
                      else [])
                  ++ idleOps d c) /\
    (ok = false ->
     exists s5,
       s' = recordDp (DpW addr APnDP data false)
              (log LOG_ERROR
                   (fst (writeRefusal (ackAt s k) addr APnDP data))
                   (snd (writeRefusal (ackAt s k) addr APnDP data)) s5)).
Proof.
  intros Hk [Hwait Hack] ok d c. unfold dpWrite.
  set (s0 := log LOG_TRACE "DP  Write [%x:%x] %08x"
                 [addr; Z.b2z APnDP; data] s).
  assert (W0 : wired 0 s s0) by apply wired_log.
  replace fuel with (k + S (fuel - S k))%nat by lia.
  destruct (dpWrite_loop_waits_wired addr APnDP data k (S (fuel - S k)) 10 s0
              eq_refl) as (r' & s1 & _ & W1 & E1).
  { intros j Hj. rewrite (ackAt_same j s s0 (proj1 W0)). auto. }
  assert (Ws1 : wired (21 * k) s s1) by wired_by.
  assert (A1 : ackAt s1 0 = ackAt s k).
  { now rewrite (ackAt_advance k 0 s s1 (proj1 Ws1)), Nat.add_0_r. }
  destruct (dpWrite_loop_eq (fuel - S k) r' addr APnDP data s1)
    as (s3 & W3 & E3).
  cbv zeta in E3. rewrite A1 in E3. rewrite E1, E3. clear E1 E3.
  assert (Ws3 : wired 12 s1 s3) by exact W3.
  destruct (wired_pins _ _ _ Ws1) as [Hd1 Hc1].
  subst ok. destruct (Z.eqb_spec (ackAt s k) 1) as [Eok|Nok].
  - rewrite Eok. cbv beta iota.
    eexists. split; [reflexivity|]. split; [|split; [|discriminate]].
    + apply advance_transacted. eapply advance_eq.
      * eapply advance_trans; [exact (proj1 Ws1)|].
        eapply advance_trans; [exact (proj1 W3)|]. adv.
      * lia.
    + rewrite gpio_recordDp, write_tail_gpio.
      destruct Ws1 as [_ [m Hm]]. destruct W3 as [A3 [m3 Hm3]].
      exists (m ++ m3). rewrite Hm3, Hm.
      destruct A3 as (-> & -> & _). rewrite Hd1, Hc1. subst d c.
      rewrite <- !app_assoc. reflexivity.
  - rewrite (ack_switch (ackAt s k)) by assumption.
    unfold writeRefusal.
    destruct (ackAt s k =? 4).
    + eexists. split; [reflexivity|]. split; [|split].
      * apply advance_transacted. eapply advance_eq.
        -- eapply advance_trans; [exact (proj1 Ws1)|].
           eapply advance_trans; [exact (proj1 W3)|]. adv.
        -- lia.
      * rewrite gpio_recordDp, log_gpio.
        destruct (tail_gpio 12 s1 s3 []
                    (wireWrite 0 8 (wireWriteTurnaround s3)) W3)
          as [pre Hpre].
        { rewrite wireWrite_gpio.
          destruct (wireWriteTurnaround_advance s3) as (-> & -> & _).
          destruct (proj1 W3) as (-> & -> & _).
          now rewrite <- idleOps_writeOps. }
        destruct Ws1 as [_ [m Hm]]. exists (m ++ pre).
        rewrite Hpre, Hm, Hd1, Hc1. subst d c. cbn [app].
        now rewrite <- !app_assoc.
      * intros _. eexists. reflexivity.
    + eexists. split; [reflexivity|]. split; [|split].
      * apply advance_transacted. eapply advance_eq.
        -- eapply advance_trans; [exact (proj1 Ws1)|].
           eapply advance_trans; [exact (proj1 W3)|]. adv.
        -- lia.
      * rewrite gpio_recordDp, log_gpio.
        destruct (tail_gpio 12 s1 s3 []
                    (wireWrite 0 8 (wireWriteTurnaround s3)) W3)
          as [pre Hpre].
        { rewrite wireWrite_gpio.
          destruct (wireWriteTurnaround_advance s3) as (-> & -> & _).
          destruct (proj1 W3) as (-> & -> & _).
          now rewrite <- idleOps_writeOps. }
        destruct Ws1 as [_ [m Hm]]. exists (m ++ pre).
        rewrite Hpre, Hm, Hd1, Hc1. subst d c. cbn [app].
        now rewrite <- !app_assoc.
      * intros _. eexists. reflexivity.
Qed.

(** X4.  The outcome of [dpRead] is decided by the first acknowledge
    that is not WAIT, say in attempt [k].  If it is OK the 32 bits that
    follow are stored in the out-parameter, least significant first, and
    the call returns true exactly when the 33rd bit is their even
    parity; otherwise the out-parameter is left alone, the call returns
    false and reports FAULT or a protocol error at the error level.
    Every path ends with the write turnaround and the 8 idle bits; the
    call takes 21 clock pulses per refused or waiting attempt, 54 for
    one answered OK, and is recorded once in the history. *)
Theorem dpRead_outcome fuel addr APnDP data s k :
  (k < fuel)%nat ->
  answeredAt s k ->
  let w := lineBits (dataPin s) (pulses s + 21 * k + 12) 32 in
  let parity := lineBits (dataPin s) (pulses s + 21 * k + 44) 1 in
  let acked := ackAt s k =? 1 in
  let ok := acked && (parity =? Z.b2z (evenParity w)) in
  let data' := if acked then w else data in
  exists s',
    dpRead fuel addr APnDP data s = Some ((ok, data'), s') /\
    transacted (DpR addr APnDP data' ok)
               (21 * k + if acked then 54 else 21) s s' /\
    (exists pre,
        gpio s' = gpio s ++ pre ++ turnaroundOps (dataPin s) (clockPin s)
                  ++ idleOps (dataPin s) (clockPin s)) /\
    0 <= w < 2 ^ 32 /\
    (acked = false ->
     exists s5,
       s' = recordDp (DpR addr APnDP data false)
              (log LOG_ERROR
                   (fst (readRefusal (ackAt s k) addr APnDP))
                   (snd (readRefusal (ackAt s k) addr APnDP)) s5)).
Proof.
  intros Hk [Hwait Hack] w parity acked ok data'. unfold dpRead.
  replace fuel with (k + S (fuel - S k))%nat by lia.
  destruct (dpRead_loop_waits_wired addr APnDP data k (S (fuel - S k)) 10 s
              eq_refl Hwait) as (r' & s1 & _ & Ws1 & E1).
  assert (A1 : ackAt s1 0 = ackAt s k).
  { now rewrite (ackAt_advance k 0 s s1 (proj1 Ws1)), Nat.add_0_r. }
  destruct (dpRead_loop_eq (fuel - S k) r' addr APnDP data s1)
    as (s3 & s5 & W3 & W5 & E3).
  cbv zeta in E3. rewrite A1 in E3.
  destruct (wired_pins _ _ _ Ws1) as [Hd1 Hc1].
  assert (Eq : pulses s1 = (pulses s + 21 * k)%nat) by apply Ws1.
  rewrite Hd1, Eq in E3. fold w parity in E3.
  rewrite E1, E3. clear E1 E3.
  assert (Hrange : 0 <= w < 2 ^ 32) by apply (lineBits_range _ 32).
  clearbody w parity.
  assert (Htail : forall n x, wired n s1 x ->
            exists pre,
              gpio (wireWrite 0 8 (wireWriteTurnaround x))
              = gpio s ++ pre ++ turnaroundOps (dataPin s) (clockPin s)
                ++ idleOps (dataPin s) (clockPin s)).
  { intros n x Wx.
    destruct (tail_gpio n s1 x [] (wireWrite 0 8 (wireWriteTurnaround x)) Wx)
      as [pre Hpre].
    { rewrite wireWrite_gpio.
      destruct (wireWriteTurnaround_advance x) as (-> & -> & _).
      destruct (proj1 Wx) as (-> & -> & _).
      now rewrite <- idleOps_writeOps. }
    destruct Ws1 as [_ [m Hm]]. exists (m ++ pre).
    rewrite Hpre, Hm, Hd1, Hc1. cbn [app]. now rewrite <- !app_assoc. }
  subst acked ok data'. destruct (Z.eqb_spec (ackAt s k) 1) as [Eok|Nok].
  - rewrite Eok. cbv beta iota. cbn [andb].
    assert (W15 : wired 45 s1 s5) by wired_by.
    destruct (Htail 45%nat s5 W15) as [pre Hpre].
    destruct (parity =? Z.b2z (evenParity w)); cbn [negb];
      (eexists; split; [reflexivity|]; split; [|split; [|split]];
       [ apply advance_transacted; eapply advance_eq;
         [ eapply advance_trans; [exact (proj1 Ws1)|];
           eapply advance_trans; [exact (proj1 W15)|]; adv | lia ]
       | exists pre; rewrite gpio_recordDp, log_gpio; exact Hpre
       | exact Hrange
       | discriminate ]).
  - rewrite (ack_switch (ackAt s k)) by assumption.
    cbn [andb]. unfold readRefusal.
    destruct (Htail 12%nat s3 W3) as [pre Hpre].
    destruct (ackAt s k =? 4);
      (eexists; split; [reflexivity|]; split; [|split; [|split]];
       [ apply advance_transacted; eapply advance_eq;
         [ eapply advance_trans; [exact (proj1 Ws1)|];
           eapply advance_trans; [exact (proj1 W3)|]; adv | lia ]
       | exists pre; rewrite gpio_recordDp, log_gpio; exact Hpre
       | exact Hrange
       | intros _; eexists; reflexivity ]).
Qed.

Lemma first_answer s n :
  (forall j, (j < n)%nat -> ackAt s j = 2)
  \/ exists k, (k < n)%nat /\ answeredAt s k.
Proof.
  induction n as [|n [IH|(k & Hk & Ha)]].
  - left. intros j Hj. lia.
  - destruct (Z.eq_dec (ackAt s n) 2) as [E|N].
    + left. intros j Hj. destruct (Nat.eq_dec j n) as [->|]; [exact E|].
      apply IH. lia.
    + right. exists n. split; [lia|]. split; assumption.
  - right. exists k. split; [lia|exact Ha].
Qed.

(** X5.  A debug-port transaction returns if and only if the target
    answers one of the attempts with something other than WAIT: given
    fuel for [fuel] attempts, [dpWrite] and [dpRead] return exactly when
    such an answer comes in one of the first [fuel] attempts.  No number
    of WAIT answers alone makes either of them return. *)
Theorem dp_returns_iff_answered fuel addr APnDP data s :
  ((exists r, dpWrite fuel addr APnDP data s = Some r)
   <-> exists k, (k < fuel)%nat /\ answeredAt s k) /\
  ((exists r, dpRead fuel addr APnDP data s = Some r)
   <-> exists k, (k < fuel)%nat /\ answeredAt s k).
Proof.
  split; split.
  - intros [r E]. destruct (first_answer s fuel) as [Hall|H]; [|exact H].
    exfalso. unfold dpWrite in E.
    set (s0 := log LOG_TRACE "DP  Write [%x:%x] %08x"
                   [addr; Z.b2z APnDP; data] s) in E.
    destruct (dpWrite_loop_waits addr APnDP data fuel 0 10 s0 eq_refl)
      as (r' & s1 & _ & _ & E1).
    { intros j Hj.
      rewrite (ackAt_same j s s0 (log_advance _ _ _ s)). auto. }
    rewrite Nat.add_0_r in E1. rewrite E1 in E. discriminate.
  - intros (k & Hk & _ & Hack).
    destruct (dpWrite_returns fuel addr APnDP data s) as (ok & s' & E); eauto.
  - intros [r E]. destruct (first_answer s fuel) as [Hall|H]; [|exact H].
    exfalso. unfold dpRead in E.
    destruct (dpRead_loop_waits addr APnDP data fuel 0 10 s eq_refl Hall)
      as (r' & s1 & _ & _ & E1).
    rewrite Nat.add_0_r in E1. rewrite E1 in E. discriminate.
  - intros (k & Hk & _ & Hack).
    destruct (dpRead_returns fuel addr APnDP data s) as (r & s' & E); eauto.
Qed.

(** ** What the operations leave alone *)

Lemma config_advance n s s' : advance n s s' -> config s' = config s.
Proof.
  intros (A1 & A2 & A3 & _ & A5 & _). unfold config. congruence.
Qed.

Lemma config_transacted t n s s' : transacted t n s s' -> config s' = config s.
Proof.
  intros (A1 & A2 & A3 & _ & A5 & _). unfold config. congruence.
Qed.

Lemma config_dpSelect fuel accessPort addr s ok s' :
  dpSelect fuel accessPort addr s = Some (ok, s') -> config s' = config s.
Proof.
  unfold dpSelect. destruct (negb _); [|now intros [= <- <-]].
  destruct (dpWrite fuel SELECT false _ s) as [[ok1 s1]|] eqn:E1;
    [|discriminate].
  destruct (dpWrite_transacted _ _ _ _ _ _ _ E1) as [n Hn].
  apply config_transacted in Hn.
  destruct ok1; cbn [negb]; intros [= <- <-]; exact Hn.
Qed.

Lemma config_apWrite fuel accessPort addr data s ok s' :
  apWrite fuel accessPort addr data s = Some (ok, s') -> config s' = config s.
Proof.
  unfold apWrite. intros E.
  destruct (dpSelect fuel accessPort addr s) as [[sel s1]|] eqn:E1;
    [|discriminate].
  apply config_dpSelect in E1. destruct sel.
  - destruct (dpWrite fuel addr true data s1) as [[ok2 s2]|] eqn:E2;
      [|discriminate].
    destruct (dpWrite_transacted _ _ _ _ _ _ _ E2) as [n Hn].
    apply config_transacted in Hn. injection E as <- <-.
    unfold config in *. cbn. congruence.
  - injection E as <- <-. exact E1.
Qed.

Lemma config_apRead fuel accessPort addr data s r s' :
  apRead fuel accessPort addr data s = Some (r, s') -> config s' = config s.
Proof.
  unfold apRead. intros E.
  destruct (dpSelect fuel accessPort addr s) as [[sel s1]|] eqn:E1;
    [|discriminate].
  apply config_dpSelect in E1. destruct sel.
  - destruct (dpRead fuel addr true data s1) as [[[ok2 d2] s2]|] eqn:E2;
      [|discriminate].
    destruct (dpRead_transacted _ _ _ _ _ _ _ _ E2) as [n Hn].
    apply config_transacted in Hn. injection E as <- <-.
    unfold config in *. cbn. congruence.
  - injection E as <- <-. exact E1.
Qed.

Lemma config_log level fmt args s : config (log level fmt args s) = config s.
Proof. apply (config_advance 0), log_advance. Qed.

Lemma config_memStore_loop fuel data count :
  forall addr i s ok s',
    memStore_loop fuel count addr data i s = Some (ok, s') ->
    config s' = config s.
Proof.
  induction count as [|count IH]; intros addr i s ok s' E;
    cbn [memStore_loop] in E.
  - now injection E as <- <-.
  - destruct (apWrite fuel 0 MEM_DRW (data i) _) as [[ok1 s1]|] eqn:E1;
      [|discriminate].
    apply config_apWrite in E1. rewrite config_log in E1.
    destruct ok1; cbn [negb] in E.
    + apply IH in E. congruence.
    + injection E as <- <-. exact E1.
Qed.

Lemma config_memLoad_loop fuel count :
  forall addr data i s r s',
    memLoad_loop fuel count addr data i s = Some (r, s') ->
    config s' = config s.
Proof.
  induction count as [|count IH]; intros addr data i s r s' E;
    cbn [memLoad_loop] in E.
  - now injection E as <- <-.
  - destruct (apRead fuel 0 MEM_DRW (data i) s) as [[[ok1 w] s1]|] eqn:E1;
      [|discriminate].
    apply config_apRead in E1.
    destruct ok1; cbn [negb] in E.
    + apply IH in E. rewrite config_log in E. congruence.
    + injection E as <- <-. exact E1.
Qed.

(** X6.  The pins, the log level and the state of [Serial] are set by
    [begin] alone: no memory operation, vectorised or single-word,
    changes them, whatever it returns. *)
Theorem memory_operations_keep_config fuel addr s :
  (forall data count ok s',
      memStoreN fuel addr data count s = Some (ok, s') ->
      config s' = config s) /\
  (forall data count r s',
      memLoadN fuel addr data count s = Some (r, s') ->
      config s' = config s) /\
  (forall data ok s',
      memStore fuel addr data s = Some (ok, s') -> config s' = config s) /\
  (forall data r s',
      memLoad fuel addr data s = Some (r, s') -> config s' = config s).
Proof.
  assert (HS : forall data count ok s',
             memStoreN fuel addr data count s = Some (ok, s') ->
             config s' = config s).
  { intros data count ok s'. unfold memStoreN. intros E.
    destruct (apWrite fuel 0 MEM_TAR addr s) as [[ok1 s1]|] eqn:E1;
      [|discriminate].
    apply config_apWrite in E1. destruct ok1; cbn [negb] in E.
    - apply config_memStore_loop in E. congruence.
    - injection E as <- <-. exact E1. }
  assert (HL : forall data count r s',
             memLoadN fuel addr data count s = Some (r, s') ->
             config s' = config s).
  { intros data count r s'. unfold memLoadN. intros E.
    destruct (apWrite fuel 0 MEM_TAR addr s) as [[ok1 s1]|] eqn:E1;
      [|discriminate].
    apply config_apWrite in E1. destruct ok1; cbn [negb] in E.
    - apply config_memLoad_loop in E. congruence.
    - injection E as <- <-. exact E1. }
  split; [exact HS|]. split; [exact HL|]. split.
  - intros data ok s'. apply HS.
  - intros data r s'. unfold memLoad. intros E.
    destruct (memLoadN fuel addr (fun _ => data) 1 s) as [[[ok1 b1] s1]|] eqn:E1;
      [|discriminate].
    injection E as <- <-. eapply HL, E1.
Qed.

(** ** Vectorised load *)

Lemma drwReads_S data i k :
  drwReads data i (S k) = ApR 0 MEM_DRW (data i) true :: drwReads data (S i) k.
Proof. reflexivity. Qed.

Lemma drwReads_ext data data' i n :
  (forall j, (i <= j < i + n)%nat -> data' j = data j) ->
  drwReads data' i n = drwReads data i n.
Proof.
  intros H. unfold drwReads. apply map_ext_in. intros j Hj.
  apply in_seq in Hj. now rewrite H.
Qed.

Lemma store_same buf i v : store buf i v i = v.
Proof. unfold store. now rewrite Nat.eqb_refl. Qed.

Lemma store_other buf i v j : j <> i -> store buf i v j = buf j.
Proof.
  intros H. unfold store. destruct (Nat.eqb_spec j i); [contradiction|reflexivity].
Qed.

Lemma memLoad_loop_result fuel count :
  forall addr data i s,
    match memLoad_loop fuel count addr data i s with
    | None => writeStuck fuel \/ readStuck fuel
    | Some ((ok, data'), s') =>
        exists new,
          apLog s' = apLog s ++ new /\
          (cache_select s = 0 ->
           dpLog s' = dpLog s ++ map apToDp new /\ cache_select s' = 0) /\
          ((ok = true /\ new = drwReads data' i count /\
            forall j, ~ (i <= j < i + count)%nat -> data' j = data j) \/
           (ok = false /\
            exists k, (k < count)%nat /\
              new = drwReads data' i k
                    ++ [ApR 0 MEM_DRW (data' (i + k)%nat) false] /\
              forall j, ~ (i <= j <= i + k)%nat -> data' j = data j))
    end.
Proof.
  induction count as [|count IH]; intros addr data i s; cbn [memLoad_loop].
  - exists []. rewrite !app_nil_r. split; [reflexivity|]. split; [auto|].
    left. auto.
  - destruct (apRead fuel 0 MEM_DRW (data i) s) as [[[ok1 w] s1]|] eqn:E1;
      [|eapply apRead_stuck; eassumption].
    destruct (apRead_result _ _ _ _ _ _ _ _ E1) as [Ha1 H1].
    change (selectValue 0 MEM_DRW) with 0 in H1. cbn [apToDp] in H1.
    assert (Hdp : cache_select s = 0 ->
                  dpLog s1 = dpLog s ++ [DpR MEM_DRW true w ok1]
                  /\ cache_select s1 = 0).
    { intros C. destruct H1 as [(_ & Hl & Hc)|[(N & _)|(N & _)]];
        [split; congruence|congruence|congruence]. }
    destruct ok1; cbn [negb].
    + set (data1 := store data i w).
      set (s2 := log LOG_TRACE "MEM Load  [%08x] %08x" [addr; data1 i] s1).
      destruct (log_advance LOG_TRACE "MEM Load  [%08x] %08x" [addr; data1 i] s1)
        as (_ & _ & _ & Hc2 & _ & Hl2 & Ha2 & _). fold s2 in Hc2, Hl2, Ha2.
      specialize (IH (u32 (addr + 1)) data1 (S i) s2).
      destruct (memLoad_loop fuel count (u32 (addr + 1)) data1 (S i) s2)
        as [[[ok data'] s']|]; [|exact IH].
      destruct IH as (new & Hnew & Hdpn & Hshape).
      exists (ApR 0 MEM_DRW w true :: new). split; [|split].
      * rewrite Hnew, Ha2, Ha1, <- app_assoc. reflexivity.
      * intros C. destruct (Hdp C) as [Hl1 Hc1].
        destruct Hdpn as [Hl3 Hc3]; [congruence|]. split; [|exact Hc3].
        rewrite Hl3, Hl2, Hl1, <- app_assoc. reflexivity.
      * destruct Hshape as [(-> & -> & Hout)|(-> & k & Hk & -> & Hout)].
        -- left. split; [reflexivity|].
           assert (Ei : data' i = w).
           { rewrite Hout by lia. apply store_same. }
           split; [now rewrite drwReads_S, Ei|].
           intros j Hj. rewrite Hout by lia. apply store_other. lia.
        -- right. split; [reflexivity|]. exists (S k). split; [lia|].
           assert (Ei : data' i = w).
           { rewrite Hout by lia. apply store_same. }
           split.
           ++ rewrite drwReads_S, Ei. cbn [app].
              replace (i + S k)%nat with (S i + k)%nat by lia. reflexivity.
           ++ intros j Hj. rewrite Hout by lia. apply store_other. lia.
    + exists [ApR 0 MEM_DRW w false]. split; [exact Ha1|split].
      * intros C. destruct (Hdp C) as [Hl1 Hc1]. split; [exact Hl1|exact Hc1].
      * right. split; [reflexivity|]. exists O. split; [lia|].
        rewrite Nat.add_0_r, store_same. split; [reflexivity|].
        intros j Hj. apply store_other. lia.
Qed.

(** ** The sequence of [begin] *)

Lemma pollPowerUp_log fuel retries :
  forall ctrlstat s r s',
    pollPowerUp fuel retries ctrlstat s = Some (r, s') ->
    exists polls,
      dpLog s' = dpLog s ++ polls /\
      (List.length polls <= retries)%nat /\
      (r <> PollFailed ->
       forallb isPoll polls = true /\ (retries <> O -> polls <> [])) /\
      cache_select s' = cache_select s /\
      apLog s' = apLog s /\
      config s' = config s /\
      (forall left c, r = PollLeft left c ->
         (exists front last,
             polls = front ++ [last] /\
             forallb unpowered front = true /\ powered last = true /\
             left = Z.of_nat (retries - List.length polls)) \/
         (List.length polls = retries /\
          forallb unpowered polls = true /\ left = u32 (0 - 1))).
Proof.
  induction retries as [|retries IH]; intros ctrlstat s r s' E;
    cbn [pollPowerUp] in E.
  - injection E as <- <-. exists []. rewrite app_nil_r.
    repeat split; auto; try congruence.
    intros left c E. injection E as <- <-. right. repeat split.
  - destruct (dpRead fuel CTRLSTAT false ctrlstat s) as [[[ok1 c1] s1]|] eqn:E1;
      [|discriminate].
    destruct (dpRead_transacted _ _ _ _ _ _ _ _ E1) as [n Hn].
    pose proof (config_transacted _ _ _ _ Hn) as Hcfg.
    destruct Hn as (_ & _ & _ & Hc & _ & Hl & Ha & _).
    destruct ok1; cbn [negb] in E.
    + destruct (Z.land c1 _ =? _) eqn:Hack.
      * injection E as <- <-. exists [DpR CTRLSTAT false c1 true].
        split; [exact Hl|]. split; [cbn; lia|].
        split; [intros _; split; [reflexivity|discriminate]|].
        split; [exact Hc|]. split; [exact Ha|]. split; [exact Hcfg|].
        intros left c E. injection E as <- <-. left.
        exists [], (DpR CTRLSTAT false c1 true).
        split; [reflexivity|]. split; [reflexivity|].
        split; [exact Hack|]. cbn [List.length]. f_equal. lia.
      * destruct (IH _ _ _ _ E)
          as (polls & Hl2 & Hlen & Hok & Hc2 & Ha2 & Hcfg2 & Hshape).
        exists (DpR CTRLSTAT false c1 true :: polls).
        split; [rewrite Hl2, Hl, <- app_assoc; reflexivity|].
        split; [cbn; lia|].
        split.
        { intros Hr. destruct (Hok Hr) as [Hall _].
          split; [cbn; exact Hall|discriminate]. }
        split; [congruence|]. split; [congruence|]. split; [congruence|].
        intros left c Er.
        assert (Hun : unpowered (DpR CTRLSTAT false c1 true) = true)
          by (unfold unpowered, powered; rewrite Hack; reflexivity).
        destruct (Hshape _ _ Er)
          as [(front & last & -> & Hfront & Hlast & ->)|(Hn & Hall & ->)].
        -- left. exists (DpR CTRLSTAT false c1 true :: front), last.
           split; [reflexivity|].
           split; [cbn [forallb]; rewrite Hun, Hfront; reflexivity|].
           split; [exact Hlast|reflexivity].
        -- right. split; [cbn; lia|].
           split; [cbn [forallb]; rewrite Hun, Hall; reflexivity|reflexivity].
    + injection E as <- <-. exists [DpR CTRLSTAT false c1 false].
      split; [exact Hl|]. split; [cbn; lia|].
      split; [intros C; contradiction C; reflexivity|].
      split; [exact Hc|]. split; [exact Ha|]. split; [exact Hcfg|].
      intros left c E. discriminate E.
Qed.

Lemma begin_trace fuel c d l junk s0 ok s :
  begin fuel c d l junk s0 = Some (ok, s) ->
  config s = (c, d, l, serialReady s0) /\
  exists idcode ok1 rest,
    dpLog s = dpLog s0 ++ DpInit :: DpR IDCODE false idcode ok1 :: rest /\
    ((ok1 && partNumberOk idcode = false /\
      ok = false /\ rest = [] /\ apLog s = apLog s0 /\
      cache_select s = 0xFFFFFFFF)
     \/
     (ok1 = true /\ partNumberOk idcode = true /\
      (ok = true ->
       cache_select s = 0 /\
       exists polls idr,
         Z.land idr 0xF = 1 /\
         forallb isPoll polls = true /\
         (((List.length polls <= 3)%nat /\
           exists front last,
             polls = front ++ [last] /\
             forallb unpowered front = true /\ powered last = true) \/
          (List.length polls = 4%nat /\ forallb unpowered polls = true)) /\
         rest = DpW CTRLSTAT false 0x50000000 true :: polls
                ++ [DpW SELECT false 0xF0 true; DpR MEM_IDR true idr true;
                    DpW SELECT false 0 true; DpW MEM_CSW true 0x52 true] /\
         apLog s = apLog s0
                   ++ [ApR 0 MEM_IDR idr true; ApW 0 MEM_CSW 0x52 true]))).
Proof.
  unfold begin.
  set (x := pinMode d INPUT_PULLUP (pinMode c OUTPUT (set_config c d l s0))).
  set (s1 := recordDp DpInit (set_cache_select 0xFFFFFFFF x)).
  set (s2 := wireWrite 0 32 _).
  assert (A2 : advance 209 s1 s2) by (subst s2; advance_by).
  assert (Hcfg2 : config s2 = (c, d, l, serialReady s0)).
  { rewrite (config_advance _ _ _ A2). reflexivity. }
  assert (Hl2 : dpLog s2 = dpLog s0 ++ [DpInit]) by (rewrite (proj1 (proj2 (proj2 (proj2 (proj2 (proj2 A2)))))); reflexivity).
  assert (Ha2 : apLog s2 = apLog s0).
  { destruct A2 as (_ & _ & _ & _ & _ & _ & -> & _). reflexivity. }
  assert (Hc2 : cache_select s2 = 0xFFFFFFFF).
  { destruct A2 as (_ & _ & _ & -> & _). reflexivity. }
  clearbody s2. clear A2 s1 x. intros E.
  destruct (dpRead fuel IDCODE false junk s2) as [[[ok1 idcode] s3]|] eqn:E3;
    [|discriminate].
  destruct (dpRead_transacted _ _ _ _ _ _ _ _ E3) as [n3 H3].
  pose proof (config_transacted _ _ _ _ H3) as Hcfg3.
  destruct H3 as (_ & _ & _ & Hc3 & _ & Hl3 & Ha3 & _).
  assert (Hl3' : dpLog s3 = dpLog s0 ++ [DpInit; DpR IDCODE false idcode ok1]).
  { rewrite Hl3, Hl2, <- app_assoc. reflexivity. }
  assert (Early : forall fmt args,
            ok1 && partNumberOk idcode = false ->
            config (log LOG_ERROR fmt args s3) = (c, d, l, serialReady s0) /\
            exists idcode0 ok0 rest,
              dpLog (log LOG_ERROR fmt args s3)
              = dpLog s0 ++ DpInit :: DpR IDCODE false idcode0 ok0 :: rest /\
              ((ok0 && partNumberOk idcode0 = false /\
                false = false /\ rest = [] /\
                apLog (log LOG_ERROR fmt args s3) = apLog s0 /\
                cache_select (log LOG_ERROR fmt args s3) = 0xFFFFFFFF)
               \/ (ok0 = true /\ partNumberOk idcode0 = true /\
                   (false = true -> cache_select (log LOG_ERROR fmt args s3) = 0 /\
                    exists polls idr,
                      Z.land idr 0xF = 1 /\
                      forallb isPoll polls = true /\
                      (((List.length polls <= 3)%nat /\
                        exists front last,
                          polls = front ++ [last] /\
                          forallb unpowered front = true /\
                          powered last = true) \/
                       (List.length polls = 4%nat /\
                        forallb unpowered polls = true)) /\
                      rest = DpW CTRLSTAT false 0x50000000 true :: polls
                             ++ [DpW SELECT false 0xF0 true;
                                 DpR MEM_IDR true idr true;
                                 DpW SELECT false 0 true;
                                 DpW MEM_CSW true 0x52 true] /\
                      apLog (log LOG_ERROR fmt args s3)
                      = apLog s0
                        ++ [ApR 0 MEM_IDR idr true;
                            ApW 0 MEM_CSW 0x52 true])))).
  { intros fmt args Hbad.
    destruct (log_advance LOG_ERROR fmt args s3)
      as (_ & _ & _ & Hc & _ & Hl & Ha & _).
    split; [rewrite config_log; congruence|].
    exists idcode, ok1, []. split; [rewrite Hl; exact Hl3'|].
    left. repeat split; congruence. }
  destruct ok1; cbn [negb] in E;
    [|injection E as <- <-; apply Early; reflexivity].
  fold (partNumberOk idcode) in E.
  destruct (partNumberOk idcode) eqn:Hpart; cbn [negb] in E;
    [|injection E as <- <-; apply Early; reflexivity].
  clear Early.
  set (s3' := log LOG_NORMAL _ _ s3) in E.
  destruct (log_advance LOG_NORMAL
              "Found ARM processor debug port (IDCODE: %08x)" [idcode] s3)
    as (_ & _ & _ & Hc3n & _ & Hl3n & Ha3n & _).
  pose proof (config_log LOG_NORMAL
                "Found ARM processor debug port (IDCODE: %08x)" [idcode] s3)
    as Hcfg3n.
  fold s3' in Hc3n, Hl3n, Ha3n, Hcfg3n.
  destruct (dpWrite fuel CTRLSTAT false _ s3') as [[ok2 s4]|] eqn:E4;
    [|discriminate].
  destruct (dpWrite_transacted _ _ _ _ _ _ _ E4) as [n4 H4].
  pose proof (config_transacted _ _ _ _ H4) as Hcfg4.
  destruct H4 as (_ & _ & _ & Hc4 & _ & Hl4 & Ha4 & _).
  destruct ok2; cbn [negb] in E.
  2:{ injection E as <- <-. split; [congruence|].
      exists idcode, true, [DpW CTRLSTAT false 0x50000000 false].
      split; [rewrite Hl4, Hl3n, Hl3'; now rewrite <- app_assoc|].
      right. split; [reflexivity|split; [exact Hpart|discriminate]]. }
  destruct (pollPowerUp fuel 4 junk s4) as [[polled s5]|] eqn:E5;
    [|discriminate].
  destruct (pollPowerUp_log _ _ _ _ _ _ E5)
    as (polls & Hl5 & Hlen & Hok & Hc5 & Ha5 & Hcfg5 & Hshape).
  assert (Hl5' : dpLog s5
                 = dpLog s0 ++ DpInit :: DpR IDCODE false idcode true
                   :: DpW CTRLSTAT false 0x50000000 true :: polls).
  { rewrite Hl5, Hl4, Hl3n, Hl3'. rewrite <- !app_assoc. reflexivity. }
  destruct polled as [|retries ctrlstat].
  { injection E as <- <-. split; [congruence|].
    eexists idcode, true, _. split; [exact Hl5'|].
    right. split; [reflexivity|split; [exact Hpart|discriminate]]. }
  destruct (Hok ltac:(discriminate)) as [Hall Hne].
  specialize (Hshape _ _ eq_refl).
  destruct (nonzero retries) eqn:Hleft; cbn [negb] in E.
  2:{ injection E as <- <-. split; [rewrite config_log; congruence|].
      eexists idcode, true, _. split; [rewrite log_gpio || idtac|].
      - destruct (log_advance LOG_ERROR
                    "ARMDebug: Debug port failed to power on (CTRLSTAT: %08x)"
                    [ctrlstat] s5) as (_ & _ & _ & _ & _ & -> & _).
        exact Hl5'.
      - right. split; [reflexivity|split; [exact Hpart|discriminate]]. }
  destruct (apRead fuel 0 MEM_IDR junk s5) as [[[ok3 idr] s6]|] eqn:E6;
    [|discriminate].
  pose proof (config_apRead _ _ _ _ _ _ _ E6) as Hcfg6.
  destruct (apRead_result _ _ _ _ _ _ _ _ E6) as [Ha6 H6].
  change (selectValue 0 MEM_IDR) with 0xF0 in H6. cbn [apToDp] in H6.
  assert (Hc5' : cache_select s5 = 0xFFFFFFFF) by congruence.
  rewrite Hc5' in H6.
  destruct H6 as [(C & _)|[(_ & Hok3 & Hl6 & Hc6)|(_ & Hl6 & Hc6)]];
    [discriminate C| |].
  { subst ok3. cbn [negb] in E. injection E as <- <-.
    split; [congruence|].
    eexists idcode, true, _. split; [rewrite Hl6, Hl5'|].
    - rewrite <- app_assoc. cbn [app]. reflexivity.
    - right. split; [reflexivity|split; [exact Hpart|discriminate]]. }
  assert (Hl6' : dpLog s6
                 = dpLog s0 ++ DpInit :: DpR IDCODE false idcode true
                   :: DpW CTRLSTAT false 0x50000000 true :: polls
                   ++ [DpW SELECT false 0xF0 true; DpR MEM_IDR true idr ok3]).
  { rewrite Hl6, Hl5'. rewrite <- app_assoc. reflexivity. }
  destruct ok3; cbn [negb] in E.
  2:{ injection E as <- <-. split; [congruence|].
      eexists idcode, true, _. split; [exact Hl6'|].
      right. split; [reflexivity|split; [exact Hpart|discriminate]]. }
  destruct (Z.land idr 0xF =? 1) eqn:Hidr; cbn [negb] in E.
  2:{ injection E as <- <-. split; [rewrite config_log; congruence|].
      eexists idcode, true, _. split.
      - destruct (log_advance LOG_ERROR
                    "ARMDebug: Default access port is not an AHB-AP as expected! (IDR: %08x)"
                    [idr] s6) as (_ & _ & _ & _ & _ & -> & _).
        exact Hl6'.
      - right. split; [reflexivity|split; [exact Hpart|discriminate]]. }
  destruct (apWrite fuel 0 MEM_CSW _ s6) as [[ok4 s7]|] eqn:E7;
    [|discriminate].
  pose proof (config_apWrite _ _ _ _ _ _ _ E7) as Hcfg7.
  destruct (apWrite_result _ _ _ _ _ _ _ E7) as [Ha7 H7].
  change (selectValue 0 MEM_CSW) with 0 in H7. cbn [apToDp] in H7.
  rewrite Hc6 in H7.
  assert (s = s7 /\ ok = ok4) as [-> ->]
      by (destruct ok4; cbn [negb] in E; injection E as <- <-; auto).
  split; [congruence|].
  destruct H7 as [(C & _)|[(_ & Hok4 & Hl7 & Hc7)|(_ & Hl7 & Hc7)]];
    [discriminate C| |].
  { subst ok4. eexists idcode, true, _. split; [rewrite Hl7, Hl6'|].
    - rewrite <- !app_assoc. cbn [app]. rewrite <- app_assoc. reflexivity.
    - right. split; [reflexivity|split; [exact Hpart|discriminate]]. }
  eexists idcode, true, _. split; [rewrite Hl7, Hl6'|].
  - rewrite <- !app_assoc. cbn [app]. rewrite <- app_assoc. reflexivity.
  - right. split; [reflexivity|]. split; [exact Hpart|]. intros ->.
    split; [exact Hc7|]. exists polls, idr.
    split; [now apply Z.eqb_eq|]. split; [exact Hall|]. split.
    { destruct Hshape as [(front & last & Hp & Hf & Hp' & Hr)|(Hn & Hu & _)].
      - left. split; [|exists front, last; auto].
        subst retries. unfold nonzero in Hleft.
        destruct (Z.eqb_spec (Z.of_nat (4 - List.length polls)) 0);
          [discriminate|lia].
      - right. auto. }
    split; [cbn [app]; reflexivity|].
    rewrite Ha7, Ha6, Ha5, Ha4, Ha3n, Ha3, Ha2. rewrite <- app_assoc.
    reflexivity.
Qed.

(** ** Independence from the verbosity *)

Lemma sameWire_log level fmt args level' fmt' args' s t :
  sameWire s t ->
  sameWire (log level fmt args s) (log level' fmt' args' t).
Proof.
  unfold log. intros H.
  destruct (_ && _), (_ && _); exact H.
Qed.

Lemma sameWire_gpioOp o o' s t :
  o = o' -> sameWire s t -> sameWire (gpioOp o s) (gpioOp o' t).
Proof.
  intros <- (Hc & Hd & Hs & Hg & Hp & Hl & Ha).
  unfold sameWire. cbn. rewrite Hg. auto 10.
Qed.

Lemma sameWire_pinMode pin mode s t :
  sameWire s t -> sameWire (pinMode pin mode s) (pinMode pin mode t).
Proof. apply sameWire_gpioOp. reflexivity. Qed.

Lemma sameWire_dataWrite level s t :
  sameWire s t ->
  sameWire (digitalWrite (dataPin s) level s) (digitalWrite (dataPin t) level t).
Proof.
  intros H. apply sameWire_gpioOp; [|exact H].
  destruct H as (_ & -> & _). reflexivity.
Qed.

Lemma sameWire_dataMode mode s t :
  sameWire s t ->
  sameWire (pinMode (dataPin s) mode s) (pinMode (dataPin t) mode t).
Proof.
  intros H. apply sameWire_gpioOp; [|exact H].
  destruct H as (_ & -> & _). reflexivity.
Qed.

Lemma sameWire_clockPulse s t :
  sameWire s t -> sameWire (clockPulse s) (clockPulse t).
Proof.
  intros (Hc & Hd & Hs & Hg & Hp & Hl & Ha).
  unfold sameWire, clockPulse. cbn. rewrite Hc, Hg, Hp. auto 10.
Qed.

Lemma sameWire_wireWrite_loop nBits :
  forall data s t,
    sameWire s t ->
    sameWire (wireWrite_loop nBits data s) (wireWrite_loop nBits data t).
Proof.
  induction nBits as [|n IH]; intros data s t H; cbn [wireWrite_loop].
  - exact H.
  - apply IH, sameWire_clockPulse, sameWire_dataWrite, H.
Qed.

Lemma sameWire_wireWrite data nBits s t :
  sameWire s t -> sameWire (wireWrite data nBits s) (wireWrite data nBits t).
Proof.
  intros H. unfold wireWrite.
  apply sameWire_wireWrite_loop, sameWire_log, H.
Qed.

Lemma sameWire_wireRead_loop count :
  forall result mask s t,
    sameWire s t ->
    fst (wireRead_loop count result mask s)
    = fst (wireRead_loop count result mask t) /\
    sameWire (snd (wireRead_loop count result mask s))
             (snd (wireRead_loop count result mask t)).
Proof.
  induction count as [|c IH]; intros result mask s t H; cbn [wireRead_loop].
  - split; [reflexivity|exact H].
  - assert (E : digitalRead (dataPin s) s = digitalRead (dataPin t) t).
    { unfold digitalRead. destruct H as (_ & -> & _ & _ & -> & _).
      reflexivity. }
    rewrite E. apply IH, sameWire_clockPulse, H.
Qed.

Lemma sameWire_wireRead nBits s t :
  sameWire s t ->
  fst (wireRead nBits s) = fst (wireRead nBits t) /\
  sameWire (snd (wireRead nBits s)) (snd (wireRead nBits t)).
Proof.
  intros H. unfold wireRead.
  destruct (sameWire_wireRead_loop nBits 0 1 s t H) as [E H'].
  destruct (wireRead_loop nBits 0 1 s) as [r s1],
           (wireRead_loop nBits 0 1 t) as [r' t1].
  cbn [fst snd] in *. subst r'. split; [reflexivity|].
  apply sameWire_log, H'.
Qed.

Lemma sameWire_wireWriteTurnaround s t :
  sameWire s t -> sameWire (wireWriteTurnaround s) (wireWriteTurnaround t).
Proof.
  intros H. unfold wireWriteTurnaround.
  apply sameWire_dataMode, sameWire_clockPulse, sameWire_dataMode,
    sameWire_dataWrite, sameWire_log, H.
Qed.

Lemma sameWire_wireReadTurnaround s t :
  sameWire s t -> sameWire (wireReadTurnaround s) (wireReadTurnaround t).
Proof.
  intros H. unfold wireReadTurnaround.
  apply sameWire_clockPulse, sameWire_dataMode,
    sameWire_dataWrite, sameWire_log, H.
Qed.

Lemma sameWire_recordDp e s t :
  sameWire s t -> sameWire (recordDp e s) (recordDp e t).
Proof.
  intros (Hc & Hd & Hs & Hg & Hp & Hl & Ha).
  unfold sameWire. cbn. rewrite Hl. auto 10.
Qed.

Lemma sameWire_recordAp e s t :
  sameWire s t -> sameWire (recordAp e s) (recordAp e t).
Proof.
  intros (Hc & Hd & Hs & Hg & Hp & Hl & Ha).
  unfold sameWire. cbn. rewrite Ha. auto 10.
Qed.

Lemma sameWire_set_cache_select v s t :
  sameWire s t -> sameWire (set_cache_select v s) (set_cache_select v t).
Proof.
  intros (Hc & Hd & Hs & Hg & Hp & Hl & Ha).
  unfold sameWire. cbn. auto 10.
Qed.

Lemma sameWire_set_config c d l l' s t :
  sameWire s t -> sameWire (set_config c d l s) (set_config c d l' t).
Proof.
  intros (Hc & Hd & Hs & Hg & Hp & Hl & Ha).
  unfold sameWire. cbn. auto 10.
Qed.

Ltac same_wire :=
  repeat match goal with
    | H : sameWire ?a ?b |- sameWire ?a ?b => exact H
    | |- sameWire (log _ _ _ _) (log _ _ _ _) => apply sameWire_log
    | |- sameWire (wireWrite _ _ _) (wireWrite _ _ _) =>
        apply sameWire_wireWrite
    | |- sameWire (wireWriteTurnaround _) (wireWriteTurnaround _) =>
        apply sameWire_wireWriteTurnaround
    | |- sameWire (wireReadTurnaround _) (wireReadTurnaround _) =>
        apply sameWire_wireReadTurnaround
    | |- sameWire (recordDp _ _) (recordDp _ _) => apply sameWire_recordDp
    | |- sameWire (recordAp _ _) (recordAp _ _) => apply sameWire_recordAp
    | |- sameWire (set_cache_select _ _) (set_cache_select _ _) =>
        apply sameWire_set_cache_select
    | |- sameWire (set_config _ _ _ _) (set_config _ _ _ _) =>
        apply sameWire_set_config
    | |- sameWire (pinMode _ _ _) (pinMode _ _ _) => apply sameWire_pinMode
    end.

(** Both runs [R] relates stop, or both go on from related states. *)
Tactic Notation "same_step" hyp(R) "as" ident(a) ident(s) ident(t) :=
  match type of R with
  | sameRun ?m ?m' =>
      let a' := fresh "other" in
      let E := fresh "E" in
      destruct m as [[a s]|], m' as [[a' t]|];
      cbn [sameRun] in R; try contradiction; [|exact I];
      destruct R as [E R]; subst a'
  end.

Lemma ack_cases {A : Type} (R : A -> A -> Prop) (a : Z)
      (X Y F P X' Y' F' P' : A) :
  R X X' -> R Y Y' -> R F F' -> R P P' ->
  R (match a with 1 => X | 2 => Y | 4 => F | _ => P end)
    (match a with 1 => X' | 2 => Y' | 4 => F' | _ => P' end).
Proof.
  intros. destruct a as [|[[q|q|]|[q|[q|q|]|]|]|q]; assumption.
Qed.

Lemma sameRun_dpWrite_loop addr APnDP data fuel :
  forall retries s t,
    sameWire s t ->
    sameRun (dpWrite_loop fuel retries addr APnDP data s)
            (dpWrite_loop fuel retries addr APnDP data t).
Proof.
  induction fuel as [|fuel IH]; intros retries s t H; cbn [dpWrite_loop].
  - exact I.
  - destruct (sameWire_wireRead 3 _ _
                (sameWire_wireReadTurnaround _ _
                   (sameWire_wireWrite (packHeader addr APnDP false) 8 _ _ H)))
      as [E H3].
    destruct (wireRead 3 (wireReadTurnaround (wireWrite _ 8 s))) as [ack s3],
             (wireRead 3 (wireReadTurnaround (wireWrite _ 8 t))) as [ack' t3].
    cbn [fst snd] in E, H3. subst ack'.
    apply ack_cases.
    + split; [reflexivity|same_wire].
    + destruct (nonzero _).
      * apply IH. same_wire.
      * split; [reflexivity|same_wire].
    + split; [reflexivity|same_wire].
    + split; [reflexivity|same_wire].
Qed.

Lemma sameRun_dpWrite fuel addr APnDP data s t :
  sameWire s t ->
  sameRun (dpWrite fuel addr APnDP data s) (dpWrite fuel addr APnDP data t).
Proof.
  intros H. unfold dpWrite.
  assert (R : sameRun
                (dpWrite_loop fuel 10 addr APnDP data
                   (log LOG_TRACE "DP  Write [%x:%x] %08x"
                        [addr; Z.b2z APnDP; data] s))
                (dpWrite_loop fuel 10 addr APnDP data
                   (log LOG_TRACE "DP  Write [%x:%x] %08x"
                        [addr; Z.b2z APnDP; data] t)))
    by (apply sameRun_dpWrite_loop; same_wire).
  same_step R as r1 x1 y1. split; [reflexivity|same_wire].
Qed.

Lemma sameRun_dpRead_loop addr APnDP fuel :
  forall retries data s t,
    sameWire s t ->
    sameRun (dpRead_loop fuel retries addr APnDP data s)
            (dpRead_loop fuel retries addr APnDP data t).
Proof.
  induction fuel as [|fuel IH]; intros retries data s t H; cbn [dpRead_loop].
  - exact I.
  - destruct (sameWire_wireRead 3 _ _
                (sameWire_wireReadTurnaround _ _
                   (sameWire_wireWrite (packHeader addr APnDP true) 8 _ _ H)))
      as [E H3].
    destruct (wireRead 3 (wireReadTurnaround (wireWrite _ 8 s))) as [ack s3],
             (wireRead 3 (wireReadTurnaround (wireWrite _ 8 t))) as [ack' t3].
    cbn [fst snd] in E, H3. subst ack'.
    apply ack_cases.
    + destruct (sameWire_wireRead 32 _ _ H3) as [E4 H4].
      destruct (wireRead 32 s3) as [w s4], (wireRead 32 t3) as [w' t4].
      cbn [fst snd] in E4, H4. subst w'.
      destruct (sameWire_wireRead 1 _ _ H4) as [E5 H5].
      destruct (wireRead 1 s4) as [p s5], (wireRead 1 t4) as [p' t5].
      cbn [fst snd] in E5, H5. subst p'.
      destruct (negb _); (split; [reflexivity|same_wire]).
    + destruct (nonzero _).
      * apply IH. same_wire.
      * split; [reflexivity|same_wire].
    + split; [reflexivity|same_wire].
    + split; [reflexivity|same_wire].
Qed.

Lemma sameRun_dpRead fuel addr APnDP data s t :
  sameWire s t ->
  sameRun (dpRead fuel addr APnDP data s) (dpRead fuel addr APnDP data t).
Proof.
  intros H. unfold dpRead.
  pose proof (sameRun_dpRead_loop addr APnDP fuel 10 data s t H) as R.
  same_step R as r2 x2 y2. destruct r2 as [ok w]. split; [reflexivity|same_wire].
Qed.

Lemma sameRun_dpSelect fuel accessPort addr s t :
  sameWire s t ->
  sameRun (dpSelect fuel accessPort addr s) (dpSelect fuel accessPort addr t).
Proof.
  intros H. unfold dpSelect.
  assert (Ec : cache_select s = cache_select t) by apply H.
  rewrite <- Ec. destruct (negb _).
  - pose proof (sameRun_dpWrite fuel SELECT false
                  (selectValue accessPort addr) s t H) as R.
    same_step R as r3 x3 y3. destruct r3; cbn [negb]; (split; [reflexivity|same_wire]).
  - split; [reflexivity|exact H].
Qed.

Lemma sameRun_apWrite fuel accessPort addr data s t :
  sameWire s t ->
  sameRun (apWrite fuel accessPort addr data s)
          (apWrite fuel accessPort addr data t).
Proof.
  intros H. unfold apWrite.
  pose proof (sameRun_dpSelect fuel accessPort addr s t H) as R.
  same_step R as r4 x4 y4. destruct r4.
  - pose proof (sameRun_dpWrite fuel addr true data _ _ R) as R'.
    same_step R' as r5 x5 y5. split; [reflexivity|same_wire].
  - split; [reflexivity|same_wire].
Qed.

Lemma sameRun_apRead fuel accessPort addr data s t :
  sameWire s t ->
  sameRun (apRead fuel accessPort addr data s)
          (apRead fuel accessPort addr data t).
Proof.
  intros H. unfold apRead.
  pose proof (sameRun_dpSelect fuel accessPort addr s t H) as R.
  same_step R as r6 x6 y6. destruct r6.
  - pose proof (sameRun_dpRead fuel addr true data _ _ R) as R'.
    same_step R' as r7 x7 y7. destruct r7 as [ok w]. split; [reflexivity|same_wire].
  - split; [reflexivity|same_wire].
Qed.

Lemma sameRun_memStore_loop fuel data count :
  forall addr i s t,
    sameWire s t ->
    sameRun (memStore_loop fuel count addr data i s)
            (memStore_loop fuel count addr data i t).
Proof.
  induction count as [|count IH]; intros addr i s t H; cbn [memStore_loop].
  - split; [reflexivity|exact H].
  - pose proof (sameRun_apWrite fuel 0 MEM_DRW (data i) _ _
                  (sameWire_log LOG_TRACE "MEM Store [%08x] %08x" [addr; data i]
                     LOG_TRACE "MEM Store [%08x] %08x" [addr; data i] s t H))
      as R.
    same_step R as r8 x8 y8. destruct r8; cbn [negb].
    + apply IH, R.
    + split; [reflexivity|exact R].
Qed.

Lemma sameRun_memStoreN fuel addr data count s t :
  sameWire s t ->
  sameRun (memStoreN fuel addr data count s) (memStoreN fuel addr data count t).
Proof.
  intros H. unfold memStoreN.
  pose proof (sameRun_apWrite fuel 0 MEM_TAR addr s t H) as R.
  same_step R as r9 x9 y9. destruct r9; cbn [negb].
  - apply sameRun_memStore_loop, R.
  - split; [reflexivity|exact R].
Qed.

Lemma sameRun_memLoad_loop fuel count :
  forall addr data i s t,
    sameWire s t ->
    sameRun (memLoad_loop fuel count addr data i s)
            (memLoad_loop fuel count addr data i t).
Proof.
  induction count as [|count IH]; intros addr data i s t H;
    cbn [memLoad_loop].
  - split; [reflexivity|exact H].
  - pose proof (sameRun_apRead fuel 0 MEM_DRW (data i) s t H) as R.
    same_step R as r10 x10 y10. destruct r10 as [ok w]. destruct ok; cbn [negb].
    + apply IH. same_wire.
    + split; [reflexivity|exact R].
Qed.

Lemma sameRun_memLoadN fuel addr data count s t :
  sameWire s t ->
  sameRun (memLoadN fuel addr data count s) (memLoadN fuel addr data count t).
Proof.
  intros H. unfold memLoadN.
  pose proof (sameRun_apWrite fuel 0 MEM_TAR addr s t H) as R.
  same_step R as r11 x11 y11. destruct r11; cbn [negb].
  - apply sameRun_memLoad_loop, R.
  - split; [reflexivity|exact R].
Qed.

Lemma sameRun_pollPowerUp fuel retries :
  forall ctrlstat s t,
    sameWire s t ->
    sameRun (pollPowerUp fuel retries ctrlstat s)
            (pollPowerUp fuel retries ctrlstat t).
Proof.
  induction retries as [|retries IH]; intros ctrlstat s t H;
    cbn [pollPowerUp].
  - split; [reflexivity|exact H].
  - pose proof (sameRun_dpRead fuel CTRLSTAT false ctrlstat s t H) as R.
    same_step R as r12 x12 y12. destruct r12 as [ok w]. destruct ok; cbn [negb].
    + destruct (_ =? _).
      * split; [reflexivity|exact R].
      * apply IH, R.
    + split; [reflexivity|exact R].
Qed.

Lemma sameRun_begin fuel c d l l' junk s t :
  sameWire s t ->
  sameRun (begin fuel c d l junk s) (begin fuel c d l' junk t).
Proof.
  intros H. unfold begin.
  match goal with
  | |- sameRun (match dpRead _ _ _ _ ?a with _ => _ end)
               (match dpRead _ _ _ _ ?b with _ => _ end) =>
      assert (H2 : sameWire a b) by same_wire;
      generalize dependent a; generalize dependent b
  end.
  intros t2 s2 H2.
  pose proof (sameRun_dpRead fuel IDCODE false junk s2 t2 H2) as R.
  same_step R as r13 x13 y13. destruct r13 as [ok idcode]. destruct ok; cbn [negb];
    [|split; [reflexivity|same_wire]].
  destruct (negb _); [split; [reflexivity|same_wire]|].
  pose proof (sameRun_dpWrite fuel CTRLSTAT false
                (Z.lor CSYSPWRUPREQ CDBGPWRUPREQ) _ _
                (sameWire_log LOG_NORMAL
                   "Found ARM processor debug port (IDCODE: %08x)" [idcode]
                   LOG_NORMAL
                   "Found ARM processor debug port (IDCODE: %08x)" [idcode]
                   _ _ R)) as R4.
  same_step R4 as r14 x14 y14. destruct r14; cbn [negb]; [|split; [reflexivity|exact R4]].
  pose proof (sameRun_pollPowerUp fuel 4 junk _ _ R4) as R5.
  same_step R5 as r15 x15 y15. destruct r15 as [|retries ctrlstat];
    [split; [reflexivity|exact R5]|].
  destruct (negb (nonzero retries)); [split; [reflexivity|same_wire]|].
  pose proof (sameRun_apRead fuel 0 MEM_IDR junk _ _ R5) as R6.
  same_step R6 as r16 x16 y16. destruct r16 as [ok idr]. destruct ok; cbn [negb];
    [|split; [reflexivity|exact R6]].
  destruct (negb _); [split; [reflexivity|same_wire]|].
  match goal with
  | |- sameRun (match apWrite _ _ _ ?v _ with _ => _ end) _ =>
      pose proof (sameRun_apWrite fuel 0 MEM_CSW v _ _ R6) as R7
  end.
  same_step R7 as r17 x17 y17. destruct r17; cbn [negb]; (split; [reflexivity|exact R7]).
Qed.

(** X10.  The log level and the state of [Serial] have no influence on
    what the probe does: started in two states that differ at most in
    them, every operation (and [begin], called with any two log levels)
    either returns in neither, or returns the same value in both,
    having made the same pin operations, clock pulses and transactions,
    with the same SELECT cache. *)
Theorem verbosity_does_not_interfere fuel s t :
  sameWire s t ->
  (forall addr APnDP data,
      sameRun (dpWrite fuel addr APnDP data s)
              (dpWrite fuel addr APnDP data t)) /\
  (forall addr APnDP data,
      sameRun (dpRead fuel addr APnDP data s)
              (dpRead fuel addr APnDP data t)) /\
  (forall accessPort addr data,
      sameRun (apWrite fuel accessPort addr data s)
              (apWrite fuel accessPort addr data t)) /\
  (forall accessPort addr data,
      sameRun (apRead fuel accessPort addr data s)
              (apRead fuel accessPort addr data t)) /\
  (forall addr data count,
      sameRun (memStoreN fuel addr data count s)
              (memStoreN fuel addr data count t)) /\
  (forall addr data count,
      sameRun (memLoadN fuel addr data count s)
              (memLoadN fuel addr data count t)) /\
  (forall c d l l' junk,
      sameRun (begin fuel c d l junk s) (begin fuel c d l' junk t)).
Proof.
  intros H.
  split; [intros; apply sameRun_dpWrite, H|].
  split; [intros; apply sameRun_dpRead, H|].
  split; [intros; apply sameRun_apWrite, H|].
  split; [intros; apply sameRun_apRead, H|].
  split; [intros; apply sameRun_memStoreN, H|].
  split; [intros; apply sameRun_memLoadN, H|].
  intros; apply sameRun_begin, H.
Qed.

(** ** The start of the link on the wire *)

Lemma grows_refl s : grows s s.
Proof. exists []. now rewrite app_nil_r. Qed.

Lemma grows_trans s1 s2 s3 : grows s1 s2 -> grows s2 s3 -> grows s1 s3.
Proof. intros [m1 G1] [m2 G2]. exists (m1 ++ m2). now rewrite G2, G1, app_assoc. Qed.

Lemma wired_grows n s s' : wired n s s' -> grows s s'.
Proof. intros [_ H]. exact H. Qed.

Lemma grows_same x s s' : gpio s' = gpio s -> grows x s -> grows x s'.
Proof. intros E [m G]. exists m. now rewrite E. Qed.

Lemma ack_case {A : Type} (Q : A -> Prop) (a : Z) (X Y F P : A) :
  Q X -> Q Y -> Q F -> Q P ->
  Q (match a with 1 => X | 2 => Y | 4 => F | _ => P end).
Proof.
  intros. destruct a as [|[[q|q|]|[q|[q|q|]|]|]|q]; assumption.
Qed.

Lemma dpWrite_loop_grows addr APnDP data fuel :
  forall retries s ok s',
    dpWrite_loop fuel retries addr APnDP data s = Some (ok, s') ->
    grows s s'.
Proof.
  induction fuel as [|fuel IH]; intros retries s ok s'; [discriminate|].
  destruct (dpWrite_loop_eq fuel retries addr APnDP data s)
    as (s3 & W3 & ->).
  cbv zeta.
  apply (ack_case (fun m => m = Some (ok, s') -> grows s s')).
  - intros E. injection E as <- <-. eapply wired_grows. wir.
  - destruct (nonzero _); intros E.
    + eapply grows_trans; [|eapply IH, E]. eapply wired_grows. wir.
    + injection E as <- <-. eapply wired_grows. wir.
  - intros E. injection E as <- <-. eapply wired_grows. wir.
  - intros E. injection E as <- <-. eapply wired_grows. wir.
Qed.

Lemma dpWrite_grows fuel addr APnDP data s ok s' :
  dpWrite fuel addr APnDP data s = Some (ok, s') -> grows s s'.
Proof.
  unfold dpWrite. intros E.
  destruct (dpWrite_loop fuel 10 addr APnDP data _) as [[ok1 s1]|] eqn:E1;
    [|discriminate].
  injection E as <- <-.
  apply (grows_same _ s1); [apply gpio_recordDp|].
  eapply grows_trans; [|eapply dpWrite_loop_grows, E1].
  eapply wired_grows, wired_log.
Qed.

Lemma dpRead_loop_grows addr APnDP fuel :
  forall retries data s r s',
    dpRead_loop fuel retries addr APnDP data s = Some (r, s') ->
    grows s s'.
Proof.
  induction fuel as [|fuel IH]; intros retries data s r s'; [discriminate|].
  destruct (dpRead_loop_eq fuel retries addr APnDP data s)
    as (s3 & s5 & W3 & W5 & ->).
  cbv zeta.
  generalize (lineBits (dataPin s) (pulses s + 12) 32),
    (lineBits (dataPin s) (pulses s + 44) 1).
  intros w parity.
  apply (ack_case (fun m => m = Some (r, s') -> grows s s')).
  - destruct (negb (parity =? Z.b2z (evenParity w))); intros E;
      injection E as <- <-; eapply wired_grows; wir.
  - destruct (nonzero _); intros E.
    + eapply grows_trans; [|eapply IH, E]. eapply wired_grows. wir.
    + injection E as <- <-. eapply wired_grows. wir.
  - intros E. injection E as <- <-. eapply wired_grows. wir.
  - intros E. injection E as <- <-. eapply wired_grows. wir.
Qed.

Lemma dpRead_grows fuel addr APnDP data s r s' :
  dpRead fuel addr APnDP data s = Some (r, s') -> grows s s'.
Proof.
  unfold dpRead. intros E.
  destruct (dpRead_loop fuel 10 addr APnDP data s) as [[[ok1 d1] s1]|] eqn:E1;
    [|discriminate].
  injection E as <- <-.
  apply (grows_same _ s1); [apply gpio_recordDp|].
  eapply dpRead_loop_grows, E1.
Qed.

Lemma dpSelect_grows fuel accessPort addr s ok s' :
  dpSelect fuel accessPort addr s = Some (ok, s') -> grows s s'.
Proof.
  unfold dpSelect. destruct (negb _).
  - destruct (dpWrite fuel SELECT false _ s) as [[ok1 s1]|] eqn:E1;
      [|discriminate].
    apply dpWrite_grows in E1.
    destruct ok1; cbn [negb]; intros E; injection E as <- <-; exact E1.
  - intros E. injection E as <- <-. apply grows_refl.
Qed.

Lemma apWrite_grows fuel accessPort addr data s ok s' :
  apWrite fuel accessPort addr data s = Some (ok, s') -> grows s s'.
Proof.
  unfold apWrite.
  destruct (dpSelect fuel accessPort addr s) as [[sel s1]|] eqn:E1;
    [|discriminate].
  apply dpSelect_grows in E1. destruct sel.
  - destruct (dpWrite fuel addr true data s1) as [[ok2 s2]|] eqn:E2;
      [|discriminate].
    apply dpWrite_grows in E2. intros E. injection E as <- <-.
    eapply grows_trans; eassumption.
  - intros E. injection E as <- <-. exact E1.
Qed.

Lemma apRead_grows fuel accessPort addr data s r s' :
  apRead fuel accessPort addr data s = Some (r, s') -> grows s s'.
Proof.
  unfold apRead.
  destruct (dpSelect fuel accessPort addr s) as [[sel s1]|] eqn:E1;
    [|discriminate].
  apply dpSelect_grows in E1. destruct sel.
  - destruct (dpRead fuel addr true data s1) as [[[ok2 d2] s2]|] eqn:E2;
      [|discriminate].
    apply dpRead_grows in E2. intros E. injection E as <- <-.
    eapply grows_trans; eassumption.
  - intros E. injection E as <- <-. exact E1.
Qed.

Lemma pollPowerUp_grows fuel retries :
  forall ctrlstat s r s',
    pollPowerUp fuel retries ctrlstat s = Some (r, s') -> grows s s'.
Proof.
  induction retries as [|retries IH]; intros ctrlstat s r s';
    cbn [pollPowerUp].
  - intros E. injection E as <- <-. apply grows_refl.
  - destruct (dpRead fuel CTRLSTAT false ctrlstat s) as [[[ok1 c1] s1]|] eqn:E1;
      [|discriminate].
    apply dpRead_grows in E1. destruct ok1; cbn [negb].
    + destruct (_ =? _); intros E.
      * injection E as <- <-. exact E1.
      * eapply grows_trans; [exact E1|eapply IH, E].
    + intros E. injection E as <- <-. exact E1.
Qed.

(** Follows the tests of a run that returned, [E] being its equation. *)
Ltac follow E :=
  repeat match type of E with
    | match ?m with _ => _ end = _ =>
        first [is_var m; destruct m | destruct m eqn:?]; try discriminate E
    | Some _ = Some _ => injection E as <- <-
    end.

Ltac grow :=
  repeat match goal with
    | |- grows ?a ?a => apply grows_refl
    | |- grows _ (log _ _ _ _) =>
        eapply grows_trans; [|eapply wired_grows, wired_log]
    | E : dpRead _ _ _ _ _ = Some (_, ?b) |- grows _ ?b =>
        eapply grows_trans; [|eapply dpRead_grows, E]
    | E : dpWrite _ _ _ _ _ = Some (_, ?b) |- grows _ ?b =>
        eapply grows_trans; [|eapply dpWrite_grows, E]
    | E : apRead _ _ _ _ _ = Some (_, ?b) |- grows _ ?b =>
        eapply grows_trans; [|eapply apRead_grows, E]
    | E : apWrite _ _ _ _ _ = Some (_, ?b) |- grows _ ?b =>
        eapply grows_trans; [|eapply apWrite_grows, E]
    | E : pollPowerUp _ _ _ _ = Some (_, ?b) |- grows _ ?b =>
        eapply grows_trans; [|eapply pollPowerUp_grows, E]
    end.

Lemma wireWrite_pins data n x d c :
  dataPin x = d -> clockPin x = c ->
  gpio (wireWrite data n x) = gpio x ++ writeOps d c data n /\
  dataPin (wireWrite data n x) = d /\
  clockPin (wireWrite data n x) = c.
Proof.
  intros <- <-. split; [apply wireWrite_gpio|].
  destruct (wireWrite_advance data n x) as (-> & -> & _). auto.
Qed.

Lemma preamble_gpio c d l s0 :
  gpio (afterPreamble c d l s0) = gpio s0 ++ preambleOps d c.
Proof.
  unfold afterPreamble.
  set (x := recordDp DpInit _).
  assert (P0 : gpio x = gpio s0 ++ [PinModeOp c OUTPUT; PinModeOp d INPUT_PULLUP]
               /\ dataPin x = d /\ clockPin x = c).
  { split; [|split; reflexivity]. subst x. cbn. now rewrite <- app_assoc. }
  destruct P0 as (G0 & D0 & C0). clearbody x.
  pose proof (wireWriteTurnaround_gpio x) as G1.
  destruct (wireWriteTurnaround_advance x) as (C1 & D1 & _).
  rewrite D0, C0 in G1. rewrite C0 in C1. rewrite D0 in D1.
  set (x1 := wireWriteTurnaround x) in *. clearbody x1.
  destruct (wireWrite_pins 0xFFFFFFFF 32 x1 d c D1 C1) as (G2 & D2 & C2).
  set (x2 := wireWrite 0xFFFFFFFF 32 x1) in *. clearbody x2.
  destruct (wireWrite_pins 0xFFFFFFFF 32 x2 d c D2 C2) as (G3 & D3 & C3).
  set (x3 := wireWrite 0xFFFFFFFF 32 x2) in *. clearbody x3.
  destruct (wireWrite_pins 0xE79E 16 x3 d c D3 C3) as (G4 & D4 & C4).
  set (x4 := wireWrite 0xE79E 16 x3) in *. clearbody x4.
  destruct (wireWrite_pins 0xFFFFFFFF 32 x4 d c D4 C4) as (G5 & D5 & C5).
  set (x5 := wireWrite 0xFFFFFFFF 32 x4) in *. clearbody x5.
  destruct (wireWrite_pins 0xFFFFFFFF 32 x5 d c D5 C5) as (G6 & D6 & C6).
  set (x6 := wireWrite 0xFFFFFFFF 32 x5) in *. clearbody x6.
  destruct (wireWrite_pins 0 32 x6 d c D6 C6) as (G7 & D7 & C7).
  set (x7 := wireWrite 0 32 x6) in *. clearbody x7.
  destruct (wireWrite_pins 0 32 x7 d c D7 C7) as (G8 & _ & _).
  rewrite G8, G7, G6, G5, G4, G3, G2, G1, G0.
  unfold preambleOps. rewrite <- !app_assoc. reflexivity.
Qed.

(** ** What the parity bit detects *)

Lemma evenParity_xorBits w :
  0 <= w < 2 ^ 32 -> evenParity w = xorBits 32 w.
Proof.
  intros Hw. rewrite evenParity_foldHalf.
  pose proof (foldHalf_range 16 w Hw) as H16.
  pose proof (foldHalf_range 8 _ H16) as H8.
  pose proof (foldHalf_range 4 _ H8) as H4.
  pose proof (foldHalf_range 2 _ H4) as H2.
  pose proof (foldHalf_range 1 _ H2) as H1.
  rewrite <- (xorBits_foldHalf 16 w : xorBits 16 _ = xorBits 32 w).
  rewrite <- (xorBits_foldHalf 8 _ : xorBits 8 _ = xorBits 16 _).
  rewrite <- (xorBits_foldHalf 4 _ : xorBits 4 _ = xorBits 8 _).
  rewrite <- (xorBits_foldHalf 2 _ : xorBits 2 _ = xorBits 4 _).
  rewrite <- (xorBits_foldHalf 1 _ : xorBits 1 _ = xorBits 2 _).
  set (x := foldHalf 1 _) in *.
  change (2 ^ Z.of_nat 1) with 2 in H1.
  assert (Hx : x = 0 \/ x = 1) by lia.
  destruct Hx as [-> | ->]; reflexivity.
Qed.

Lemma xorBits_pow2 n i :
  0 <= i -> xorBits n (2 ^ i) = (i <? Z.of_nat n).
Proof.
  intros Hi. induction n as [|k IH]; cbn [xorBits].
  - symmetry. apply Z.ltb_ge. lia.
  - rewrite IH, Z.pow2_bits_eqb by lia.
    destruct (Z.eqb_spec i (Z.of_nat k)) as [->|Hne].
    + rewrite Z.ltb_irrefl. cbn. symmetry. apply Z.ltb_lt. lia.
    + cbn. destruct (Z.ltb_spec i (Z.of_nat k)); symmetry;
        [apply Z.ltb_lt|apply Z.ltb_ge]; lia.
Qed.

(** X12.  On 32-bit words the parity of an exclusive or is the
    exclusive or of the parities; so a word that differs from another
    in exactly one of its 32 bits has the opposite parity, which is
    what lets the parity bit of a transfer reveal any single flipped
    bit. *)
Theorem evenParity_detects_single_flips (a b : Z) :
  0 <= a < 2 ^ 32 -> 0 <= b < 2 ^ 32 ->
  evenParity (Z.lxor a b) = xorb (evenParity a) (evenParity b) /\
  (forall i, 0 <= i < 32 ->
             evenParity (Z.lxor a (2 ^ i)) = negb (evenParity a)).
Proof.
  intros Ha Hb.
  assert (L : forall x y, 0 <= x < 2 ^ 32 -> 0 <= y < 2 ^ 32 ->
                          evenParity (Z.lxor x y)
                          = xorb (evenParity x) (evenParity y)).
  { intros x y Hx Hy.
    rewrite (evenParity_xorBits x Hx), (evenParity_xorBits y Hy).
    rewrite evenParity_xorBits by (apply (lxor_range x y 32); lia).
    apply xorBits_lxor. }
  split; [apply L; assumption|].
  intros i Hi.
  assert (Hp : 0 <= 2 ^ i < 2 ^ 32).
  { split; [apply Z.pow_nonneg; lia|apply Z.pow_lt_mono_r; lia]. }
  rewrite (L a (2 ^ i) Ha Hp), (evenParity_xorBits (2 ^ i) Hp).
  rewrite xorBits_pow2 by lia.
  replace (i <? Z.of_nat 32) with true by (symmetry; apply Z.ltb_lt; lia).
  apply xorb_true_r.
Qed.

(** ** What the wire primitives print *)

Lemma hushed_refl s : hushed s s.
Proof. repeat split. Qed.

Lemma hushed_trans s1 s2 s3 : hushed s1 s2 -> hushed s2 s3 -> hushed s1 s3.
Proof.
  intros (A1 & B1 & C1) (A2 & B2 & C2). repeat split; congruence.
Qed.

Lemma hushed_log s x fmt args :
  logLevel s < LOG_TRACE -> hushed s x ->
  hushed s (log LOG_TRACE fmt args x).
Proof.
  intros Hq (A & B & C). unfold log.
  destruct (Z.leb_spec LOG_TRACE (logLevel x)) as [L|L]; [lia|].
  cbn [andb]. repeat split; assumption.
Qed.

Lemma hushed_gpioOp s x o : hushed s x -> hushed s (gpioOp o x).
Proof. intros (A & B & C). repeat split; assumption. Qed.

Lemma hushed_clockPulse s x : hushed s x -> hushed s (clockPulse x).
Proof. intros (A & B & C). repeat split; assumption. Qed.

Lemma hushed_wireWrite_loop s n :
  forall data x, hushed s x -> hushed s (wireWrite_loop n data x).
Proof.
  induction n as [|n IH]; intros data x H; cbn [wireWrite_loop].
  - exact H.
  - apply IH, hushed_clockPulse, hushed_gpioOp, H.
Qed.

Lemma hushed_wireWrite s x data n :
  logLevel s < LOG_TRACE -> hushed s x -> hushed s (wireWrite data n x).
Proof.
  intros Hq H. unfold wireWrite.
  apply hushed_wireWrite_loop, hushed_log; assumption.
Qed.

Lemma hushed_wireRead_loop s n :
  forall result mask x,
    hushed s x -> hushed s (snd (wireRead_loop n result mask x)).
Proof.
  induction n as [|n IH]; intros result mask x H; cbn [wireRead_loop].
  - exact H.
  - apply IH, hushed_clockPulse, H.
Qed.

Lemma hushed_wireRead s x n :
  logLevel s < LOG_TRACE -> hushed s x -> hushed s (snd (wireRead n x)).
Proof.
  intros Hq H. unfold wireRead.
  pose proof (hushed_wireRead_loop s n 0 1 x H) as H1.
  destruct (wireRead_loop n 0 1 x) as [r x1]. cbn [snd] in *.
  apply hushed_log; assumption.
Qed.

Lemma hushed_wireWriteTurnaround s x :
  logLevel s < LOG_TRACE -> hushed s x -> hushed s (wireWriteTurnaround x).
Proof.
  intros Hq H. unfold wireWriteTurnaround.
  apply hushed_gpioOp, hushed_clockPulse, hushed_gpioOp, hushed_gpioOp,
    hushed_log; assumption.
Qed.

Lemma hushed_wireReadTurnaround s x :
  logLevel s < LOG_TRACE -> hushed s x -> hushed s (wireReadTurnaround x).
Proof.
  intros Hq H. unfold wireReadTurnaround.
  apply hushed_clockPulse, hushed_gpioOp, hushed_gpioOp, hushed_log;
    assumption.
Qed.

Lemma hushed_recordDp s x t : hushed s x -> hushed s (recordDp t x).
Proof. intros (A & B & C). repeat split; assumption. Qed.

Ltac hush :=
  repeat match goal with
    | H : hushed ?a ?b |- hushed ?a ?b => exact H
    | |- hushed ?a ?a => apply hushed_refl
    | |- hushed _ (recordDp _ _) => apply hushed_recordDp
    | |- hushed _ (wireWrite _ _ _) => apply hushed_wireWrite; [assumption|]
    | |- hushed _ (wireWriteTurnaround _) =>
        apply hushed_wireWriteTurnaround; [assumption|]
    | |- hushed _ (wireReadTurnaround _) =>
        apply hushed_wireReadTurnaround; [assumption|]
    | |- hushed _ (snd (wireRead _ _)) =>
        apply hushed_wireRead; [assumption|]
    | |- hushed _ (log LOG_TRACE _ _ _) => apply hushed_log; [assumption|]
    end.

Lemma attempt_hushed hdr s :
  logLevel s < LOG_TRACE ->
  hushed s (snd (wireRead 3 (wireReadTurnaround (wireWrite hdr 8 s)))).
Proof. intros Hq. hush. Qed.

Lemma log_said level fmt args x :
  serial (log level fmt args x)
  = serial x ++ (if (level <=? logLevel x) && serialReady x
                 then [(fmt, args)] else []).
Proof.
  unfold log. destruct (_ && _); [reflexivity|now rewrite app_nil_r].
Qed.

(** ** The trace of a transaction *)

Lemma attempt_gpio hdr s :
  gpio (snd (wireRead 3 (wireReadTurnaround (wireWrite hdr 8 s))))
  = gpio s ++ attemptOps (dataPin s) (clockPin s) hdr.
Proof.
  rewrite wireRead_gpio, wireReadTurnaround_gpio, wireWrite_gpio.
  destruct (wireReadTurnaround_advance (wireWrite hdr 8 s)) as (Hc & _).
  destruct (wireWrite_advance hdr 8 s) as (Hc' & Hd' & _).
  rewrite Hc, Hc', Hd'. unfold attemptOps. now rewrite <- !app_assoc.
Qed.

Lemma clockOps_app c n m :
  clockOps c (n + m) = clockOps c n ++ clockOps c m.
Proof. unfold clockOps. now rewrite repeat_app, concat_app. Qed.

Lemma dpWrite_loop_step fuel retries addr APnDP data s :
  exists s3,
    wired 12 s s3 /\
    (logLevel s < LOG_TRACE -> hushed s s3) /\
    gpio s3 = gpio s ++ attemptOps (dataPin s) (clockPin s)
                          (packHeader addr APnDP false) /\
    dpWrite_loop (S fuel) retries addr APnDP data s
    = let s4 := wireWriteTurnaround s3 in
      match ackAt s 0 with
      | 1 =>
          Some (true,
                wireWrite 0 8
                  (wireWrite (Z.b2z (evenParity data)) 1 (wireWrite data 32 s4)))
      | 2 =>
          if nonzero (u32 (retries - 1))
          then dpWrite_loop fuel (u32 (u32 (retries - 1) - 1))
                            addr APnDP data (wireWrite 0 8 s4)
          else Some (false,
                     log LOG_ERROR
                         "WAIT timeout during write (addr=%x APnDP=%d data=%08x)"
                         [addr; Z.b2z APnDP; data] (wireWrite 0 8 s4))
      | 4 =>
          Some (false,
                log LOG_ERROR
                    "FAULT response during write (addr=%x APnDP=%d data=%08x)"
                    [addr; Z.b2z APnDP; data] (wireWrite 0 8 s4))
      | _ =>
          Some (false,
                log LOG_ERROR
                    "PROTOCOL ERROR response during write (ack=%x addr=%x APnDP=%d data=%08x)"
                    [ackAt s 0; addr; Z.b2z APnDP; data] (wireWrite 0 8 s4))
      end.
Proof.
  cbn [dpWrite_loop].
  destruct (attempt_ack (packHeader addr APnDP false) s) as [Hv _].
  pose proof (attempt_wired (packHeader addr APnDP false) s) as Hw.
  pose proof (attempt_gpio (packHeader addr APnDP false) s) as Hg.
  pose proof (attempt_hushed (packHeader addr APnDP false) s) as Hq.
  destruct (wireRead 3 _) as [ack s3]. cbn [fst snd] in Hv, Hw, Hg, Hq.
  exists s3. split; [exact Hw|]. split; [exact Hq|]. split; [exact Hg|].
  rewrite Hv. reflexivity.
Qed.

Lemma dpRead_loop_step fuel retries addr APnDP data s :
  exists s3 s5,
    wired 12 s s3 /\ wired 33 s3 s5 /\
    (logLevel s < LOG_TRACE -> hushed s s3 /\ hushed s s5) /\
    gpio s3 = gpio s ++ attemptOps (dataPin s) (clockPin s)
                          (packHeader addr APnDP true) /\
    gpio s5 = gpio s3 ++ clockOps (clockPin s) 33 /\
    dpRead_loop (S fuel) retries addr APnDP data s
    = let w := lineBits (dataPin s) (pulses s + 12) 32 in
      let parity := lineBits (dataPin s) (pulses s + 44) 1 in
      match ackAt s 0 with
      | 1 =>
          if negb (parity =? Z.b2z (evenParity w))
          then Some ((false, w),
                     log LOG_ERROR
                         "PARITY ERROR during read (addr=%x APnDP=%d data=%08x)"
                         [addr; Z.b2z APnDP; w]
                         (wireWrite 0 8 (wireWriteTurnaround s5)))
          else Some ((true, w),
                     log LOG_TRACE "DP  Read  [%x:%x] %08x"
                         [addr; Z.b2z APnDP; w]
                         (wireWrite 0 8 (wireWriteTurnaround s5)))
      | 2 =>
          if nonzero (u32 (retries - 1))
          then dpRead_loop fuel (u32 (u32 (retries - 1) - 1)) addr APnDP data
                           (wireWrite 0 8 (wireWriteTurnaround s3))
          else Some ((false, data),
                     log LOG_ERROR "WAIT timeout during read (addr=%x APnDP=%d)"
                         [addr; Z.b2z APnDP]
                         (wireWrite 0 8 (wireWriteTurnaround s3)))
      | 4 =>
          Some ((false, data),
                log LOG_ERROR "FAULT response during read (addr=%x APnDP=%d)"
                    [addr; Z.b2z APnDP]
                    (wireWrite 0 8 (wireWriteTurnaround s3)))
      | _ =>
          Some ((false, data),
                log LOG_ERROR
                    "PROTOCOL ERROR response during read (ack=%x addr=%x APnDP=%d)"
                    [ackAt s 0; addr; Z.b2z APnDP]
                    (wireWrite 0 8 (wireWriteTurnaround s3)))
      end.
Proof.
  cbn [dpRead_loop].
  destruct (attempt_ack (packHeader addr APnDP true) s) as [Hv _].
  pose proof (attempt_wired (packHeader addr APnDP true) s) as Hw.
  pose proof (attempt_gpio (packHeader addr APnDP true) s) as Hg.
  pose proof (attempt_hushed (packHeader addr APnDP true) s) as HQ.
  destruct (wireRead 3 _) as [ack s3]. cbn [fst snd] in Hv, Hw, Hg, HQ.
  destruct (wireRead_spec 32 s3 ltac:(lia)) as [Hw32 _].
  pose proof (wired_wireRead 32 s3 ltac:(lia)) as W4.
  pose proof (wireRead_gpio 32 s3) as G4.
  pose proof (fun Q => hushed_wireRead s s3 32 Q (HQ Q)) as Hq4.
  destruct (wireRead 32 s3) as [w' s4]. cbn [fst snd] in Hw32, W4, G4, Hq4.
  destruct (wireRead_spec 1 s4 ltac:(lia)) as [Hp _].
  pose proof (wired_wireRead 1 s4 ltac:(lia)) as W5.
  pose proof (wireRead_gpio 1 s4) as G5.
  pose proof (fun Q => hushed_wireRead s s4 1 Q (Hq4 Q)) as Hq5.
  destruct (wireRead 1 s4) as [p' s5]. cbn [fst snd] in Hp, W5, G5, Hq5.
  exists s3, s5. split; [exact Hw|]. split; [wired_by|].
  split; [intros Q; split; [exact (HQ Q)|exact (Hq5 Q)]|].
  split; [exact Hg|]. split.
  { rewrite G5, G4. destruct (wired_pins _ _ _ W4) as [_ ->].
    destruct (wired_pins _ _ _ Hw) as [_ ->].
    rewrite <- app_assoc, <- (clockOps_app _ 32 1). reflexivity. }
  assert (Ew : w' = lineBits (dataPin s) (pulses s + 12) 32).
  { rewrite Hw32. destruct Hw as [(_ & Hd & _ & _ & _ & _ & _ & Hq) _].
    now rewrite Hd, Hq. }
  assert (Ep : p' = lineBits (dataPin s) (pulses s + 44) 1).
  { rewrite Hp.
    assert (H4 : wired 44 s s4) by wired_by.
    destruct H4 as [(_ & Hd & _ & _ & _ & _ & _ & Hq) _]. now rewrite Hd, Hq. }
  rewrite Hv, Ew, Ep. reflexivity.
Qed.

Lemma wait_gpio hdr s s3 :
  wired 12 s s3 ->
  gpio s3 = gpio s ++ attemptOps (dataPin s) (clockPin s) hdr ->
  gpio (wireWrite 0 8 (wireWriteTurnaround s3))
  = gpio s ++ waitOps (dataPin s) (clockPin s) hdr.
Proof.
  intros W3 G3. rewrite drain_gpio, G3.
  destruct (wired_pins _ _ _ W3) as [-> ->].
  unfold waitOps. now rewrite <- !app_assoc.
Qed.

Lemma dpWrite_loop_waits_traced addr APnDP data n :
  forall fuel retries s,
    Z.even retries = true ->
    (forall k, (k < n)%nat -> ackAt s k = 2) ->
    exists retries' s',
      Z.even retries' = true /\ wired (21 * n) s s' /\
      (logLevel s < LOG_TRACE -> hushed s s') /\
      gpio s' = gpio s
                ++ List.concat
                     (repeat (waitOps (dataPin s) (clockPin s)
                                      (packHeader addr APnDP false)) n) /\
      dpWrite_loop (n + fuel) retries addr APnDP data s
      = dpWrite_loop fuel retries' addr APnDP data s'.
Proof.
  induction n as [|n IH]; intros fuel retries s He Hw.
  - exists retries, s. split; [exact He|]. split; [apply wired_refl|].
    split; [intros _; apply hushed_refl|].
    split; [cbn; now rewrite app_nil_r|reflexivity].
  - destruct (dpWrite_loop_step (n + fuel) retries addr APnDP data s)
      as (s3 & W3 & Q3 & G3 & E1).
    cbv zeta in E1. rewrite (Hw O ltac:(lia)) in E1.
    destruct (retries_after_wait retries He) as [Hnz He'].
    rewrite Hnz in E1.
    assert (W1 : wired 21 s (wireWrite 0 8 (wireWriteTurnaround s3)))
      by wired_by.
    pose proof (wait_gpio _ s s3 W3 G3) as G1.
    destruct (wired_pins _ _ _ W1) as [Hd1 Hc1].
    destruct (IH fuel _ (wireWrite 0 8 (wireWriteTurnaround s3)) He')
      as (r' & s' & Hr' & Ha & Hq' & Hg & E).
    + intros k Hk. rewrite (ackAt_advance 1 k s _ (proj1 W1)). apply Hw. lia.
    + exists r', s'. split; [exact Hr'|]. split; [|split; [|split]].
      * eapply wired_eq; [eapply wired_trans; [exact W1|exact Ha]|]. lia.
      * intros Q. pose proof (Q3 Q) as H3.
        assert (H1 : hushed s (wireWrite 0 8 (wireWriteTurnaround s3)))
          by hush.
        eapply hushed_trans; [exact H1|]. apply Hq'.
        destruct H1 as (-> & _). exact Q.
      * rewrite Hg, G1, Hd1, Hc1. cbn [repeat List.concat].
        now rewrite <- !app_assoc.
      * change (S n + fuel)%nat with (S (n + fuel)). now rewrite E1.
Qed.

Lemma dpRead_loop_waits_traced addr APnDP data n :
  forall fuel retries s,
    Z.even retries = true ->
    (forall k, (k < n)%nat -> ackAt s k = 2) ->
    exists retries' s',
      Z.even retries' = true /\ wired (21 * n) s s' /\
      (logLevel s < LOG_TRACE -> hushed s s') /\
      gpio s' = gpio s
                ++ List.concat
                     (repeat (waitOps (dataPin s) (clockPin s)
                                      (packHeader addr APnDP true)) n) /\
      dpRead_loop (n + fuel) retries addr APnDP data s
      = dpRead_loop fuel retries' addr APnDP data s'.
Proof.
  induction n as [|n IH]; intros fuel retries s He Hw.
  - exists retries, s. split; [exact He|]. split; [apply wired_refl|].
    split; [intros _; apply hushed_refl|].
    split; [cbn; now rewrite app_nil_r|reflexivity].
  - destruct (dpRead_loop_step (n + fuel) retries addr APnDP data s)
      as (s3 & s5 & W3 & _ & Q35 & G3 & _ & E1).
    assert (Q3 : logLevel s < LOG_TRACE -> hushed s s3)
      by (intros Q; apply (Q35 Q)).
    cbv zeta in E1. rewrite (Hw O ltac:(lia)) in E1.
    destruct (retries_after_wait retries He) as [Hnz He'].
    rewrite Hnz in E1.
    assert (W1 : wired 21 s (wireWrite 0 8 (wireWriteTurnaround s3)))
      by wired_by.
    pose proof (wait_gpio _ s s3 W3 G3) as G1.
    destruct (wired_pins _ _ _ W1) as [Hd1 Hc1].
    destruct (IH fuel _ (wireWrite 0 8 (wireWriteTurnaround s3)) He')
      as (r' & s' & Hr' & Ha & Hq' & Hg & E).
    + intros k Hk. rewrite (ackAt_advance 1 k s _ (proj1 W1)). apply Hw. lia.
    + exists r', s'. split; [exact Hr'|]. split; [|split; [|split]].
      * eapply wired_eq; [eapply wired_trans; [exact W1|exact Ha]|]. lia.
      * intros Q. pose proof (Q3 Q) as H3.
        assert (H1 : hushed s (wireWrite 0 8 (wireWriteTurnaround s3)))
          by hush.
        eapply hushed_trans; [exact H1|]. apply Hq'.
        destruct H1 as (-> & _). exact Q.
      * rewrite Hg, G1, Hd1, Hc1. cbn [repeat List.concat].
        now rewrite <- !app_assoc.
      * change (S n + fuel)%nat with (S (n + fuel)). now rewrite E1.
Qed.

Lemma dpWrite_trace fuel addr APnDP data s k :
  (k < fuel)%nat ->
  answeredAt s k ->
  let d := dataPin s in
  let c := clockPin s in
  let hdr := packHeader addr APnDP false in
  exists ok s',
    dpWrite fuel addr APnDP data s = Some (ok, s') /\
    gpio s' = gpio s
              ++ List.concat (repeat (waitOps d c hdr) k)
              ++ attemptOps d c hdr
              ++ turnaroundOps d c
              ++ (if ackAt s k =? 1
                  then writeOps d c data 32 ++ bitOps d c (evenParity data)
                  else [])
              ++ idleOps d c.
Proof.
  intros Hk [Hwait Hack] d c hdr. unfold dpWrite.
  set (s0 := log LOG_TRACE "DP  Write [%x:%x] %08x"
                 [addr; Z.b2z APnDP; data] s).
  assert (W0 : wired 0 s s0) by apply wired_log.
  assert (G0 : gpio s0 = gpio s) by apply log_gpio.
  destruct (wired_pins _ _ _ W0) as [Hd0 Hc0].
  replace fuel with (k + S (fuel - S k))%nat by lia.
  destruct (dpWrite_loop_waits_traced addr APnDP data k (S (fuel - S k)) 10 s0
              eq_refl) as (r' & s1 & _ & W1 & _ & G1 & E1).
  { intros j Hj. rewrite (ackAt_same j s s0 (proj1 W0)). auto. }
  rewrite G0, Hd0, Hc0 in G1. fold d c hdr in G1.
  assert (Ws1 : wired (21 * k) s s1) by wired_by.
  assert (A1 : ackAt s1 0 = ackAt s k).
  { now rewrite (ackAt_advance k 0 s s1 (proj1 Ws1)), Nat.add_0_r. }
  destruct (wired_pins _ _ _ Ws1) as [Hd1 Hc1].
  destruct (dpWrite_loop_step (fuel - S k) r' addr APnDP data s1)
    as (s3 & W3 & _ & G3 & E3).
  cbv zeta in E3. rewrite A1 in E3. rewrite E1, E3. clear E1 E3.
  rewrite G1, Hd1, Hc1 in G3. fold d c hdr in G3.
  destruct (wired_pins _ _ _ W3) as [Hd3 Hc3].
  rewrite Hd1 in Hd3. rewrite Hc1 in Hc3. fold d in Hd3. fold c in Hc3.
  destruct (Z.eqb_spec (ackAt s k) 1) as [Eok|Nok].
  - rewrite Eok. cbv beta iota.
    eexists _, _. split; [reflexivity|].
    rewrite gpio_recordDp, write_tail_gpio, G3, Hd3, Hc3.
    now rewrite <- !app_assoc.
  - rewrite (ack_switch (ackAt s k)) by assumption.
    destruct (ackAt s k =? 4);
      (eexists _, _; split; [reflexivity|];
       rewrite gpio_recordDp, log_gpio, drain_gpio, G3, Hd3, Hc3;
       cbn [app]; now rewrite <- !app_assoc).
Qed.

Lemma dpRead_trace fuel addr APnDP data s k :
  (k < fuel)%nat ->
  answeredAt s k ->
  let d := dataPin s in
  let c := clockPin s in
  let hdr := packHeader addr APnDP true in
  exists r s',
    dpRead fuel addr APnDP data s = Some (r, s') /\
    gpio s' = gpio s
              ++ List.concat (repeat (waitOps d c hdr) k)
              ++ attemptOps d c hdr
              ++ (if ackAt s k =? 1 then clockOps c 33 else [])
              ++ turnaroundOps d c
              ++ idleOps d c.
Proof.
  intros Hk [Hwait Hack] d c hdr. unfold dpRead.
  replace fuel with (k + S (fuel - S k))%nat by lia.
  destruct (dpRead_loop_waits_traced addr APnDP data k (S (fuel - S k)) 10 s
              eq_refl Hwait) as (r' & s1 & _ & Ws1 & _ & G1 & E1).
  fold d c hdr in G1.
  assert (A1 : ackAt s1 0 = ackAt s k).
  { now rewrite (ackAt_advance k 0 s s1 (proj1 Ws1)), Nat.add_0_r. }
  destruct (wired_pins _ _ _ Ws1) as [Hd1 Hc1].
  destruct (dpRead_loop_step (fuel - S k) r' addr APnDP data s1)
    as (s3 & s5 & W3 & W5 & _ & G3 & G5 & E3).
  cbv zeta in E3. rewrite A1 in E3. rewrite E1, E3. clear E1 E3.
  rewrite G1, Hd1, Hc1 in G3. fold d c hdr in G3.
  rewrite G3, Hc1 in G5. fold c in G5.
  destruct (wired_pins _ _ _ W3) as [Hd3 Hc3].
  rewrite Hd1 in Hd3. rewrite Hc1 in Hc3. fold d in Hd3. fold c in Hc3.
  destruct (wired_pins _ _ _ W5) as [Hd5 Hc5].
  rewrite Hd3 in Hd5. rewrite Hc3 in Hc5.
  generalize (lineBits (dataPin s1) (pulses s1 + 12) 32),
    (lineBits (dataPin s1) (pulses s1 + 44) 1).
  intros w parity.
  destruct (Z.eqb_spec (ackAt s k) 1) as [Eok|Nok].
  - rewrite Eok. cbv beta iota.
    destruct (negb (parity =? Z.b2z (evenParity w)));
      (eexists _, _; split; [reflexivity|];
       rewrite gpio_recordDp, log_gpio, drain_gpio, G5, Hd5, Hc5;
       now rewrite <- !app_assoc).
  - rewrite (ack_switch (ackAt s k)) by assumption.
    destruct (ackAt s k =? 4);
      (eexists _, _; split; [reflexivity|];
       rewrite gpio_recordDp, log_gpio, drain_gpio, G3, Hd3, Hc3;
       cbn [app]; now rewrite <- !app_assoc).
Qed.

(** X13.  What a debug-port transaction puts on the pins, when the
    first acknowledge that is not WAIT comes in attempt [k].  Each of
    the [k] attempts before it is: the 8 bits of the header
    [packHeader addr APnDP RnW], least significant first, a read
    turnaround, three clock pulses for the acknowledge, a write
    turnaround and 8 idle bits.  The last attempt starts the same way;
    a write then makes the turnaround and, only if the acknowledge was
    OK, sends the 32 data bits and the parity bit; a read, only if the
    acknowledge was OK, clocks in 33 bits, and then makes the
    turnaround; both end with the 8 idle bits.  Nothing else is done on
    the pins. *)
Theorem transaction_trace fuel addr APnDP data s k :
  (k < fuel)%nat ->
  answeredAt s k ->
  let d := dataPin s in
  let c := clockPin s in
  (exists ok s',
      dpWrite fuel addr APnDP data s = Some (ok, s') /\
      gpio s' = gpio s
                ++ List.concat
                     (repeat (waitOps d c (packHeader addr APnDP false)) k)
                ++ attemptOps d c (packHeader addr APnDP false)
                ++ turnaroundOps d c
                ++ (if ackAt s k =? 1
                    then writeOps d c data 32 ++ bitOps d c (evenParity data)
                    else [])
                ++ idleOps d c) /\
  (exists r s',
      dpRead fuel addr APnDP data s = Some (r, s') /\
      gpio s' = gpio s
                ++ List.concat
                     (repeat (waitOps d c (packHeader addr APnDP true)) k)
                ++ attemptOps d c (packHeader addr APnDP true)
                ++ (if ackAt s k =? 1 then clockOps c 33 else [])
                ++ turnaroundOps d c
                ++ idleOps d c).
Proof.
  intros Hk Ha d c. split.
  - apply dpWrite_trace; assumption.
  - apply dpRead_trace; assumption.
Qed.

(** ** The fields of SELECT *)

Lemma u32_shiftl_24_bits accessPort n :
  0 <= n ->
  Z.testbit (u32 (Z.shiftl accessPort 24)) n
  = (24 <=? n) && (n <? 32) && Z.testbit accessPort (n - 24).
Proof.
  intros Hn. unfold u32.
  destruct (Z.ltb_spec n 32) as [L|L].
  - rewrite Z.mod_pow2_bits_low by lia.
    destruct (Z.leb_spec 24 n) as [M|M].
    + rewrite Z.shiftl_spec by lia. reflexivity.
    + rewrite Z.shiftl_spec_low by lia. reflexivity.
  - rewrite Z.mod_pow2_bits_high by lia. now rewrite andb_false_r.
Qed.

Lemma bank_bits addr n :
  24 <= n -> Z.testbit (Z.land addr 0xF0) n = false.
Proof.
  intros Hn. rewrite Z.land_spec.
  replace (Z.testbit 0xF0 n) with false; [apply andb_false_r|].
  symmetry. apply Z.bits_above_log2; [lia|]. change (Z.log2 0xF0) with 7. lia.
Qed.

Lemma selectValue_wraps accessPort addr :
  selectValue (accessPort + 256) addr = selectValue accessPort addr.
Proof.
  unfold selectValue, u32. f_equal.
  rewrite !Z.shiftl_mul_pow2 by lia.
  replace ((accessPort + 256) * 2 ^ 24)
    with (accessPort * 2 ^ 24 + 1 * 2 ^ 32) by lia.
  apply Z.mod_add. lia.
Qed.

(** X14.  The value [dpSelect] writes to SELECT holds the access port
    in bits 31..24 and the bank (bits 7..4 of the register address) in
    bits 7..4, every other bit being 0; only the low 8 bits of the port
    number get there, so a port number 256 higher selects the same
    port: with that port and bank in the cache no SELECT is written. *)
Theorem select_fields accessPort addr :
  Z.shiftr (selectValue accessPort addr) 24 = accessPort mod 2 ^ 8 /\
  Z.land (selectValue accessPort addr) (Z.ones 24) = Z.land addr 0xF0 /\
  (forall fuel s,
      cache_select s = selectValue accessPort addr ->
      dpSelect fuel (accessPort + 256) addr s = Some (true, s)).
Proof.
  split; [|split].
  - apply Z.bits_inj'. intros n Hn.
    rewrite Z.shiftr_spec by lia. unfold selectValue.
    rewrite Z.lor_spec, u32_shiftl_24_bits, bank_bits by lia.
    rewrite orb_false_r.
    replace (n + 24 - 24) with n by lia.
    replace (24 <=? n + 24) with true by (symmetry; apply Z.leb_le; lia).
    cbn [andb].
    destruct (Z.ltb_spec n 8) as [L|L].
    + rewrite Z.mod_pow2_bits_low by lia.
      replace (n + 24 <? 32) with true by (symmetry; apply Z.ltb_lt; lia).
      reflexivity.
    + rewrite Z.mod_pow2_bits_high by lia.
      replace (n + 24 <? 32) with false by (symmetry; apply Z.ltb_ge; lia).
      reflexivity.
  - unfold selectValue. rewrite Z.land_lor_distr_l.
    rewrite <- (Z.land_assoc addr).
    change (Z.land 0xF0 (Z.ones 24)) with 0xF0.
    replace (Z.land (u32 (Z.shiftl accessPort 24)) (Z.ones 24)) with 0;
      [reflexivity|].
    symmetry. apply Z.bits_inj'. intros n Hn.
    rewrite Z.land_spec, u32_shiftl_24_bits, Z.bits_0 by lia.
    destruct (Z.leb_spec 24 n) as [M|M]; [|reflexivity].
    rewrite Z.ones_spec_high by lia. apply andb_false_r.
  - intros fuel s Hc. apply dpSelect_cached.
    rewrite selectValue_wraps. now symmetry.
Qed.

(** ** What a transaction prints *)

Lemma serial_recordDp t x : serial (recordDp t x) = serial x.
Proof. reflexivity. Qed.

Lemma said_after s x level fmt args :
  hushed s x ->
  serial (log level fmt args x)
  = serial s ++ (if (level <=? logLevel s) && serialReady s
                 then [(fmt, args)] else []).
Proof. intros (A & B & C). now rewrite log_said, A, B, C. Qed.

Lemma dpWrite_prints fuel addr APnDP data s k :
  (k < fuel)%nat ->
  answeredAt s k ->
  logLevel s < LOG_TRACE ->
  exists ok s',
    dpWrite fuel addr APnDP data s = Some (ok, s') /\
    serial s' = serial s
                ++ (if ok then []
                    else if (LOG_ERROR <=? logLevel s) && serialReady s
                         then [writeRefusal (ackAt s k) addr APnDP data]
                         else []).
Proof.
  intros Hk [Hwait Hack] Hq. unfold dpWrite.
  set (s0 := log LOG_TRACE "DP  Write [%x:%x] %08x"
                 [addr; Z.b2z APnDP; data] s).
  assert (W0 : wired 0 s s0) by apply wired_log.
  assert (H0 : hushed s s0) by (subst s0; hush).
  replace fuel with (k + S (fuel - S k))%nat by lia.
  destruct (dpWrite_loop_waits_traced addr APnDP data k (S (fuel - S k)) 10 s0
              eq_refl) as (r' & s1 & _ & W1 & Q1 & _ & E1).
  { intros j Hj. rewrite (ackAt_same j s s0 (proj1 W0)). auto. }
  assert (H1 : hushed s s1).
  { eapply hushed_trans; [exact H0|]. apply Q1.
    destruct H0 as (-> & _). exact Hq. }
  assert (Ws1 : wired (21 * k) s s1) by wired_by.
  assert (A1 : ackAt s1 0 = ackAt s k).
  { now rewrite (ackAt_advance k 0 s s1 (proj1 Ws1)), Nat.add_0_r. }
  destruct (dpWrite_loop_step (fuel - S k) r' addr APnDP data s1)
    as (s3 & _ & Q3 & _ & E3).
  cbv zeta in E3. rewrite A1 in E3. rewrite E1, E3. clear E1 E3.
  assert (H3 : hushed s s3).
  { eapply hushed_trans; [exact H1|]. apply Q3.
    destruct H1 as (-> & _). exact Hq. }
  clear Q1 Q3 H0 H1.
  destruct (Z.eq_dec (ackAt s k) 1) as [Eok|Nok].
  - rewrite Eok. cbv beta iota.
    eexists _, _. split; [reflexivity|]. cbv iota.
    rewrite serial_recordDp, app_nil_r.
    assert (H : hushed s
                  (wireWrite 0 8
                     (wireWrite (Z.b2z (evenParity data)) 1
                        (wireWrite data 32 (wireWriteTurnaround s3)))))
      by hush.
    apply H.
  - rewrite (ack_switch (ackAt s k)) by assumption.
    assert (H : hushed s (wireWrite 0 8 (wireWriteTurnaround s3))) by hush.
    unfold writeRefusal.
    destruct (ackAt s k =? 4);
      (eexists _, _; split; [reflexivity|]; cbv iota;
       rewrite serial_recordDp; apply (said_after s _ _ _ _ H)).
Qed.

Lemma dpRead_prints fuel addr APnDP data s k :
  (k < fuel)%nat ->
  answeredAt s k ->
  logLevel s < LOG_TRACE ->
  exists ok data' s',
    dpRead fuel addr APnDP data s = Some ((ok, data'), s') /\
    serial s' = serial s
                ++ (if ok then []
                    else if (LOG_ERROR <=? logLevel s) && serialReady s
                         then [if ackAt s k =? 1
                               then parityDiagnostic addr APnDP data'
                               else readRefusal (ackAt s k) addr APnDP]
                         else []).
Proof.
  intros Hk [Hwait Hack] Hq. unfold dpRead.
  replace fuel with (k + S (fuel - S k))%nat by lia.
  destruct (dpRead_loop_waits_traced addr APnDP data k (S (fuel - S k)) 10 s
              eq_refl Hwait) as (r' & s1 & _ & Ws1 & Q1 & _ & E1).
  pose proof (Q1 Hq) as H1.
  assert (A1 : ackAt s1 0 = ackAt s k).
  { now rewrite (ackAt_advance k 0 s s1 (proj1 Ws1)), Nat.add_0_r. }
  destruct (dpRead_loop_step (fuel - S k) r' addr APnDP data s1)
    as (s3 & s5 & _ & _ & Q35 & _ & _ & E3).
  cbv zeta in E3. rewrite A1 in E3. rewrite E1, E3. clear E1 E3.
  assert (H35 : hushed s s3 /\ hushed s s5).
  { destruct Q35 as [Q3 Q5]; [destruct H1 as (-> & _); exact Hq|].
    split; eapply hushed_trans; eassumption. }
  destruct H35 as [H3 H5]. clear Q1 Q35 H1.
  generalize (lineBits (dataPin s1) (pulses s1 + 12) 32),
    (lineBits (dataPin s1) (pulses s1 + 44) 1).
  intros w parity.
  destruct (Z.eqb_spec (ackAt s k) 1) as [Eok|Nok].
  - rewrite Eok. cbv beta iota.
    assert (H : hushed s (wireWrite 0 8 (wireWriteTurnaround s5))) by hush.
    destruct (negb (parity =? Z.b2z (evenParity w))).
    + eexists _, _, _. split; [reflexivity|]. cbv iota.
      rewrite serial_recordDp. apply (said_after s _ _ _ _ H).
    + eexists _, _, _. split; [reflexivity|]. cbv iota.
      rewrite serial_recordDp, app_nil_r.
      assert (H' : hushed s
                     (log LOG_TRACE "DP  Read  [%x:%x] %08x"
                          [addr; Z.b2z APnDP; w]
                          (wireWrite 0 8 (wireWriteTurnaround s5))))
        by hush.
      apply H'.
  - rewrite (ack_switch (ackAt s k)) by assumption.
    assert (H : hushed s (wireWrite 0 8 (wireWriteTurnaround s3))) by hush.
    unfold readRefusal.
    destruct (ackAt s k =? 4);
      (eexists _, _, _; split; [reflexivity|]; cbv iota;
       rewrite serial_recordDp; apply (said_after s _ _ _ _ H)).
Qed.

(** X15.  What a debug-port transaction prints when the log level is
    below the trace level and the first acknowledge that is not WAIT
    comes in attempt [k]: nothing if it returns true; if it returns
    false, exactly one line, and only if the log level reaches the
    error level and [Serial] is ready: the FAULT or protocol-error
    diagnostic of that acknowledge or, for a read acknowledged OK, the
    parity-error diagnostic with the word received.  The WAIT answers
    before attempt [k] print nothing. *)
Theorem transaction_prints fuel addr APnDP data s k :
  (k < fuel)%nat ->
  answeredAt s k ->
  logLevel s < LOG_TRACE ->
  (exists ok s',
      dpWrite fuel addr APnDP data s = Some (ok, s') /\
      serial s' = serial s
                  ++ (if ok then []
                      else if (LOG_ERROR <=? logLevel s) && serialReady s
                           then [writeRefusal (ackAt s k) addr APnDP data]
                           else [])) /\
  (exists ok data' s',
      dpRead fuel addr APnDP data s = Some ((ok, data'), s') /\
      serial s' = serial s
                  ++ (if ok then []
                      else if (LOG_ERROR <=? logLevel s) && serialReady s
                           then [if ackAt s k =? 1
                                 then parityDiagnostic addr APnDP data'
                                 else readRefusal (ackAt s k) addr APnDP]
                           else [])).
Proof.
  intros Hk Ha Hq. split.
  - apply dpWrite_prints; assumption.
  - apply dpRead_prints; assumption.
Qed.

(** * Transactions on the wire *)

(** ** A debug-port transaction *)

Lemma dpWrite_full fuel addr APnDP data s k :
  (k < fuel)%nat ->
  answeredAt s k ->
  exists s',
    dpWrite fuel addr APnDP data s = Some (ackAt s k =? 1, s') /\
    transacted (DpW addr APnDP data (ackAt s k =? 1))
               (21 * k + if (ackAt s k =? 1)%Z then 54 else 21) s s' /\
    gpio s' = gpio s
              ++ writeTrace (dataPin s) (clockPin s)
                            (packHeader addr APnDP false) data k
                            (ackAt s k =? 1).
Proof.
  intros Hk [Hwait Hack]. unfold dpWrite, writeTrace.
  set (d := dataPin s). set (c := clockPin s).
  set (hdr := packHeader addr APnDP false).
  set (s0 := log LOG_TRACE "DP  Write [%x:%x] %08x"
                 [addr; Z.b2z APnDP; data] s).
  assert (W0 : wired 0 s s0) by apply wired_log.
  assert (G0 : gpio s0 = gpio s) by apply log_gpio.
  destruct (wired_pins _ _ _ W0) as [Hd0 Hc0].
  replace fuel with (k + S (fuel - S k))%nat by lia.
  destruct (dpWrite_loop_waits_traced addr APnDP data k (S (fuel - S k)) 10 s0
              eq_refl) as (r' & s1 & _ & W1 & _ & G1 & E1).
  { intros j Hj. rewrite (ackAt_same j s s0 (proj1 W0)). auto. }
  rewrite G0, Hd0, Hc0 in G1. fold d c hdr in G1.
  assert (Ws1 : wired (21 * k) s s1) by wired_by.
  assert (A1 : ackAt s1 0 = ackAt s k).
  { now rewrite (ackAt_advance k 0 s s1 (proj1 Ws1)), Nat.add_0_r. }
  destruct (wired_pins _ _ _ Ws1) as [Hd1 Hc1].
  destruct (dpWrite_loop_step (fuel - S k) r' addr APnDP data s1)
    as (s3 & W3 & _ & G3 & E3).
  cbv zeta in E3. rewrite A1 in E3. rewrite E1, E3. clear E1 E3.
  rewrite G1, Hd1, Hc1 in G3. fold d c hdr in G3.
  destruct (wired_pins _ _ _ W3) as [Hd3 Hc3].
  rewrite Hd1 in Hd3. rewrite Hc1 in Hc3. fold d in Hd3. fold c in Hc3.
  destruct (Z.eqb_spec (ackAt s k) 1) as [Eok|Nok].
  - rewrite Eok. cbv beta iota.
    eexists. split; [reflexivity|]. split.
    + apply advance_transacted. eapply advance_eq.
      * eapply advance_trans; [exact (proj1 Ws1)|].
        eapply advance_trans; [exact (proj1 W3)|]. adv.
      * lia.
    + rewrite gpio_recordDp, write_tail_gpio, G3, Hd3, Hc3.
      now rewrite <- !app_assoc.
  - rewrite (ack_switch (ackAt s k)) by assumption.
    destruct (ackAt s k =? 4);
      (eexists; split; [reflexivity|]; split;
       [ apply advance_transacted; eapply advance_eq;
         [ eapply advance_trans; [exact (proj1 Ws1)|];
           eapply advance_trans; [exact (proj1 W3)|]; adv | lia ]
       | rewrite gpio_recordDp, log_gpio, drain_gpio, G3, Hd3, Hc3;
         cbn [app]; now rewrite <- !app_assoc ]).
Qed.

Lemma dpRead_full fuel addr APnDP data s k :
  (k < fuel)%nat ->
  answeredAt s k ->
  exists s',
    dpRead fuel addr APnDP data s
    = Some ((ackAt s k =? 1)
            && (lineBits (dataPin s) (pulses s + 21 * k + 44) 1
                =? Z.b2z (evenParity
                            (lineBits (dataPin s) (pulses s + 21 * k + 12) 32))),
            if ackAt s k =? 1
            then lineBits (dataPin s) (pulses s + 21 * k + 12) 32
            else data, s') /\
    transacted
      (DpR addr APnDP
           (if ackAt s k =? 1
            then lineBits (dataPin s) (pulses s + 21 * k + 12) 32
            else data)
           ((ackAt s k =? 1)
            && (lineBits (dataPin s) (pulses s + 21 * k + 44) 1
                =? Z.b2z (evenParity
                            (lineBits (dataPin s) (pulses s + 21 * k + 12) 32)))))
      (21 * k + if (ackAt s k =? 1)%Z then 54 else 21) s s' /\
    gpio s' = gpio s
              ++ readTrace (dataPin s) (clockPin s)
                           (packHeader addr APnDP true) k (ackAt s k =? 1).
Proof.
  intros Hk [Hwait Hack]. unfold dpRead, readTrace.
  set (d := dataPin s). set (c := clockPin s).
  set (hdr := packHeader addr APnDP true).
  set (w := lineBits d (pulses s + 21 * k + 12) 32).
  set (parity := lineBits d (pulses s + 21 * k + 44) 1).
  replace fuel with (k + S (fuel - S k))%nat by lia.
  destruct (dpRead_loop_waits_traced addr APnDP data k (S (fuel - S k)) 10 s
              eq_refl Hwait) as (r' & s1 & _ & Ws1 & _ & G1 & E1).
  fold d c hdr in G1.
  assert (A1 : ackAt s1 0 = ackAt s k).
  { now rewrite (ackAt_advance k 0 s s1 (proj1 Ws1)), Nat.add_0_r. }
  destruct (wired_pins _ _ _ Ws1) as [Hd1 Hc1].
  assert (Eq : pulses s1 = (pulses s + 21 * k)%nat) by apply Ws1.
  destruct (dpRead_loop_step (fuel - S k) r' addr APnDP data s1)
    as (s3 & s5 & W3 & W5 & _ & G3 & G5 & E3).
  cbv zeta in E3. rewrite A1 in E3.
  rewrite Hd1, Eq in E3. fold d w parity in E3.
  rewrite E1, E3. clear E1 E3.
  rewrite G1, Hd1, Hc1 in G3. fold d c hdr in G3.
  rewrite G3, Hc1 in G5. fold c in G5.
  destruct (wired_pins _ _ _ W3) as [Hd3 Hc3].
  rewrite Hd1 in Hd3. rewrite Hc1 in Hc3. fold d in Hd3. fold c in Hc3.
  destruct (wired_pins _ _ _ W5) as [Hd5 Hc5].
  rewrite Hd3 in Hd5. rewrite Hc3 in Hc5.
  assert (W15 : wired 45 s1 s5) by wired_by.
  clearbody w parity.
  destruct (Z.eqb_spec (ackAt s k) 1) as [Eok|Nok].
  - rewrite Eok. cbv beta iota. cbn [andb].
    destruct (parity =? Z.b2z (evenParity w)); cbn [negb];
      (eexists; split; [reflexivity|]; split;
       [ apply advance_transacted; eapply advance_eq;
         [ eapply advance_trans; [exact (proj1 Ws1)|];
           eapply advance_trans; [exact (proj1 W15)|]; adv | lia ]
       | rewrite gpio_recordDp, log_gpio, drain_gpio, G5, Hd5, Hc5;
         now rewrite <- !app_assoc ]).
  - rewrite (ack_switch (ackAt s k)) by assumption. cbn [andb].
    destruct (ackAt s k =? 4);
      (eexists; split; [reflexivity|]; split;
       [ apply advance_transacted; eapply advance_eq;
         [ eapply advance_trans; [exact (proj1 Ws1)|];
           eapply advance_trans; [exact (proj1 W3)|]; adv | lia ]
       | rewrite gpio_recordDp, log_gpio, drain_gpio, G3, Hd3, Hc3;
         cbn [app]; now rewrite <- !app_assoc ]).
Qed.

Lemma dpWrite_stalls fuel addr APnDP data s :
  (forall j, (j < fuel)%nat -> ackAt s j = 2) ->
  dpWrite fuel addr APnDP data s = None.
Proof.
  intros Hall. unfold dpWrite.
  set (s0 := log LOG_TRACE "DP  Write [%x:%x] %08x"
                 [addr; Z.b2z APnDP; data] s).
  destruct (dpWrite_loop_waits addr APnDP data fuel 0 10 s0 eq_refl)
    as (r' & s1 & _ & _ & E1).
  { intros j Hj. rewrite (ackAt_same j s s0 (log_advance _ _ _ s)). auto. }
  rewrite Nat.add_0_r in E1. now rewrite E1.
Qed.

Lemma dpRead_stalls fuel addr APnDP data s :
  (forall j, (j < fuel)%nat -> ackAt s j = 2) ->
  dpRead fuel addr APnDP data s = None.
Proof.
  intros Hall. unfold dpRead.
  destruct (dpRead_loop_waits addr APnDP data fuel 0 10 s eq_refl Hall)
    as (r' & s1 & _ & _ & E1).
  rewrite Nat.add_0_r in E1. now rewrite E1.
Qed.

(** ** Chains of transactions *)

Lemma onWire_app d c t1 t2 :
  forall p ops p1 ops1 p2 ops2,
    onWire d c t1 p ops p1 ops1 ->
    onWire d c t2 p1 ops1 p2 ops2 ->
    onWire d c (t1 ++ t2) p ops p2 ops2.
Proof.
  induction t1 as [|t t1 IH]; intros p ops p1 ops1 p2 ops2 H1 H2;
    cbn [onWire app] in *.
  - destruct H1 as [-> ->]. exact H2.
  - destruct H1 as (q & o & Ht & H1). exists q, o. split; [exact Ht|].
    eapply IH; eassumption.
Qed.

Lemma onWire_one d c t p ops p' ops' :
  txnOnWire d c t p ops p' ops' -> onWire d c [t] p ops p' ops'.
Proof. intros H. exists p', ops'. split; [exact H|split; reflexivity]. Qed.



Lemma realised_nil d c s : realised d c [] s s.
Proof. split; [now rewrite app_nil_r|split; reflexivity]. Qed.

Lemma realised_app d c t1 t2 s s1 s2 :
  realised d c t1 s s1 -> realised d c t2 s1 s2 ->
  realised d c (t1 ++ t2) s s2.
Proof.
  intros [L1 W1] [L2 W2]. split.
  - now rewrite L2, L1, app_assoc.
  - eapply onWire_app; eassumption.
Qed.

(** Only the clock pulses, the pin operations and the history of a
    state matter. *)
Lemma realised_end d c txns s s' x :
  pulses x = pulses s' -> gpio x = gpio s' -> dpLog x = dpLog s' ->
  realised d c txns s s' -> realised d c txns s x.
Proof. intros Hp Hg Hl [L W]. split; [congruence|]. now rewrite Hp, Hg. Qed.

Lemma realised_start d c txns s s' x :
  pulses x = pulses s -> gpio x = gpio s -> dpLog x = dpLog s ->
  realised d c txns x s' -> realised d c txns s s'.
Proof. intros Hp Hg Hl [L W]. split; [congruence|]. now rewrite <- Hp, <- Hg. Qed.

Lemma performed_nil s : performed [] s s.
Proof. split; [apply realised_nil|split; reflexivity]. Qed.

Lemma performed_app t1 t2 s s1 s2 :
  performed t1 s s1 -> performed t2 s1 s2 -> performed (t1 ++ t2) s s2.
Proof.
  intros (R1 & D1 & C1) (R2 & D2 & C2). rewrite D1, C1 in R2.
  split; [eapply realised_app; eassumption|]. split; congruence.
Qed.

Lemma performed_end txns s s' x :
  pulses x = pulses s' -> gpio x = gpio s' -> dpLog x = dpLog s' ->
  dataPin x = dataPin s' -> clockPin x = clockPin s' ->
  performed txns s s' -> performed txns s x.
Proof.
  intros Hp Hg Hl Hd Hc (R & D & C).
  split; [eapply realised_end; eassumption|]. split; congruence.
Qed.

Lemma performed_start txns s s' x :
  pulses x = pulses s -> gpio x = gpio s -> dpLog x = dpLog s ->
  dataPin x = dataPin s -> clockPin x = clockPin s ->
  performed txns x s' -> performed txns s s'.
Proof.
  intros Hp Hg Hl Hd Hc (R & D & C). rewrite Hd, Hc in R.
  split; [eapply realised_start; eassumption|]. split; congruence.
Qed.

Lemma performed_log_end txns s s' level fmt args :
  performed txns s s' -> performed txns s (log level fmt args s').
Proof.
  destruct (log_advance level fmt args s')
    as (Hc & Hd & _ & _ & _ & Hl & _ & Hp).
  apply performed_end; rewrite ?Nat.add_0_r in Hp; auto using log_gpio.
Qed.

Lemma performed_log_start txns s s' level fmt args :
  performed txns (log level fmt args s) s' -> performed txns s s'.
Proof.
  destruct (log_advance level fmt args s)
    as (Hc & Hd & _ & _ & _ & Hl & _ & Hp).
  apply performed_start; rewrite ?Nat.add_0_r in Hp; auto using log_gpio.
Qed.

Lemma stalled_start fuel d c done s x :
  pulses x = pulses s -> gpio x = gpio s ->
  stalled fuel d c done x -> stalled fuel d c done s.
Proof.
  intros Hp Hg (p1 & o1 & W & H). exists p1, o1.
  rewrite <- Hp, <- Hg. auto.
Qed.

Lemma stalled_log fuel d c done s level fmt args :
  stalled fuel d c done (log level fmt args s) -> stalled fuel d c done s.
Proof.
  destruct (log_advance level fmt args s)
    as (_ & _ & _ & _ & _ & _ & _ & Hp).
  apply stalled_start; rewrite ?Nat.add_0_r in Hp; auto using log_gpio.
Qed.

Lemma stalled_after fuel t1 done s s1 :
  performed t1 s s1 ->
  stalled fuel (dataPin s1) (clockPin s1) done s1 ->
  stalled fuel (dataPin s) (clockPin s) (t1 ++ done) s.
Proof.
  intros ([_ W] & D & C) (p1 & o1 & W1 & H). rewrite D, C in *.
  exists p1, o1. split; [eapply onWire_app; eassumption|exact H].
Qed.

(** ** Each operation on the wire *)

Lemma dpWrite_wire fuel addr APnDP data s :
  match dpWrite fuel addr APnDP data s with
  | Some (ok, s') =>
      performed [DpW addr APnDP data ok] s s' /\
      cache_select s' = cache_select s
  | None => stalled fuel (dataPin s) (clockPin s) [] s
  end.
Proof.
  destruct (first_answer s fuel) as [Hall|(k & Hk & Ha)].
  - rewrite (dpWrite_stalls _ _ _ _ _ Hall).
    exists (pulses s), (gpio s). split; [split; reflexivity|exact Hall].
  - destruct (dpWrite_full fuel addr APnDP data s k Hk Ha)
      as (s' & -> & T & G).
    destruct T as (Hc & Hd & _ & Hs & _ & Hl & _ & Hp).
    split; [|exact Hs]. split; [|split; assumption].
    split; [exact Hl|]. apply onWire_one. exists k.
    split; [exact Ha|]. split; [reflexivity|]. split; [|exact G].
    rewrite Hp. unfold ackAt, ackOn. lia.
Qed.

Lemma dpRead_wire fuel addr APnDP data s :
  match dpRead fuel addr APnDP data s with
  | Some ((ok, data'), s') =>
      performed [DpR addr APnDP data' ok] s s' /\
      cache_select s' = cache_select s
  | None => stalled fuel (dataPin s) (clockPin s) [] s
  end.
Proof.
  destruct (first_answer s fuel) as [Hall|(k & Hk & Ha)].
  - rewrite (dpRead_stalls _ _ _ _ _ Hall).
    exists (pulses s), (gpio s). split; [split; reflexivity|exact Hall].
  - destruct (dpRead_full fuel addr APnDP data s k Hk Ha)
      as (s' & -> & T & G).
    destruct T as (Hc & Hd & _ & Hs & _ & Hl & _ & Hp).
    split; [|exact Hs]. split; [|split; assumption].
    split; [exact Hl|]. apply onWire_one. exists k.
    split; [exact Ha|]. split; [reflexivity|]. split; [|split; [|exact G]].
    + intros E. change (ackAt s k = 1) in E. rewrite E. reflexivity.
    + rewrite Hp. unfold ackAt, ackOn. lia.
Qed.

Lemma dpSelect_wire fuel accessPort addr s :
  selectValue accessPort addr <> cache_select s ->
  match dpSelect fuel accessPort addr s with
  | Some (ok, s') =>
      performed [DpW SELECT false (selectValue accessPort addr) ok] s s' /\
      cache_select s'
      = (if ok then selectValue accessPort addr else cache_select s)
  | None => stalled fuel (dataPin s) (clockPin s) [] s
  end.
Proof.
  intros N. rewrite (dpSelect_uncached _ _ _ _ N).
  pose proof (dpWrite_wire fuel SELECT false (selectValue accessPort addr) s)
    as H.
  destruct (dpWrite fuel SELECT false _ s) as [[[|] s1]|]; [| |exact H].
  - destruct H as [P _]. split; [|reflexivity].
    revert P. apply performed_end; reflexivity.
  - exact H.
Qed.

Lemma apWrite_wire fuel accessPort addr data s :
  match apWrite fuel accessPort addr data s with
  | Some (ok, s') =>
      (selectValue accessPort addr = cache_select s /\
       performed [DpW addr true data ok] s s' /\
       cache_select s' = cache_select s) \/
      (selectValue accessPort addr <> cache_select s /\ ok = false /\
       performed [DpW SELECT false (selectValue accessPort addr) false] s s' /\
       cache_select s' = cache_select s) \/
      (selectValue accessPort addr <> cache_select s /\
       performed [DpW SELECT false (selectValue accessPort addr) true;
                  DpW addr true data ok] s s' /\
       cache_select s' = selectValue accessPort addr)
  | None =>
      stalled fuel (dataPin s) (clockPin s) [] s \/
      (selectValue accessPort addr <> cache_select s /\
       stalled fuel (dataPin s) (clockPin s)
               [DpW SELECT false (selectValue accessPort addr) true] s)
  end.
Proof.
  unfold apWrite.
  destruct (Z.eq_dec (selectValue accessPort addr) (cache_select s))
    as [E|N].
  - rewrite (dpSelect_cached _ _ _ _ E).
    pose proof (dpWrite_wire fuel addr true data s) as H.
    destruct (dpWrite fuel addr true data s) as [[ok s1]|].
    + destruct H as [P Hc]. left. split; [exact E|]. split; [|exact Hc].
      revert P. apply performed_end; reflexivity.
    + left. exact H.
  - pose proof (dpSelect_wire fuel accessPort addr s N) as H.
    destruct (dpSelect fuel accessPort addr s) as [[[|] s1]|].
    + destruct H as [P1 Hc1].
      pose proof (dpWrite_wire fuel addr true data s1) as H2.
      destruct (dpWrite fuel addr true data s1) as [[ok s2]|].
      * destruct H2 as [P2 Hc2]. right. right. split; [exact N|].
        split; [|cbn; congruence].
        apply (performed_app [_] [_] s s1).
        -- exact P1.
        -- revert P2. apply performed_end; reflexivity.
      * right. split; [exact N|].
        apply (stalled_after fuel [_] [] s s1 P1 H2).
    + destruct H as [P1 Hc1]. right. left. split; [exact N|].
      split; [reflexivity|]. split; [|exact Hc1].
      revert P1. apply performed_end; reflexivity.
    + left. exact H.
Qed.

Lemma apRead_wire fuel accessPort addr data s :
  match apRead fuel accessPort addr data s with
  | Some ((ok, data'), s') =>
      (selectValue accessPort addr = cache_select s /\
       performed [DpR addr true data' ok] s s' /\
       cache_select s' = cache_select s) \/
      (selectValue accessPort addr <> cache_select s /\ ok = false /\
       data' = data /\
       performed [DpW SELECT false (selectValue accessPort addr) false] s s' /\
       cache_select s' = cache_select s) \/
      (selectValue accessPort addr <> cache_select s /\
       performed [DpW SELECT false (selectValue accessPort addr) true;
                  DpR addr true data' ok] s s' /\
       cache_select s' = selectValue accessPort addr)
  | None =>
      stalled fuel (dataPin s) (clockPin s) [] s \/
      (selectValue accessPort addr <> cache_select s /\
       stalled fuel (dataPin s) (clockPin s)
               [DpW SELECT false (selectValue accessPort addr) true] s)
  end.
Proof.
  unfold apRead.
  destruct (Z.eq_dec (selectValue accessPort addr) (cache_select s))
    as [E|N].
  - rewrite (dpSelect_cached _ _ _ _ E).
    pose proof (dpRead_wire fuel addr true data s) as H.
    destruct (dpRead fuel addr true data s) as [[[ok w] s1]|].
    + destruct H as [P Hc]. left. split; [exact E|]. split; [|exact Hc].
      revert P. apply performed_end; reflexivity.
    + left. exact H.
  - pose proof (dpSelect_wire fuel accessPort addr s N) as H.
    destruct (dpSelect fuel accessPort addr s) as [[[|] s1]|].
    + destruct H as [P1 Hc1].
      pose proof (dpRead_wire fuel addr true data s1) as H2.
      destruct (dpRead fuel addr true data s1) as [[[ok w] s2]|].
      * destruct H2 as [P2 Hc2]. right. right. split; [exact N|].
        split; [|cbn; congruence].
        apply (performed_app [_] [_] s s1).
        -- exact P1.
        -- revert P2. apply performed_end; reflexivity.
      * right. split; [exact N|].
        apply (stalled_after fuel [_] [] s s1 P1 H2).
    + destruct H as [P1 Hc1]. right. left. split; [exact N|].
      split; [reflexivity|]. split; [reflexivity|]. split; [|exact Hc1].
      revert P1. apply performed_end; reflexivity.
    + left. exact H.
Qed.

(** ** The memory operations on the wire *)

Lemma wordsRead_ext a b i n :
  (forall j, (i <= j < i + n)%nat -> a j = b j) ->
  wordsRead a i n = wordsRead b i n.
Proof.
  intros H. unfold wordsRead. apply map_ext_in. intros j Hj.
  apply in_seq in Hj. now rewrite H.
Qed.

Lemma memStore_loop_wire fuel data count :
  forall addr i s,
    cache_select s = 0 ->
    match memStore_loop fuel count addr data i s with
    | Some (true, s') =>
        performed (wordsWritten data i count) s s' /\
        cache_select s' = 0 /\
        apLog s' = apLog s ++ drwWrites data i count
    | Some (false, s') =>
        exists k, (k < count)%nat /\
          performed (wordsWritten data i k
                     ++ [DpW MEM_DRW true (data (i + k)%nat) false]) s s' /\
          cache_select s' = 0 /\
          apLog s' = apLog s ++ drwWrites data i k
                     ++ [ApW 0 MEM_DRW (data (i + k)%nat) false]
    | None =>
        exists k, (k < count)%nat /\
          stalled fuel (dataPin s) (clockPin s) (wordsWritten data i k) s
    end.
Proof.
  induction count as [|count IH]; intros addr i s Hc; cbn [memStore_loop].
  - split; [apply performed_nil|]. split; [exact Hc|].
    cbn. now rewrite app_nil_r.
  - set (s0 := log LOG_TRACE "MEM Store [%08x] %08x" [addr; data i] s).
    destruct (log_advance LOG_TRACE "MEM Store [%08x] %08x" [addr; data i] s)
      as (Hc0 & Hd0 & _ & Hs0 & _ & _ & Ha0 & _).
    fold s0 in Hc0, Hd0, Hs0, Ha0.
    pose proof (apWrite_wire fuel 0 MEM_DRW (data i) s0) as H.
    change (selectValue 0 MEM_DRW) with 0 in H.
    rewrite Hs0, Hc, Hc0, Hd0 in H.
    destruct (apWrite fuel 0 MEM_DRW (data i) s0) as [[ok s1]|] eqn:E.
    + destruct (apWrite_result _ _ _ _ _ _ _ E) as [Ha1 _].
      rewrite Ha0 in Ha1.
      destruct H as [(_ & P & Hc1)|[(N & _)|(N & _)]];
        [|contradiction N; reflexivity|contradiction N; reflexivity].
      apply performed_log_start in P.
      destruct ok; cbn [negb].
      * specialize (IH (u32 (addr + 1)) (S i) s1 Hc1).
        destruct P as (R & Hd1 & Hc1').
        destruct (memStore_loop fuel count (u32 (addr + 1)) data (S i) s1)
          as [[[|] s']|].
        -- destruct IH as (P' & Hc' & Ha'). split; [|split; [exact Hc'|]].
           ++ apply (performed_app [_] _ s s1); [|exact P'].
              split; [exact R|split; assumption].
           ++ rewrite Ha', Ha1, <- app_assoc. reflexivity.
        -- destruct IH as (k & Hk & P' & Hc' & Ha'). exists (S k).
           split; [lia|]. split; [|split; [exact Hc'|]].
           ++ replace (i + S k)%nat with (S i + k)%nat by lia.
              apply (performed_app [_] _ s s1); [|exact P'].
              split; [exact R|split; assumption].
           ++ replace (i + S k)%nat with (S i + k)%nat by lia.
              rewrite Ha', Ha1, <- app_assoc. reflexivity.
        -- destruct IH as (k & Hk & St). exists (S k). split; [lia|].
           apply (stalled_after fuel [_] _ s s1); [|exact St].
           split; [exact R|split; assumption].
      * exists 0%nat. split; [lia|]. rewrite Nat.add_0_r.
        split; [exact P|]. split; [exact Hc1|exact Ha1].
    + exists 0%nat. split; [lia|].
      destruct H as [St|(N & _)]; [|contradiction N; reflexivity].
      apply stalled_log in St. exact St.
Qed.

Lemma memStoreN_wire fuel addr data count s :
  match memStoreN fuel addr data count s with
  | Some (true, s') =>
      apLog s' = apLog s ++ ApW 0 MEM_TAR addr true :: drwWrites data 0 count /\
      performed (selectMemory s ++ DpW MEM_TAR true addr true
                 :: wordsWritten data 0 count) s s'
  | Some (false, s') =>
      (apLog s' = apLog s ++ [ApW 0 MEM_TAR addr false] /\
       ((cache_select s <> 0 /\
         performed [DpW SELECT false 0 false] s s') \/
        performed (selectMemory s ++ [DpW MEM_TAR true addr false]) s s')) \/
      exists k, (k < count)%nat /\
        apLog s' = apLog s ++ ApW 0 MEM_TAR addr true
                   :: drwWrites data 0 k ++ [ApW 0 MEM_DRW (data k) false] /\
        performed ((selectMemory s ++ DpW MEM_TAR true addr true
                    :: wordsWritten data 0 k)
                   ++ [DpW MEM_DRW true (data k) false]) s s'
  | None =>
      (cache_select s <> 0 /\
       stalled fuel (dataPin s) (clockPin s) [] s) \/
      stalled fuel (dataPin s) (clockPin s) (selectMemory s) s \/
      exists k, (k < count)%nat /\
        stalled fuel (dataPin s) (clockPin s)
                (selectMemory s ++ DpW MEM_TAR true addr true
                 :: wordsWritten data 0 k) s
  end.
Proof.
  unfold memStoreN, selectMemory.
  pose proof (apWrite_wire fuel 0 MEM_TAR addr s) as H.
  change (selectValue 0 MEM_TAR) with 0 in H.
  destruct (apWrite fuel 0 MEM_TAR addr s) as [[ok s1]|] eqn:E.
  - destruct (apWrite_result _ _ _ _ _ _ _ E) as [Ha1 _].
    assert (T : exists pre,
               pre = (if cache_select s =? 0 then []
                      else [DpW SELECT false 0 true]) /\
               ((ok = false /\ cache_select s <> 0 /\
                 performed [DpW SELECT false 0 false] s s1) \/
                (performed (pre ++ [DpW MEM_TAR true addr ok]) s s1 /\
                 cache_select s1 = 0))).
    { eexists. split; [reflexivity|].
      destruct H as [(E0 & P & Hc)|[(N & -> & P & Hc)|(N & P & Hc)]].
      - right. rewrite <- E0, Z.eqb_refl. split; [exact P|congruence].
      - left. split; [reflexivity|]. split; [congruence|exact P].
      - right. destruct (Z.eqb_spec (cache_select s) 0) as [E0|_];
          [congruence|]. split; [exact P|exact Hc]. }
    destruct T as (pre & Epre & T). rewrite <- Epre. clear H Epre E.
    destruct T as [(-> & N & P)|[P Hc1]].
    + cbn [negb]. left. split; [exact Ha1|]. left. split; assumption.
    + destruct ok; cbn [negb];
        [|left; split; [exact Ha1|right; exact P]].
      pose proof (memStore_loop_wire fuel data count addr 0%nat s1 Hc1) as L.
      destruct P as (R & Hd1 & Hc1').
      destruct (memStore_loop fuel count addr data 0 s1) as [[[|] s']|].
      * destruct L as (P' & _ & Ha'). split.
        { rewrite Ha', Ha1, <- app_assoc. reflexivity. }
        replace (pre ++ DpW MEM_TAR true addr true :: wordsWritten data 0 count)
          with ((pre ++ [DpW MEM_TAR true addr true])
                ++ wordsWritten data 0 count)
          by (now rewrite <- app_assoc).
        apply (performed_app _ _ s s1); [|exact P'].
        split; [exact R|split; assumption].
      * destruct L as (k & Hk & P' & _ & Ha'). right. exists k.
        split; [exact Hk|]. split.
        { rewrite Ha', Ha1, <- app_assoc. reflexivity. }
        replace ((pre ++ DpW MEM_TAR true addr true :: wordsWritten data 0 k)
                 ++ [DpW MEM_DRW true (data k) false])
          with ((pre ++ [DpW MEM_TAR true addr true])
                ++ wordsWritten data 0 k
                ++ [DpW MEM_DRW true (data (0 + k)%nat) false])
          by (now rewrite <- !app_assoc).
        apply (performed_app _ _ s s1); [|exact P'].
        split; [exact R|split; assumption].
      * destruct L as (k & Hk & St). right. right. exists k.
        split; [exact Hk|].
        replace (pre ++ DpW MEM_TAR true addr true :: wordsWritten data 0 k)
          with ((pre ++ [DpW MEM_TAR true addr true])
                ++ wordsWritten data 0 k)
          by (now rewrite <- app_assoc).
        apply (stalled_after fuel _ _ s s1); [|exact St].
        split; [exact R|split; assumption].
  - destruct H as [St|(N & St)].
    + destruct (Z.eqb_spec (cache_select s) 0) as [E0|N].
      * right. left. exact St.
      * left. split; assumption.
    + destruct (Z.eqb_spec (cache_select s) 0) as [E0|_]; [congruence|].
      right. left. exact St.
Qed.

Lemma memLoad_loop_wire fuel count :
  forall addr data i s,
    cache_select s = 0 ->
    match memLoad_loop fuel count addr data i s with
    | Some ((true, data'), s') =>
        performed (wordsRead data' i count) s s' /\
        cache_select s' = 0 /\
        forall j, (j < i \/ i + count <= j)%nat -> data' j = data j
    | Some ((false, data'), s') =>
        exists k, (k < count)%nat /\
          performed (wordsRead data' i k
                     ++ [DpR MEM_DRW true (data' (i + k)%nat) false]) s s' /\
          cache_select s' = 0 /\
          forall j, (j < i \/ i + k < j)%nat -> data' j = data j
    | None =>
        exists k data', (k < count)%nat /\
          stalled fuel (dataPin s) (clockPin s) (wordsRead data' i k) s
    end.
Proof.
  induction count as [|count IH]; intros addr data i s Hc;
    cbn [memLoad_loop].
  - split; [apply performed_nil|]. split; [exact Hc|reflexivity].
  - pose proof (apRead_wire fuel 0 MEM_DRW (data i) s) as H.
    change (selectValue 0 MEM_DRW) with 0 in H. rewrite Hc in H.
    destruct (apRead fuel 0 MEM_DRW (data i) s) as [[[ok w] s1]|].
    + destruct H as [(_ & P & Hc1)|[(N & _)|(N & _)]];
        [|contradiction N; reflexivity|contradiction N; reflexivity].
      destruct ok; cbn [negb].
      * set (data1 := store data i w).
        set (s2 := log LOG_TRACE "MEM Load  [%08x] %08x" [addr; data1 i] s1).
        assert (P2 : performed [DpR MEM_DRW true w true] s s2)
          by (apply performed_log_end; exact P).
        assert (Hc2 : cache_select s2 = 0).
        { destruct (log_advance LOG_TRACE "MEM Load  [%08x] %08x"
                      [addr; data1 i] s1) as (_ & _ & _ & E & _).
          fold s2 in E. congruence. }
        specialize (IH (u32 (addr + 1)) data1 (S i) s2 Hc2).
        destruct (memLoad_loop fuel count (u32 (addr + 1)) data1 (S i) s2)
          as [[[[|] data'] s']|].
        -- destruct IH as (P' & Hc' & Hout).
           assert (Ei : data' i = w).
           { rewrite Hout by lia. apply store_same. }
           split; [|split; [exact Hc'|]].
           ++ unfold wordsRead. cbn [seq map]. rewrite Ei.
              apply (performed_app [_] _ s s2); assumption.
           ++ intros j Hj. rewrite Hout by lia. apply store_other. lia.
        -- destruct IH as (k & Hk & P' & Hc' & Hout).
           assert (Ei : data' i = w).
           { rewrite Hout by lia. apply store_same. }
           exists (S k). split; [lia|]. split; [|split; [exact Hc'|]].
           ++ unfold wordsRead. cbn [seq map app]. rewrite Ei.
              replace (i + S k)%nat with (S i + k)%nat by lia.
              apply (performed_app [_] _ s s2); assumption.
           ++ intros j Hj. rewrite Hout by lia. apply store_other. lia.
        -- destruct IH as (k & data' & Hk & St).
           exists (S k), (store data' i w). split; [lia|].
           unfold wordsRead. cbn [seq map]. rewrite store_same.
           change (map (fun j => DpR MEM_DRW true (store data' i w j) true)
                       (seq (S i) k))
             with (wordsRead (store data' i w) (S i) k).
           rewrite (wordsRead_ext (store data' i w) data' (S i) k)
             by (intros j Hj; apply store_other; lia).
           destruct P2 as (R & Hd2 & Hc2').
           apply (stalled_after fuel [_] _ s s2); [|exact St].
           split; [exact R|split; assumption].
      * exists 0%nat. split; [lia|]. rewrite Nat.add_0_r, store_same.
        split; [exact P|]. split; [congruence|].
        intros j Hj. apply store_other. lia.
    + exists 0%nat, data. split; [lia|].
      destruct H as [St|(N & _)]; [exact St|contradiction N; reflexivity].
Qed.

Lemma memLoadN_wire fuel addr data count s :
  match memLoadN fuel addr data count s with
  | Some ((true, data'), s') =>
      performed (selectMemory s ++ DpW MEM_TAR true addr true
                 :: wordsRead data' 0 count) s s' /\
      forall j, (count <= j)%nat -> data' j = data j
  | Some ((false, data'), s') =>
      (((cache_select s <> 0 /\ performed [DpW SELECT false 0 false] s s') \/
        performed (selectMemory s ++ [DpW MEM_TAR true addr false]) s s') /\
       forall j, data' j = data j) \/
      exists k, (k < count)%nat /\
        performed ((selectMemory s ++ DpW MEM_TAR true addr true
                    :: wordsRead data' 0 k)
                   ++ [DpR MEM_DRW true (data' k) false]) s s' /\
        forall j, (k < j)%nat -> data' j = data j
  | None =>
      (cache_select s <> 0 /\
       stalled fuel (dataPin s) (clockPin s) [] s) \/
      stalled fuel (dataPin s) (clockPin s) (selectMemory s) s \/
      exists k data', (k < count)%nat /\
        stalled fuel (dataPin s) (clockPin s)
                (selectMemory s ++ DpW MEM_TAR true addr true
                 :: wordsRead data' 0 k) s
  end.
Proof.
  unfold memLoadN, selectMemory.
  pose proof (apWrite_wire fuel 0 MEM_TAR addr s) as H.
  change (selectValue 0 MEM_TAR) with 0 in H.
  destruct (apWrite fuel 0 MEM_TAR addr s) as [[ok s1]|].
  - assert (T : exists pre,
               pre = (if cache_select s =? 0 then []
                      else [DpW SELECT false 0 true]) /\
               ((ok = false /\ cache_select s <> 0 /\
                 performed [DpW SELECT false 0 false] s s1) \/
                (performed (pre ++ [DpW MEM_TAR true addr ok]) s s1 /\
                 cache_select s1 = 0))).
    { eexists. split; [reflexivity|].
      destruct H as [(E & P & Hc)|[(N & -> & P & Hc)|(N & P & Hc)]].
      - right. rewrite <- E, Z.eqb_refl. split; [exact P|congruence].
      - left. split; [reflexivity|]. split; [congruence|exact P].
      - right. destruct (Z.eqb_spec (cache_select s) 0) as [E|_];
          [congruence|]. split; [exact P|exact Hc]. }
    destruct T as (pre & Epre & T). rewrite <- Epre. clear H Epre.
    destruct T as [(-> & N & P)|[P Hc1]].
    + cbn [negb]. left. split; [left; split; assumption|reflexivity].
    + destruct ok; cbn [negb];
        [|left; split; [right; exact P|reflexivity]].
      pose proof (memLoad_loop_wire fuel count addr data 0%nat s1 Hc1) as L.
      destruct P as (R & Hd1 & Hc1').
      destruct (memLoad_loop fuel count addr data 0 s1)
        as [[[[|] data'] s']|].
      * destruct L as (P' & _ & Hout). split; [|intros j Hj; apply Hout; lia].
        replace (pre ++ DpW MEM_TAR true addr true :: wordsRead data' 0 count)
          with ((pre ++ [DpW MEM_TAR true addr true])
                ++ wordsRead data' 0 count)
          by (now rewrite <- app_assoc).
        apply (performed_app _ _ s s1); [|exact P'].
        split; [exact R|split; assumption].
      * destruct L as (k & Hk & P' & _ & Hout). right. exists k.
        split; [exact Hk|]. split; [|intros j Hj; apply Hout; lia].
        replace ((pre ++ DpW MEM_TAR true addr true :: wordsRead data' 0 k)
                 ++ [DpR MEM_DRW true (data' k) false])
          with ((pre ++ [DpW MEM_TAR true addr true])
                ++ wordsRead data' 0 k
                ++ [DpR MEM_DRW true (data' (0 + k)%nat) false])
          by (now rewrite <- !app_assoc).
        apply (performed_app _ _ s s1); [|exact P'].
        split; [exact R|split; assumption].
      * destruct L as (k & data' & Hk & St). right. right. exists k, data'.
        split; [exact Hk|].
        replace (pre ++ DpW MEM_TAR true addr true :: wordsRead data' 0 k)
          with ((pre ++ [DpW MEM_TAR true addr true])
                ++ wordsRead data' 0 k)
          by (now rewrite <- app_assoc).
        apply (stalled_after fuel _ _ s s1); [|exact St].
        split; [exact R|split; assumption].
  - destruct H as [St|(N & St)].
    + destruct (Z.eqb_spec (cache_select s) 0) as [E|N].
      * right. left. exact St.
      * left. split; assumption.
    + destruct (Z.eqb_spec (cache_select s) 0) as [E|_]; [congruence|].
      right. left. exact St.
Qed.

(** ** Runs that went over the wire *)

Lemma carried_ret {A : Type} fuel (a : A) s : carried fuel (Some (a, s)) s.
Proof. exists []. apply performed_nil. Qed.

Lemma carried_bind {A B : Type} fuel (m : M A)
      (k : A -> ARMDebug -> M B) s :
  carried fuel m s ->
  (forall a s1, carried fuel (k a s1) s1) ->
  carried fuel (match m with Some (a, s1) => k a s1 | None => None end) s.
Proof.
  intros Hm Hk. destruct m as [[a s1]|]; [|exact Hm].
  destruct Hm as [t1 P1]. specialize (Hk a s1).
  destruct (k a s1) as [[b s2]|].
  - destruct Hk as [t2 P2]. exists (t1 ++ t2).
    eapply performed_app; eassumption.
  - destruct Hk as [done St]. exists (t1 ++ done).
    eapply stalled_after; eassumption.
Qed.

Lemma carried_log_start {A : Type} fuel (m : M A) s level fmt args :
  carried fuel m (log level fmt args s) -> carried fuel m s.
Proof.
  destruct (log_advance level fmt args s) as (Hc & Hd & _).
  destruct m as [[a s']|]; cbn [carried].
  - intros [t P]. exists t. eapply performed_log_start, P.
  - rewrite Hc, Hd. intros [done St]. exists done.
    eapply stalled_log, St.
Qed.

Lemma carried_log_end {A : Type} fuel (a : A) s s' level fmt args :
  carried fuel (Some (a, s')) s ->
  carried fuel (Some (a, log level fmt args s')) s.
Proof. intros [t P]. exists t. apply performed_log_end, P. Qed.

Lemma dpWrite_carried fuel addr APnDP data s :
  carried fuel (dpWrite fuel addr APnDP data s) s.
Proof.
  pose proof (dpWrite_wire fuel addr APnDP data s) as H.
  destruct (dpWrite fuel addr APnDP data s) as [[ok s']|]; cbn [carried].
  - destruct H as [P _]. eauto.
  - eauto.
Qed.

Lemma dpRead_carried fuel addr APnDP data s :
  carried fuel (dpRead fuel addr APnDP data s) s.
Proof.
  pose proof (dpRead_wire fuel addr APnDP data s) as H.
  destruct (dpRead fuel addr APnDP data s) as [[[ok w] s']|]; cbn [carried].
  - destruct H as [P _]. eauto.
  - eauto.
Qed.

Lemma dpSelect_carried fuel accessPort addr s :
  carried fuel (dpSelect fuel accessPort addr s) s.
Proof.
  destruct (Z.eq_dec (selectValue accessPort addr) (cache_select s))
    as [E|N].
  - rewrite (dpSelect_cached _ _ _ _ E). apply carried_ret.
  - pose proof (dpSelect_wire fuel accessPort addr s N) as H.
    destruct (dpSelect fuel accessPort addr s) as [[ok s']|]; cbn [carried].
    + destruct H as [P _]. eauto.
    + eauto.
Qed.

Lemma apWrite_carried fuel accessPort addr data s :
  carried fuel (apWrite fuel accessPort addr data s) s.
Proof.
  pose proof (apWrite_wire fuel accessPort addr data s) as H.
  destruct (apWrite fuel accessPort addr data s) as [[ok s']|];
    cbn [carried].
  - destruct H as [(_ & P & _)|[(_ & _ & P & _)|(_ & P & _)]]; eauto.
  - destruct H as [St|(_ & St)]; eauto.
Qed.

Lemma apRead_carried fuel accessPort addr data s :
  carried fuel (apRead fuel accessPort addr data s) s.
Proof.
  pose proof (apRead_wire fuel accessPort addr data s) as H.
  destruct (apRead fuel accessPort addr data s) as [[[ok w] s']|];
    cbn [carried].
  - destruct H as [(_ & P & _)|[(_ & _ & _ & P & _)|(_ & P & _)]]; eauto.
  - destruct H as [St|(_ & St)]; eauto.
Qed.

Lemma apCall_carried fuel accessPort addr c s :
  carried fuel (apCall fuel accessPort addr c s) s.
Proof.
  destruct c as [data|data]; cbn [apCall].
  - apply apWrite_carried.
  - pose proof (apRead_carried fuel accessPort addr data s) as H.
    destruct (apRead fuel accessPort addr data s) as [[[ok w] s']|];
      exact H.
Qed.

Lemma memStoreN_carried fuel addr data count s :
  carried fuel (memStoreN fuel addr data count s) s.
Proof.
  pose proof (memStoreN_wire fuel addr data count s) as H.
  destruct (memStoreN fuel addr data count s) as [[[|] s']|];
    cbn [carried].
  - destruct H as [_ P]. eauto.
  - destruct H as [(_ & [(_ & P)|P])|(k & _ & _ & P)]; eauto.
  - destruct H as [(_ & St)|[St|(k & _ & St)]]; eauto.
Qed.

Lemma memLoadN_carried fuel addr data count s :
  carried fuel (memLoadN fuel addr data count s) s.
Proof.
  pose proof (memLoadN_wire fuel addr data count s) as H.
  destruct (memLoadN fuel addr data count s) as [[[[|] data'] s']|];
    cbn [carried].
  - destruct H as [P _]. eauto.
  - destruct H as [[[(_ & P)|P] _]|(k & _ & P & _)]; eauto.
  - destruct H as [(_ & St)|[St|(k & data' & _ & St)]]; eauto.
Qed.

Lemma memLoad_carried fuel addr data s :
  carried fuel (memLoad fuel addr data s) s.
Proof.
  unfold memLoad.
  pose proof (memLoadN_carried fuel addr (fun _ => data) 1 s) as H.
  destruct (memLoadN fuel addr (fun _ => data) 1 s) as [[[ok buf] s']|];
    exact H.
Qed.

Lemma pollPowerUp_carried fuel retries :
  forall ctrlstat s, carried fuel (pollPowerUp fuel retries ctrlstat s) s.
Proof.
  induction retries as [|retries IH]; intros ctrlstat s; cbn [pollPowerUp].
  - apply carried_ret.
  - apply carried_bind; [apply dpRead_carried|].
    intros [ok c1] s1. destruct ok; cbn [negb]; [|apply carried_ret].
    destruct (_ =? _); [apply carried_ret|apply IH].
Qed.

Lemma preamble_realised c d l s0 :
  realised d c [DpInit] s0 (afterPreamble c d l s0) /\
  dataPin (afterPreamble c d l s0) = d /\
  clockPin (afterPreamble c d l s0) = c.
Proof.
  pose proof (preamble_gpio c d l s0) as G.
  assert (A : advance 209
                (recordDp DpInit
                   (set_cache_select 0xFFFFFFFF
                      (pinMode d INPUT_PULLUP
                         (pinMode c OUTPUT (set_config c d l s0)))))
                (afterPreamble c d l s0))
    by (unfold afterPreamble; advance_by).
  destruct A as (Hc & Hd & _ & _ & _ & Hl & _ & Hp).
  split; [|split; [exact Hd|exact Hc]].
  split; [exact Hl|]. apply onWire_one. split; [exact Hp|exact G].
Qed.

Lemma begin_wire fuel c d l junk s0 :
  match begin fuel c d l junk s0 with
  | Some (ok, s) =>
      exists txns,
        realised d c (DpInit :: txns) s0 s /\
        dataPin s = d /\ clockPin s = c
  | None => exists done, stalled fuel d c (DpInit :: done) s0
  end.
Proof.
  destruct (preamble_realised c d l s0) as (R0 & D0 & C0).
  unfold begin. cbv zeta. revert R0 D0 C0. unfold afterPreamble.
  match goal with
  | |- context [dpRead fuel IDCODE false junk ?a] => generalize a
  end.
  intros s2 R0 D0 C0.
  match goal with
  | |- match ?m with _ => _ end =>
      assert (C : carried fuel m s2); [|destruct m as [[ok s]|]]
  end.
  - apply carried_bind; [apply dpRead_carried|].
    intros [ok idcode] s3.
    destruct ok; cbn [negb]; [|apply carried_log_end, carried_ret].
    destruct (negb _); [apply carried_log_end, carried_ret|].
    apply (carried_log_start fuel _ s3 LOG_NORMAL
             "Found ARM processor debug port (IDCODE: %08x)" [idcode]).
    apply carried_bind; [apply dpWrite_carried|].
    intros ok2 s4. destruct ok2; cbn [negb]; [|apply carried_ret].
    apply carried_bind; [apply pollPowerUp_carried|].
    intros [|retries ctrlstat] s5; [apply carried_ret|].
    destruct (negb (nonzero retries));
      [apply carried_log_end, carried_ret|].
    apply carried_bind; [apply apRead_carried|].
    intros [ok3 idr] s6. destruct ok3; cbn [negb]; [|apply carried_ret].
    destruct (negb _); [apply carried_log_end, carried_ret|].
    apply carried_bind; [apply apWrite_carried|].
    intros ok4 s7. destruct ok4; apply carried_ret.
  - destruct C as (txns & R & Hd & Hc). rewrite D0, C0 in R.
    exists txns. split; [|split; congruence].
    apply (realised_app d c [DpInit] txns s0 s2); assumption.
  - destruct C as (done & p1 & o1 & W & H). rewrite D0, C0 in *.
    exists done, p1, o1. split; [|exact H].
    destruct R0 as [_ W0].
    apply (onWire_app d c [DpInit] done _ _ _ _ _ _ W0 W).
Qed.

Lemma lastSelect_since l r :
  lastSelect (l ++ DpInit :: r) = lastSelect (DpInit :: r).
Proof. unfold lastSelect. rewrite fold_left_app. reflexivity. Qed.

Lemma reachable_step fuel {A : Type} (m : M A) s r s' :
  carried fuel m s -> m = Some (r, s') ->
  (exists s0 txns,
      realised (dataPin s) (clockPin s) (DpInit :: txns) s0 s) ->
  exists s0 txns,
    realised (dataPin s') (clockPin s') (DpInit :: txns) s0 s'.
Proof.
  intros C -> (s0 & txns & R). destruct C as (t & R' & -> & ->).
  exists s0, (txns ++ t).
  apply (realised_app _ _ (DpInit :: txns) t s0 s); assumption.
Qed.

Lemma reachable_wire s :
  Reachable s ->
  exists s0 txns, realised (dataPin s) (clockPin s) (DpInit :: txns) s0 s.
Proof.
  induction 1 as [fuel c d l junk s0 ok s E
                 |fuel addr data count s ok s' _ IH E
                 |fuel addr data count s r s' _ IH E
                 |fuel addr data s ok s' _ IH E
                 |fuel addr data s r s' _ IH E
                 |fuel accessPort addr c s ok s' _ IH E
                 |fuel accessPort addr s ok s' _ IH E].
  - pose proof (begin_wire fuel c d l junk s0) as H. rewrite E in H.
    destruct H as (txns & R & -> & ->). eauto.
  - eapply reachable_step; [apply memStoreN_carried|exact E|exact IH].
  - eapply reachable_step; [apply memLoadN_carried|exact E|exact IH].
  - eapply reachable_step; [apply memStoreN_carried|exact E|exact IH].
  - eapply reachable_step; [apply memLoad_carried|exact E|exact IH].
  - eapply reachable_step; [apply apCall_carried|exact E|exact IH].
  - eapply reachable_step; [apply dpSelect_carried|exact E|exact IH].
Qed.

(** ** Two accesses in a row *)

Lemma apCall_wire fuel accessPort addr c s ok s' :
  apCall fuel accessPort addr c s = Some (ok, s') ->
  exists acc,
    isSelectWrite acc = false /\
    ((selectValue accessPort addr = cache_select s /\
      performed [acc] s s' /\ cache_select s' = cache_select s) \/
     (selectValue accessPort addr <> cache_select s /\ ok = false /\
      performed [DpW SELECT false (selectValue accessPort addr) false] s s' /\
      cache_select s' = cache_select s) \/
     (selectValue accessPort addr <> cache_select s /\
      performed [DpW SELECT false (selectValue accessPort addr) true; acc]
                s s' /\
      cache_select s' = selectValue accessPort addr)).
Proof.
  destruct c as [data|data]; cbn [apCall]; intros E.
  - pose proof (apWrite_wire fuel accessPort addr data s) as H.
    rewrite E in H. exists (DpW addr true data ok).
    split; [reflexivity|exact H].
  - pose proof (apRead_wire fuel accessPort addr data s) as H.
    destruct (apRead fuel accessPort addr data s) as [[[ok' w] s1]|];
      [|discriminate].
    injection E as <- <-. exists (DpR addr true w ok').
    split; [reflexivity|].
    destruct H as [H|[(N & Hok & _ & P & Hc)|H]].
    + left. exact H.
    + right. left. auto.
    + right. right. exact H.
Qed.

Lemma two_accesses_wire fuel accessPort addr1 addr2 c1 c2 s ok1 s1 ok2 s2 :
  Z.land addr2 0xF0 = Z.land addr1 0xF0 ->
  apCall fuel accessPort addr1 c1 s = Some (ok1, s1) ->
  apCall fuel accessPort addr2 c2 s1 = Some (ok2, s2) ->
  exists txns,
    performed txns s s2 /\
    ((selectValue accessPort addr1 = cache_select s /\
      selectWrites txns = []) \/
     (selectValue accessPort addr1 <> cache_select s /\
      selectWrites txns
      = [DpW SELECT false (selectValue accessPort addr1) true]) \/
     (selectValue accessPort addr1 <> cache_select s /\ ok1 = false /\
      exists ok',
        selectWrites txns
        = [DpW SELECT false (selectValue accessPort addr1) false;
           DpW SELECT false (selectValue accessPort addr1) ok'])).
Proof.
  intros Hbank E1 E2.
  destruct (apCall_wire _ _ _ _ _ _ _ E1) as (a1 & Ha1 & H1).
  destruct (apCall_wire _ _ _ _ _ _ _ E2) as (a2 & Ha2 & H2).
  rewrite (selectValue_bank accessPort addr2 addr1 Hbank) in H2.
  set (v := selectValue accessPort addr1) in *.
  assert (Hv : isSelectWrite (DpW SELECT false v true) = true)
    by reflexivity.
  assert (Hv' : isSelectWrite (DpW SELECT false v false) = true)
    by reflexivity.
  destruct H1 as [(E & P1 & Hc1)|[(N & -> & P1 & Hc1)|(N & P1 & Hc1)]].
  - destruct H2 as [(_ & P2 & _)|[(N2 & _)|(N2 & _)]];
      [|congruence|congruence].
    exists ([a1] ++ [a2]). split; [eapply performed_app; eassumption|].
    left. split; [exact E|]. cbn [app selectWrites filter].
    now rewrite Ha1, Ha2.
  - destruct H2 as [(E2' & _)|[(_ & _ & P2 & _)|(_ & P2 & _)]];
      [congruence| |].
    + exists ([DpW SELECT false v false] ++ [DpW SELECT false v false]).
      split; [eapply performed_app; eassumption|].
      right. right. split; [exact N|]. split; [reflexivity|].
      exists false. reflexivity.
    + exists ([DpW SELECT false v false] ++ [DpW SELECT false v true; a2]).
      split; [eapply performed_app; eassumption|].
      right. right. split; [exact N|]. split; [reflexivity|].
      exists true. cbn [app selectWrites filter].
      rewrite Hv, Hv', Ha2. reflexivity.
  - destruct H2 as [(_ & P2 & _)|[(N2 & _)|(N2 & _)]];
      [|congruence|congruence].
    exists ([DpW SELECT false v true; a1] ++ [a2]).
    split; [eapply performed_app; eassumption|].
    right. left. split; [exact N|]. cbn [app selectWrites filter].
    rewrite Hv, Ha1, Ha2. reflexivity.
Qed.

(** * The claims about transactions, on the wire *)

(** C3 (as amended).  A [dpRead] that returns false was ended by the
    first acknowledge that is not WAIT, in some attempt [k], after
    which it took no further attempt.  If that acknowledge is not OK
    (FAULT, or a protocol error) the out-parameter is as the caller
    passed it.  If it is OK, the parity bit did not match, and the
    out-parameter holds the 32-bit word received in that attempt. *)
Theorem dpRead_failure_data fuel addr APnDP data s data' s' :
  dpRead fuel addr APnDP data s = Some ((false, data'), s') ->
  exists k,
    (k < fuel)%nat /\
    answeredAt s k /\
    pulses s'
    = (pulses s + 21 * k + if (ackAt s k =? 1)%Z then 54 else 21)%nat /\
    ((ackAt s k <> 1 /\ data' = data) \/ parityErrorAt s k data').
Proof.
  intros E.
  destruct (first_answer s fuel) as [Hall|(k & Hk & Ha)].
  { rewrite (dpRead_stalls _ _ _ _ _ Hall) in E. discriminate. }
  destruct (dpRead_full fuel addr APnDP data s k Hk Ha) as (s1 & E1 & T & _).
  exists k. split; [exact Hk|]. split; [exact Ha|].
  unfold parityErrorAt.
  remember (lineBits (dataPin s) (pulses s + 21 * k + 12) 32) as w eqn:Ew.
  remember (lineBits (dataPin s) (pulses s + 21 * k + 44) 1) as par eqn:Ep.
  rewrite E1 in E. injection E as Eok Ed Es. subst s1.
  destruct T as (_ & _ & _ & _ & _ & _ & _ & Hp).
  split; [rewrite Hp; lia|].
  destruct (Z.eqb_spec (ackAt s k) 1) as [A|A].
  - right. cbn [andb] in Eok. subst data'.
    split; [exact A|]. split; [reflexivity|].
    apply Z.eqb_neq. exact Eok.
  - left. split; [exact A|]. now subst data'.
Qed.

(** C6 (as amended).  [dpSelect] computes
    [(accessPort << 24) | (addr & 0xF0)] in 32 bits.  With that value in
    the cache it returns true and does nothing.  With another value in
    the cache it makes one write of that value to SELECT on the wire:
    the cache takes the value if the write is acknowledged OK and stays
    as it was if not; it fails to return only if the target answers
    WAIT for ever.  Two accesses in a row to one port and bank put on
    the wire no SELECT write if the selection is cached, one if it is
    not and the write is acknowledged OK, and two if the first is
    refused, the second access then writing SELECT again.  In every
    state a link reaches after [begin], the cache is the value of the
    last SELECT write acknowledged OK on the wire since [begin] (the
    invalid value if there is none). *)
Theorem select_cache_invariant fuel accessPort addr s :
  let select := Z.lor (u32 (Z.shiftl accessPort 24)) (Z.land addr 0xF0) in
  let d := dataPin s in
  let c := clockPin s in
  (select = cache_select s ->
   dpSelect fuel accessPort addr s = Some (true, s)) /\
  (select <> cache_select s ->
   match dpSelect fuel accessPort addr s with
   | Some (ok, s') =>
       realised d c [DpW SELECT false select ok] s s' /\
       cache_select s' = (if ok then select else cache_select s)
   | None => stalled fuel d c [] s
   end) /\
  (forall addr2 c1 c2 ok1 s1 ok2 s2,
      Z.land addr2 0xF0 = Z.land addr 0xF0 ->
      apCall fuel accessPort addr c1 s = Some (ok1, s1) ->
      apCall fuel accessPort addr2 c2 s1 = Some (ok2, s2) ->
      exists txns,
        realised d c txns s s2 /\
        ((select = cache_select s /\ selectWrites txns = []) \/
         (select <> cache_select s /\
          selectWrites txns = [DpW SELECT false select true]) \/
         (select <> cache_select s /\ ok1 = false /\
          exists ok',
            selectWrites txns
            = [DpW SELECT false select false;
               DpW SELECT false select ok']))) /\
  (Reachable s ->
   exists s0 txns,
     realised d c (DpInit :: txns) s0 s /\
     cache_select s = lastSelect (DpInit :: txns)).
Proof.
  intros select d c.
  change select with (selectValue accessPort addr). clear select.
  split; [|split; [|split]].
  - apply dpSelect_cached.
  - intros N. pose proof (dpSelect_wire fuel accessPort addr s N) as H.
    destruct (dpSelect fuel accessPort addr s) as [[ok s']|]; [|exact H].
    destruct H as [(R & _) Hc]. split; assumption.
  - intros addr2 c1 c2 ok1 s1 ok2 s2 Hbank E1 E2.
    destruct (two_accesses_wire _ _ _ _ _ _ _ _ _ _ _ Hbank E1 E2)
      as (txns & (R & _) & H).
    exists txns. split; [exact R|exact H].
  - intros HR. destruct (reachable_wire s HR) as (s0 & txns & R).
    exists s0, txns. split; [exact R|].
    rewrite (reachable_coherent s HR). destruct R as [-> _].
    apply lastSelect_since.
Qed.

(** C8.  The register writes of the vectorised [memStore], as calls of
    [apWrite] and as what they put on the wire.  The calls are one
    write of [addr] to TAR, then writes of the words to DRW in buffer
    order, and no other.  On the wire there is first a write of 0 to
    SELECT, if port 0, bank 0 is not the cached selection, then the
    TAR write, then the DRW writes.  If every transaction is
    acknowledged OK there are exactly [count] DRW writes and the call
    returns true.  The first transaction that is not acknowledged OK is
    the last one and the call returns false: if it is the DRW write of
    word [k], exactly [k] DRW writes were acknowledged before it.  The
    call fails to return only if the target answers WAIT for ever to
    one of these transactions. *)
Theorem memStoreN_writes fuel addr data count s :
  let d := dataPin s in
  let c := clockPin s in
  let writes k :=
    selectMemory s ++ DpW MEM_TAR true addr true :: wordsWritten data 0 k in
  match memStoreN fuel addr data count s with
  | Some (true, s') =>
      apLog s' = apLog s ++ ApW 0 MEM_TAR addr true :: drwWrites data 0 count /\
      realised d c (writes count) s s'
  | Some (false, s') =>
      (apLog s' = apLog s ++ [ApW 0 MEM_TAR addr false] /\
       ((cache_select s <> 0 /\
         realised d c [DpW SELECT false 0 false] s s') \/
        realised d c (selectMemory s ++ [DpW MEM_TAR true addr false]) s s'))
      \/
      exists k, (k < count)%nat /\
        apLog s' = apLog s ++ ApW 0 MEM_TAR addr true
                   :: drwWrites data 0 k ++ [ApW 0 MEM_DRW (data k) false] /\
        realised d c (writes k ++ [DpW MEM_DRW true (data k) false]) s s'
  | None =>
      (cache_select s <> 0 /\ stalled fuel d c [] s) \/
      stalled fuel d c (selectMemory s) s \/
      exists k, (k < count)%nat /\ stalled fuel d c (writes k) s
  end.
Proof.
  intros d c writes. subst d c writes.
  pose proof (memStoreN_wire fuel addr data count s) as H.
  destruct (memStoreN fuel addr data count s) as [[[|] s']|].
  - destruct H as (Ha & R & _). split; assumption.
  - destruct H as [(Ha & [(N & R & _)|(R & _)])|(k & Hk & Ha & R & _)].
    + left. split; [exact Ha|]. left. split; assumption.
    + left. split; [exact Ha|]. right. exact R.
    + right. exists k. split; [exact Hk|]. split; assumption.
  - exact H.
Qed.

(** C10.  The value [dpSelect] computes has its low four bits clear, so
    it is never the invalid value [0xFFFFFFFF] that [begin] stores in
    the cache.  A [dpSelect] that finds the invalid value in the cache
    therefore always makes the SELECT write on the wire and never
    returns without it; it fails to return only if the target answers
    WAIT for ever.  A [begin] that returns either returned false with
    no SELECT write among its transactions on the wire, the cache still
    invalid, or put the write of 0xF0 to SELECT on the wire as the
    first of its SELECT writes. *)
Theorem select_never_sentinel fuel accessPort addr s :
  let select := Z.lor (u32 (Z.shiftl accessPort 24)) (Z.land addr 0xF0) in
  Z.land select 0xF = 0 /\
  select <> 0xFFFFFFFF /\
  (cache_select s = 0xFFFFFFFF ->
   match dpSelect fuel accessPort addr s with
   | Some (ok, s') =>
       realised (dataPin s) (clockPin s) [DpW SELECT false select ok] s s' /\
       cache_select s' = (if ok then select else 0xFFFFFFFF)
   | None => stalled fuel (dataPin s) (clockPin s) [] s
   end) /\
  (forall c d l junk ok s1,
      begin fuel c d l junk s = Some (ok, s1) ->
      exists txns,
        realised d c (DpInit :: txns) s s1 /\
        ((ok = false /\ selectWrites txns = [] /\
          cache_select s1 = 0xFFFFFFFF) \/
         exists pre okS post,
           selectWrites pre = [] /\
           txns = pre ++ DpW SELECT false 0xF0 okS :: post)).
Proof.
  intros select.
  change select with (selectValue accessPort addr). clear select.
  split; [apply selectValue_low|].
  split; [apply selectValue_not_sentinel|]. split.
  - intros C.
    assert (N : selectValue accessPort addr <> cache_select s).
    { rewrite C. apply selectValue_not_sentinel. }
    pose proof (dpSelect_wire fuel accessPort addr s N) as H.
    destruct (dpSelect fuel accessPort addr s) as [[ok s']|]; [|exact H].
    destruct H as [(R & _) Hc]. split; [exact R|].
    rewrite Hc, C. reflexivity.
  - intros c d l junk ok s1 E.
    pose proof (begin_wire fuel c d l junk s) as H. rewrite E in H.
    destruct H as (txns & R & _). exists txns. split; [exact R|].
    destruct R as [Hl _].
    destruct (begin_first_select _ _ _ _ _ _ _ _ E)
      as [(Hok & pre & Hpre & Hl' & _ & Hc)|(pre & okS & post & Hpre & Hl')].
    + left. split; [exact Hok|]. split; [|exact Hc].
      rewrite Hl in Hl'. apply app_inv_head in Hl'.
      injection Hl' as ->. exact Hpre.
    + right. exists pre, okS, post. split; [exact Hpre|].
      rewrite Hl in Hl'. apply app_inv_head in Hl'.
      injection Hl' as ->. reflexivity.
Qed.

(** X7.  The vectorised [memLoad] on the wire: a write of 0 to SELECT
    if port 0, bank 0 is not the cached selection, the write of [addr]
    to TAR, then reads of DRW.  When it returns true there were exactly
    [count] reads, all acknowledged OK with matching parity, the first
    [count] words of the buffer are the words the target sent, in
    order, and the rest of the buffer is untouched.  The first
    transaction that is not acknowledged OK, or whose parity does not
    match, is the last one and the call returns false: the buffer is
    untouched if it is the SELECT or the TAR write, and untouched after
    word [k] if it is the read of word [k].  The call fails to return
    only if the target answers WAIT for ever to one of these
    transactions. *)
Theorem memLoadN_reads fuel addr data count s :
  let d := dataPin s in
  let c := clockPin s in
  let reads data' k :=
    selectMemory s ++ DpW MEM_TAR true addr true :: wordsRead data' 0 k in
  match memLoadN fuel addr data count s with
  | Some ((true, data'), s') =>
      realised d c (reads data' count) s s' /\
      forall j, (count <= j)%nat -> data' j = data j
  | Some ((false, data'), s') =>
      (((cache_select s <> 0 /\
         realised d c [DpW SELECT false 0 false] s s') \/
        realised d c (selectMemory s ++ [DpW MEM_TAR true addr false]) s s') /\
       forall j, data' j = data j)
      \/
      exists k, (k < count)%nat /\
        realised d c (reads data' k ++ [DpR MEM_DRW true (data' k) false])
                 s s' /\
        forall j, (k < j)%nat -> data' j = data j
  | None =>
      (cache_select s <> 0 /\ stalled fuel d c [] s) \/
      stalled fuel d c (selectMemory s) s \/
      exists k data', (k < count)%nat /\ stalled fuel d c (reads data' k) s
  end.
Proof.
  intros d c reads. subst d c reads.
  pose proof (memLoadN_wire fuel addr data count s) as H.
  destruct (memLoadN fuel addr data count s) as [[[[|] data'] s']|].
  - destruct H as ((R & _) & Hout). split; assumption.
  - destruct H as [([(N & R & _)|(R & _)] & Hout)|(k & Hk & (R & _) & Hout)].
    + left. split; [left; split; assumption|exact Hout].
    + left. split; [right; exact R|exact Hout].
    + right. exists k. split; [exact Hk|]. split; assumption.
  - exact H.
Qed.

(** X8.  When [begin] returns true, the pins, the log level and the
    state of [Serial] are those of the call, the SELECT cache holds 0,
    and what took place on the wire is exactly: the preamble; the read
    of IDCODE, acknowledged OK with a value that passes the part-number
    test; the power-up request written to CTRLSTAT; the reads of
    CTRLSTAT of the polling, which ended either at a read, one of the
    first three, that showed both acknowledge bits, or after four reads
    none of which did; the write of 0xF0 to SELECT; the read of IDR,
    whose low four bits are 1; the write of 0 to SELECT; and the write
    of 0x52 to CSW; every one of them acknowledged OK, the values read
    being those the target sent. *)
Theorem begin_success fuel c d l junk s0 s :
  begin fuel c d l junk s0 = Some (true, s) ->
  config s = (c, d, l, serialReady s0) /\
  cache_select s = 0 /\
  exists idcode polls idr,
    partNumberOk idcode = true /\
    Z.land idr 0xF = 1 /\
    forallb isPoll polls = true /\
    (((List.length polls <= 3)%nat /\
      exists front last,
        polls = front ++ [last] /\
        forallb unpowered front = true /\ powered last = true) \/
     (List.length polls = 4%nat /\ forallb unpowered polls = true)) /\
    realised d c
             ([DpInit; DpR IDCODE false idcode true;
               DpW CTRLSTAT false 0x50000000 true]
              ++ polls
              ++ [DpW SELECT false 0xF0 true; DpR MEM_IDR true idr true;
                  DpW SELECT false 0 true; DpW MEM_CSW true 0x52 true])
             s0 s /\
    apLog s = apLog s0 ++ [ApR 0 MEM_IDR idr true; ApW 0 MEM_CSW 0x52 true].
Proof.
  intros E.
  pose proof (begin_wire fuel c d l junk s0) as W. rewrite E in W.
  destruct W as (txns & R & _).
  destruct (begin_trace _ _ _ _ _ _ _ _ E)
    as (Hcfg & idcode & ok1 & rest & Hl & [(_ & C & _)|(-> & Hpart & H)]);
    [discriminate C|].
  destruct (H eq_refl)
    as (Hc & polls & idr & Hidr & Hall & Hshape & -> & Ha).
  split; [exact Hcfg|]. split; [exact Hc|].
  exists idcode, polls, idr.
  split; [exact Hpart|]. split; [exact Hidr|]. split; [exact Hall|].
  split; [exact Hshape|]. split; [|exact Ha].
  assert (Et : DpInit :: txns
               = [DpInit; DpR IDCODE false idcode true;
                  DpW CTRLSTAT false 0x50000000 true]
                 ++ polls
                 ++ [DpW SELECT false 0xF0 true; DpR MEM_IDR true idr true;
                     DpW SELECT false 0 true; DpW MEM_CSW true 0x52 true]).
  { destruct R as [Hl' _]. rewrite Hl in Hl'.
    apply app_inv_head in Hl'. symmetry. exact Hl'. }
  rewrite <- Et. exact R.
Qed.

(** X9.  Whatever [begin] returns, it has set the pins and the log
    level, and what took place on the wire starts with the preamble
    and the read of IDCODE.  If that read is not acknowledged OK with
    matching parity, or the value the target sent does not pass the
    part-number test, [begin] returns false and nothing else took
    place on the wire, the SELECT cache being invalid; and only when
    the read succeeded with a value that passes the test does any
    other transaction follow. *)
Theorem begin_identifies_first fuel c d l junk s0 ok s :
  begin fuel c d l junk s0 = Some (ok, s) ->
  config s = (c, d, l, serialReady s0) /\
  exists idcode ok1 rest,
    realised d c (DpInit :: DpR IDCODE false idcode ok1 :: rest) s0 s /\
    (ok1 && partNumberOk idcode = false ->
     ok = false /\ rest = [] /\ apLog s = apLog s0 /\
     cache_select s = 0xFFFFFFFF) /\
    (rest <> [] -> ok1 = true /\ partNumberOk idcode = true).
Proof.
  intros E.
  pose proof (begin_wire fuel c d l junk s0) as W. rewrite E in W.
  destruct W as (txns & R & _).
  destruct (begin_trace _ _ _ _ _ _ _ _ E)
    as (Hcfg & idcode & ok1 & rest & Hl & H).
  split; [exact Hcfg|]. exists idcode, ok1, rest.
  assert (Et : DpInit :: txns = DpInit :: DpR IDCODE false idcode ok1 :: rest).
  { destruct R as [Hl' _]. rewrite Hl in Hl'.
    apply app_inv_head in Hl'. symmetry. exact Hl'. }
  rewrite Et in R. split; [exact R|].
  destruct H as [(Hbad & -> & -> & Ha & Hc)|(-> & Hpart & _)].
  - split; [auto|]. intros C. contradiction C. reflexivity.
  - split; [|auto]. rewrite Hpart. discriminate.
Qed.


End Proofs.

(** * Scenarios *)

Lemma alwaysWAIT_ack level k : ackAt (env := waitingTarget) (ready level) k = 2.
Proof.
  unfold ackAt. cbn [lineBits dataPin pulses ready line waitingTarget].
  replace (0 + 21 * k + 9)%nat with (9 + k * 21)%nat by lia.
  replace (S (9 + k * 21)) with (10 + k * 21)%nat by lia.
  replace (S (10 + k * 21)) with (11 + k * 21)%nat by lia.
  rewrite !Nat.Div0.mod_add. reflexivity.
Qed.

(** C1 (the code at the failing inputs).  With a log level that prints
    errors: a write and a read whose first ten attempts are answered
    WAIT go on to an eleventh attempt and succeed, printing nothing; the
    same with nine WAITs; and against a target that answers WAIT for
    ever neither returns, however many attempts the fuel allows. *)
Theorem wait_budget_not_enforced :
  outcome (dpWrite (env := target (tenWaits ++ writeOK))
                   11 CTRLSTAT false 0x50000000 (ready ERROR_LEVEL))
  = Some (true, []) /\
  outcome (dpRead (env := target (tenWaits ++ readOK 0x2BA01477))
                  11 IDCODE false 0 (ready ERROR_LEVEL))
  = Some ((true, 0x2BA01477), []) /\
  outcome (dpWrite (env := target (nineWaits ++ writeOK))
                   10 CTRLSTAT false 0x50000000 (ready ERROR_LEVEL))
  = Some (true, []) /\
  (forall fuel,
      dpWrite (env := waitingTarget)
              fuel CTRLSTAT false 0x50000000 (ready ERROR_LEVEL) = None) /\
  (forall fuel,
      dpRead (env := waitingTarget)
             fuel IDCODE false 0 (ready ERROR_LEVEL) = None).
Proof.
  split; [vm_compute; reflexivity|].
  split; [vm_compute; reflexivity|].
  split; [vm_compute; reflexivity|].
  split; intros fuel.
  - apply dpWrite_all_WAIT, alwaysWAIT_ack.
  - apply dpRead_all_WAIT, alwaysWAIT_ack.
Qed.

(** C2 (the code at the failing inputs).  Against a target that never
    acknowledges power-up, [begin] reads CTRLSTAT four times and then
    goes on to a successful end without reporting anything; against one
    that acknowledges in the fourth read, it reports that the debug port
    failed to power on and returns false. *)
Theorem power_up_poll_miscounts :
  outcome neverPoweredBegin
  = Some (true,
          [("Found ARM processor debug port (IDCODE: %08x)", [0x2BA01477])])
  /\
  dpLog (final neverPoweredBegin fresh)
  = [DpInit;
     DpR IDCODE false 0x2BA01477 true;
     DpW CTRLSTAT false 0x50000000 true;
     DpR CTRLSTAT false 0 true; DpR CTRLSTAT false 0 true;
     DpR CTRLSTAT false 0 true; DpR CTRLSTAT false 0 true;
     DpW SELECT false 0xF0 true;
     DpR MEM_IDR true 0x24770011 true;
     DpW SELECT false 0 true;
     DpW MEM_CSW true 0x52 true]
  /\
  outcome poweredLateBegin
  = Some (false,
          [("Found ARM processor debug port (IDCODE: %08x)", [0x2BA01477]);
           ("ARMDebug: Debug port failed to power on (CTRLSTAT: %08x)",
            [0xF0000000])])
  /\
  dpLog (final poweredLateBegin fresh)
  = [DpInit;
     DpR IDCODE false 0x2BA01477 true;
     DpW CTRLSTAT false 0x50000000 true;
     DpR CTRLSTAT false 0 true; DpR CTRLSTAT false 0 true;
     DpR CTRLSTAT false 0 true; DpR CTRLSTAT false 0xF0000000 true].
Proof. repeat split; vm_compute; reflexivity. Qed.

(** C3 (counterexample).  A read whose parity check fails returns false
    and leaves the word it received, not the caller's 77, in the
    out-parameter. *)
Lemma dpRead_failure_returns_word :
  option_map fst
    (dpRead (env := target (readBadParity 0x1234))
            1 RDBUFF false 77 (ready ERROR_LEVEL))
  = Some (false, 0x1234)
  /\ 0x1234 <> 77.
Proof. split; [vm_compute; reflexivity|discriminate]. Qed.

(** ** The general theorems at concrete inputs *)

Lemma evenParity_popcount_witness :
  evenParity 0xE79E = Nat.odd (popcount 32 0xE79E) /\
  Z.b2z (evenParity 0xE79E) = Z.of_nat (popcount 32 0xE79E mod 2).
Proof. apply (evenParity_popcount 0xE79E). lia. Defined.

Lemma dpRead_parity_error_witness :
  exists s5 s',
    badParityRead = Some ((false, 0x1234), s') /\
    advance (21 * 0 + 45) (ready ERROR_LEVEL) s5 /\
    s' = recordDp (DpR RDBUFF false 0x1234 false)
           (log ERROR_LEVEL
                "PARITY ERROR during read (addr=%x APnDP=%d data=%08x)"
                [RDBUFF; Z.b2z false; 0x1234]
                (wireWrite (env := target (readBadParity 0x1234)) 0 8
                   (wireWriteTurnaround
                      (env := target (readBadParity 0x1234)) s5))) /\
    gpio s' = gpio s5 ++ turnaroundOps 14 13 ++ idleOps 14 13 /\
    pulses s' = (0 + 21 * 0 + 54)%nat.
Proof.
  apply (dpRead_parity_error (env := target (readBadParity 0x1234)) 1 RDBUFF false 77 (ready ERROR_LEVEL)
           0 0x1234).
  - lia.
  - intros j Hj. lia.
  - unfold parityErrorAt. split; [vm_compute; reflexivity|].
    split; [vm_compute; reflexivity|]. vm_compute. discriminate.
Defined.

Lemma single_word_delegates_witness :
  memStore (env := target (writeOK ++ writeOK))
           1 0x20000000 0x11 (ready ERROR_LEVEL)
  = memStoreN (env := target (writeOK ++ writeOK))
              1 0x20000000 threeWords 1 (ready ERROR_LEVEL)
  /\
  match memLoadN (env := target (writeOK ++ writeOK))
                 1 0x20000000 threeWords 1 (ready ERROR_LEVEL) with
  | None =>
      memLoad (env := target (writeOK ++ writeOK))
              1 0x20000000 0x11 (ready ERROR_LEVEL) = None
  | Some ((ok, buf'), s') =>
      memLoad (env := target (writeOK ++ writeOK))
              1 0x20000000 0x11 (ready ERROR_LEVEL)
      = Some ((ok, buf' 0%nat), s')
      /\ forall i, i <> 0%nat -> buf' i = threeWords i
  end.
Proof.
  apply (single_word_delegates (env := target (writeOK ++ writeOK)) 1 0x20000000 0x11 threeWords
           (ready ERROR_LEVEL)).
  reflexivity.
Defined.


(** ** The further properties at concrete inputs *)

Lemma wireRead_bits_witness :
  let v := fst (wireRead (env := target ACK_WAIT) 3 (ready ERROR_LEVEL)) in
  let s' := snd (wireRead (env := target ACK_WAIT) 3 (ready ERROR_LEVEL)) in
  (forall i, (i < 3)%nat ->
             Z.testbit v (Z.of_nat i)
             = @line (target ACK_WAIT) (dataPin (ready ERROR_LEVEL))
                     (pulses (ready ERROR_LEVEL) + i)) /\
  0 <= v < 2 ^ Z.of_nat 3 /\
  gpio s' = gpio (ready ERROR_LEVEL)
            ++ clockOps (clockPin (ready ERROR_LEVEL)) 3 /\
  advance 3 (ready ERROR_LEVEL) s'.
Proof.
  apply (wireRead_bits (env := target ACK_WAIT) 3 (ready ERROR_LEVEL)).
  lia.
Defined.

Lemma dpWrite_outcome_witness :
  exists s',
    dpWrite (env := target writeOK)
            1 CTRLSTAT false 0x50000000 (ready ERROR_LEVEL)
    = Some (true, s') /\
    transacted (DpW CTRLSTAT false 0x50000000 true) 54
               (ready ERROR_LEVEL) s'.
Proof.
  assert (Ha : answeredAt (env := target writeOK) (ready ERROR_LEVEL) 0).
  { split; [intros j Hj; lia|vm_compute; discriminate]. }
  pose proof (dpWrite_outcome (env := target writeOK)
                1 CTRLSTAT false 0x50000000 (ready ERROR_LEVEL) 0
                (Nat.lt_0_succ 0) Ha) as H.
  cbv zeta in H. destruct H as (s' & E & T & _).
  exists s'. split; [exact E|exact T].
Defined.

Lemma dpRead_outcome_witness :
  exists s',
    dpRead (env := target (readOK 0x2BA01477))
           1 IDCODE false 0 (ready ERROR_LEVEL)
    = Some ((true, 0x2BA01477), s') /\
    transacted (DpR IDCODE false 0x2BA01477 true) 54
               (ready ERROR_LEVEL) s'.
Proof.
  assert (Ha : answeredAt (env := target (readOK 0x2BA01477))
                          (ready ERROR_LEVEL) 0).
  { split; [intros j Hj; lia|vm_compute; discriminate]. }
  pose proof (dpRead_outcome (env := target (readOK 0x2BA01477))
                1 IDCODE false 0 (ready ERROR_LEVEL) 0
                (Nat.lt_0_succ 0) Ha) as H.
  cbv zeta in H. destruct H as (s' & E & T & _).
  exists s'. split; [exact E|exact T].
Defined.

Lemma dp_returns_iff_answered_witness :
  exists r,
    dpWrite (env := target answerFAULT)
            1 CTRLSTAT false 0x50000000 (ready ERROR_LEVEL) = Some r.
Proof.
  destruct (dp_returns_iff_answered (env := target answerFAULT)
              1 CTRLSTAT false 0x50000000 (ready ERROR_LEVEL))
    as [[_ H] _].
  apply H. exists 0%nat. split; [lia|].
  split; [intros j Hj; lia|vm_compute; discriminate].
Defined.

Lemma memory_operations_keep_config_witness :
  config (final storeThree fresh) = (13, 14, TRACE_LEVEL, true).
Proof.
  destruct (memory_operations_keep_config
              (env := target (writeOK ++ writeOK ++ writeOK ++ writeOK))
              1 0x20000000 (ready TRACE_LEVEL)) as (H & _).
  apply (H threeWords 3%nat true (final storeThree fresh)).
  vm_compute. reflexivity.
Defined.

Lemma verbosity_does_not_interfere_witness :
  sameRun (dpRead (env := target (readOK 0x2BA01477))
                  1 IDCODE false 0 (ready ERROR_LEVEL))
          (dpRead (env := target (readOK 0x2BA01477))
                  1 IDCODE false 0 (ready TRACE_LEVEL)) /\
  sameRun (begin (env := target healthy) 1 13 14 ERROR_LEVEL 0
                 (ready ERROR_LEVEL))
          (begin (env := target healthy) 1 13 14 TRACE_LEVEL 0
                 (ready TRACE_LEVEL)).
Proof.
  assert (H : sameWire (ready ERROR_LEVEL) (ready TRACE_LEVEL))
    by (repeat split).
  split.
  - destruct (verbosity_does_not_interfere
                (env := target (readOK 0x2BA01477))
                1 (ready ERROR_LEVEL) (ready TRACE_LEVEL) H)
      as (_ & Hr & _).
    apply Hr.
  - destruct (verbosity_does_not_interfere
                (env := target healthy)
                1 (ready ERROR_LEVEL) (ready TRACE_LEVEL) H)
      as (_ & _ & _ & _ & _ & _ & Hb).
    apply Hb.
Defined.

Lemma evenParity_detects_single_flips_witness :
  evenParity (Z.lxor 0xE79E 0x2BA01477)
  = xorb (evenParity 0xE79E) (evenParity 0x2BA01477) /\
  (forall i, 0 <= i < 32 ->
             evenParity (Z.lxor 0xE79E (2 ^ i)) = negb (evenParity 0xE79E)).
Proof.
  apply (evenParity_detects_single_flips 0xE79E 0x2BA01477); lia.
Defined.

Lemma transaction_trace_witness :
  let s := ready ERROR_LEVEL in
  let d := dataPin s in
  let c := clockPin s in
  (exists ok s',
      dpWrite (env := target (answerWAIT ++ writeOK))
              2 CTRLSTAT false 0x50000000 s = Some (ok, s') /\
      gpio s' = gpio s
                ++ List.concat
                     (repeat (waitOps d c (packHeader CTRLSTAT false false)) 1)
                ++ attemptOps d c (packHeader CTRLSTAT false false)
                ++ turnaroundOps d c
                ++ (if ackAt (env := target (answerWAIT ++ writeOK)) s 1 =? 1
                    then writeOps d c 0x50000000 32
                         ++ bitOps d c (evenParity 0x50000000)
                    else [])
                ++ idleOps d c) /\
  (exists r s',
      dpRead (env := target (answerWAIT ++ writeOK))
             2 CTRLSTAT false 0x50000000 s = Some (r, s') /\
      gpio s' = gpio s
                ++ List.concat
                     (repeat (waitOps d c (packHeader CTRLSTAT false true)) 1)
                ++ attemptOps d c (packHeader CTRLSTAT false true)
                ++ (if ackAt (env := target (answerWAIT ++ writeOK)) s 1 =? 1
                    then clockOps c 33 else [])
                ++ turnaroundOps d c
                ++ idleOps d c).
Proof.
  apply (transaction_trace (env := target (answerWAIT ++ writeOK))
           2 CTRLSTAT false 0x50000000 (ready ERROR_LEVEL) 1).
  - lia.
  - split.
    + intros j Hj. assert (j = 0%nat) as -> by lia. vm_compute. reflexivity.
    + vm_compute. discriminate.
Defined.

Lemma select_fields_witness :
  dpSelect (env := target []) 1 (0 + 256) MEM_CSW (ready ERROR_LEVEL)
  = Some (true, ready ERROR_LEVEL).
Proof.
  destruct (select_fields (env := target []) 0 MEM_CSW) as (_ & _ & H).
  apply (H 1%nat (ready ERROR_LEVEL)). reflexivity.
Defined.

Lemma transaction_prints_witness :
  exists ok data' s',
    dpRead (env := target (readBadParity 0x1234))
           1 RDBUFF false 77 (ready ERROR_LEVEL)
    = Some ((ok, data'), s') /\
    serial s'
    = serial (ready ERROR_LEVEL)
      ++ (if ok then []
          else if (ERROR_LEVEL <=? logLevel (ready ERROR_LEVEL))
                  && serialReady (ready ERROR_LEVEL)
               then [if ackAt (env := target (readBadParity 0x1234))
                              (ready ERROR_LEVEL) 0 =? 1
                     then parityDiagnostic RDBUFF false data'
                     else readRefusal
                            (ackAt (env := target (readBadParity 0x1234))
                                   (ready ERROR_LEVEL) 0)
                            RDBUFF false]
               else []).
Proof.
  destruct (transaction_prints (env := target (readBadParity 0x1234))
              1 RDBUFF false 77 (ready ERROR_LEVEL) 0) as [_ H].
  - lia.
  - split; [intros j Hj; lia|vm_compute; discriminate].
  - vm_compute. reflexivity.
  - exact H.
Defined.

(** ** The claims on the wire at concrete inputs *)

(** C6 (counterexample).  Two accesses in a row to port 0, bank 0: after
    a [begin] that left that selection in the cache both succeed and
    no SELECT write is made, the pins carrying the write to TAR and
    the write to DRW in 108 clock pulses and nothing else; and with the
    cache invalid and the first SELECT write answered by FAULT, the
    first access fails and the second writes SELECT again, so that the
    pins carry two SELECT writes and then the write to DRW. *)
Lemma two_accesses_not_one_select :
  (option_map fst cachedFirst = Some true /\
   option_map fst cachedSecond = Some true /\
   dpLog (final cachedSecond fresh)
   = dpLog (final cachedBegin fresh)
     ++ [DpW MEM_TAR true 5 true; DpW MEM_DRW true 7 true] /\
   pulses (final cachedSecond fresh)
   = (pulses (final cachedBegin fresh) + 108)%nat /\
   gpio (final cachedSecond fresh)
   = gpio (final cachedBegin fresh)
     ++ writeTrace 14 13 (packHeader MEM_TAR true false) 5 0 true
     ++ writeTrace 14 13 (packHeader MEM_DRW true false) 7 0 true) /\
  (option_map fst refusedFirst = Some false /\
   option_map fst refusedSecond = Some true /\
   dpLog (final refusedSecond fresh)
   = [DpW SELECT false 0 false; DpW SELECT false 0 true;
      DpW MEM_DRW true 7 true] /\
   pulses (final refusedSecond fresh) = (21 + 54 + 54)%nat /\
   gpio (final refusedSecond fresh)
   = writeTrace 14 13 (packHeader SELECT false false) 0 0 false
     ++ writeTrace 14 13 (packHeader SELECT false false) 0 0 true
     ++ writeTrace 14 13 (packHeader MEM_DRW true false) 7 0 true).
Proof. repeat apply conj; vm_compute; reflexivity. Qed.

Lemma dpRead_failure_data_witness :
  exists k,
    (k < 1)%nat /\
    answeredAt (env := target (readBadParity 0x1234)) (ready ERROR_LEVEL) k /\
    pulses (final badParityRead fresh)
    = (pulses (ready ERROR_LEVEL) + 21 * k
       + if (ackAt (env := target (readBadParity 0x1234))
                   (ready ERROR_LEVEL) k =? 1)%Z
         then 54 else 21)%nat /\
    ((ackAt (env := target (readBadParity 0x1234)) (ready ERROR_LEVEL) k <> 1
      /\ 0x1234 = 77) \/
     parityErrorAt (env := target (readBadParity 0x1234))
                   (ready ERROR_LEVEL) k 0x1234).
Proof.
  apply (dpRead_failure_data (env := target (readBadParity 0x1234))
           1 RDBUFF false 77 (ready ERROR_LEVEL)
           0x1234 (final badParityRead fresh)).
  vm_compute. reflexivity.
Defined.

Lemma select_cache_invariant_witness :
  dpSelect (env := target []) 1 0 MEM_TAR (ready ERROR_LEVEL)
  = Some (true, ready ERROR_LEVEL)
  /\
  match dpSelect (env := target writeOK)
                 1 0 MEM_IDR (invalidated ERROR_LEVEL) with
  | Some (ok, s') =>
      realised (env := target writeOK) 14 13 [DpW SELECT false 0xF0 ok]
               (invalidated ERROR_LEVEL) s' /\
      cache_select s' = (if ok then 0xF0 else 0xFFFFFFFF)
  | None => stalled (env := target writeOK) 1 14 13 []
                    (invalidated ERROR_LEVEL)
  end
  /\
  (exists txns,
      realised (env := target twoAccesses) 14 13 txns
               (invalidated ERROR_LEVEL) (final secondAccess fresh) /\
      ((0xF0 = 0xFFFFFFFF /\ selectWrites txns = []) \/
       (0xF0 <> 0xFFFFFFFF /\
        selectWrites txns = [DpW SELECT false 0xF0 true]) \/
       (0xF0 <> 0xFFFFFFFF /\ true = false /\
        exists ok',
          selectWrites txns
          = [DpW SELECT false 0xF0 false; DpW SELECT false 0xF0 ok'])))
  /\
  (exists s0 txns,
      realised (env := target healthy) 14 13 (DpInit :: txns) s0
               (final healthyBegin fresh) /\
      cache_select (final healthyBegin fresh) = lastSelect (DpInit :: txns)).
Proof.
  split; [|split; [|split]].
  - destruct (select_cache_invariant (env := target [])
                1 0 MEM_TAR (ready ERROR_LEVEL)) as (H & _).
    apply H. reflexivity.
  - destruct (select_cache_invariant (env := target writeOK)
                1 0 MEM_IDR (invalidated ERROR_LEVEL)) as (_ & H & _).
    apply H. vm_compute. discriminate.
  - destruct (select_cache_invariant (env := target twoAccesses)
                1 0 MEM_IDR (invalidated ERROR_LEVEL)) as (_ & _ & H & _).
    apply (H 0xF4 (ApCallR 0) (ApCallW 5) true (final firstAccess fresh)
             true (final secondAccess fresh)).
    + reflexivity.
    + vm_compute. reflexivity.
    + vm_compute. reflexivity.
  - destruct (select_cache_invariant (env := target healthy)
                1 0 MEM_IDR (final healthyBegin fresh)) as (_ & _ & _ & H).
    apply H.
    apply (reach_begin (env := target healthy)
             1 13 14 NORMAL_LEVEL 0 fresh true).
    vm_compute. reflexivity.
Defined.

Lemma memStoreN_writes_witness :
  apLog (final storeThree fresh)
  = apLog (ready TRACE_LEVEL)
    ++ ApW 0 MEM_TAR 0x20000000 true :: drwWrites threeWords 0 3 /\
  realised (env := target (writeOK ++ writeOK ++ writeOK ++ writeOK)) 14 13
           [DpW MEM_TAR true 0x20000000 true; DpW MEM_DRW true 0x11 true;
            DpW MEM_DRW true 0x22 true; DpW MEM_DRW true 0x33 true]
           (ready TRACE_LEVEL) (final storeThree fresh).
Proof.
  pose proof (memStoreN_writes
                (env := target (writeOK ++ writeOK ++ writeOK ++ writeOK))
                1 0x20000000 threeWords 3 (ready TRACE_LEVEL)) as H.
  cbv zeta in H.
  assert (E : memStoreN
                (env := target (writeOK ++ writeOK ++ writeOK ++ writeOK))
                1 0x20000000 threeWords 3 (ready TRACE_LEVEL)
              = Some (true, final storeThree fresh))
    by (vm_compute; reflexivity).
  rewrite E in H. exact H.
Defined.

Lemma select_never_sentinel_witness :
  match dpSelect (env := target writeOK)
                 1 0 MEM_IDR (invalidated ERROR_LEVEL) with
  | Some (ok, s') =>
      realised (env := target writeOK) 14 13 [DpW SELECT false 0xF0 ok]
               (invalidated ERROR_LEVEL) s' /\
      cache_select s' = (if ok then 0xF0 else 0xFFFFFFFF)
  | None => stalled (env := target writeOK) 1 14 13 []
                    (invalidated ERROR_LEVEL)
  end
  /\
  (exists txns,
      realised (env := target healthy) 14 13 (DpInit :: txns) fresh
               (final healthyBegin fresh) /\
      ((true = false /\ selectWrites txns = [] /\
        cache_select (final healthyBegin fresh) = 0xFFFFFFFF) \/
       exists pre okS post,
         selectWrites pre = [] /\
         txns = pre ++ DpW SELECT false 0xF0 okS :: post)).
Proof.
  split.
  - destruct (select_never_sentinel (env := target writeOK)
                1 0 MEM_IDR (invalidated ERROR_LEVEL)) as (_ & _ & H & _).
    apply H. reflexivity.
  - destruct (select_never_sentinel (env := target healthy)
                1 0 MEM_IDR fresh) as (_ & _ & _ & H).
    apply (H 13 14 NORMAL_LEVEL 0 true (final healthyBegin fresh)).
    vm_compute. reflexivity.
Defined.

Lemma memLoadN_reads_witness :
  realised (env := target twoWords) 14 13
           (DpW MEM_TAR true 0x20000000 true :: wordsRead loadedWords 0 2)
           (ready ERROR_LEVEL) (final loadTwo fresh) /\
  (forall j, (2 <= j)%nat -> loadedWords j = 0) /\
  wordsRead loadedWords 0 2
  = [DpR MEM_DRW true 0xAA true; DpR MEM_DRW true 0xBB true].
Proof.
  pose proof (memLoadN_reads (env := target twoWords)
                1 0x20000000 (fun _ => 0) 2 (ready ERROR_LEVEL)) as H.
  cbv zeta in H.
  assert (E : memLoadN (env := target twoWords)
                1 0x20000000 (fun _ => 0) 2 (ready ERROR_LEVEL)
              = Some ((true, loadedWords), final loadTwo fresh))
    by (vm_compute; reflexivity).
  rewrite E in H. destruct H as [R Hout].
  split; [exact R|]. split; [exact Hout|]. vm_compute. reflexivity.
Defined.

Lemma begin_success_witness :
  config (final healthyBegin fresh) = (13, 14, NORMAL_LEVEL, true) /\
  cache_select (final healthyBegin fresh) = 0 /\
  exists idcode polls idr,
    realised (env := target healthy) 14 13
             ([DpInit; DpR IDCODE false idcode true;
               DpW CTRLSTAT false 0x50000000 true]
              ++ polls
              ++ [DpW SELECT false 0xF0 true; DpR MEM_IDR true idr true;
                  DpW SELECT false 0 true; DpW MEM_CSW true 0x52 true])
             fresh (final healthyBegin fresh).
Proof.
  destruct (begin_success (env := target healthy)
              1 13 14 NORMAL_LEVEL 0 fresh (final healthyBegin fresh))
    as (Hc & Hs & idcode & polls & idr & _ & _ & _ & _ & R & _).
  - vm_compute. reflexivity.
  - split; [exact Hc|]. split; [exact Hs|].
    exists idcode, polls, idr. exact R.
Defined.

Lemma begin_identifies_first_witness :
  config (final wrongPartBegin fresh) = (13, 14, NORMAL_LEVEL, true) /\
  exists idcode ok1 rest,
    realised (env := target wrongPart) 14 13
             (DpInit :: DpR IDCODE false idcode ok1 :: rest)
             fresh (final wrongPartBegin fresh) /\
    (ok1 && partNumberOk idcode = false ->
     false = false /\ rest = [] /\
     apLog (final wrongPartBegin fresh) = apLog fresh /\
     cache_select (final wrongPartBegin fresh) = 0xFFFFFFFF) /\
    (rest <> [] -> ok1 = true /\ partNumberOk idcode = true).
Proof.
  apply (begin_identifies_first (env := target wrongPart)
           1 13 14 NORMAL_LEVEL 0 fresh false (final wrongPartBegin fresh)).
  vm_compute. reflexivity.
Defined.



(** ** The scenarios of the design document *)

Example begin_healthy :
  outcome healthyBegin
  = Some (true,
          [("Found ARM processor debug port (IDCODE: %08x)", [0x2BA01477])])
  /\ cache_select (final healthyBegin fresh) = 0
  /\ dpLog (final healthyBegin fresh)
     = [DpInit;
        DpR IDCODE false 0x2BA01477 true;
        DpW CTRLSTAT false 0x50000000 true;
        DpR CTRLSTAT false 0xF0000000 true;
        DpW SELECT false 0xF0 true;
        DpR MEM_IDR true 0x24770011 true;
        DpW SELECT false 0 true;
        DpW MEM_CSW true 0x52 true].
Proof. repeat split; vm_compute; reflexivity. Qed.

Example begin_unrecognized_part :
  outcome (begin (env := target (preamble ++ readOK 0xFFFFFFFF))
                 1 13 14 NORMAL_LEVEL 0 fresh)
  = Some (false,
          [("ARM Debug Port has an incorrect part number (IDCODE: %08x)",
            [0xFFFFFFFF])]).
Proof. vm_compute. reflexivity. Qed.

Example begin_no_target :
  outcome (begin (env := target [])
                 1 13 14 NORMAL_LEVEL 0 fresh)
  = Some (false,
          [("PROTOCOL ERROR response during read (ack=%x addr=%x APnDP=%d)",
            [7; IDCODE; 0]);
           ("No ARM processor detected. Check power and cables?", [])]).
Proof. vm_compute. reflexivity. Qed.

Example storeThree_written :
  option_map fst storeThree = Some true
  /\ apLog (final storeThree fresh)
     = [ApW 0 MEM_TAR 0x20000000 true; ApW 0 MEM_DRW 0x11 true;
        ApW 0 MEM_DRW 0x22 true; ApW 0 MEM_DRW 0x33 true]
  /\ pulses (final storeThree fresh) = (4 * 54)%nat.
Proof. repeat split; vm_compute; reflexivity. Qed.

Example storeThree_faulted :
  outcome storeThreeFaulted
  = Some (false,
          [("FAULT response during write (addr=%x APnDP=%d data=%08x)",
            [MEM_DRW; 1; 0x22])])
  /\ dpLog (final storeThreeFaulted fresh)
     = [DpW MEM_TAR true 0x20000000 true; DpW MEM_DRW true 0x11 true;
        DpW MEM_DRW true 0x22 false].
Proof. repeat split; vm_compute; reflexivity. Qed.

Example evenParity_one_bit : evenParity 0x00010000 = true.
Proof. reflexivity. Qed.

Example evenParity_all_bits : evenParity 0xFFFFFFFF = false.
Proof. reflexivity. Qed.

Example packHeader_select_write : packHeader SELECT false false = 0xB1.
Proof. reflexivity. Qed.

Example packHeader_idcode_read : packHeader IDCODE false true = 0xA5.
Proof. reflexivity. Qed.
